(** * ass2vtt: [gui_converter.py]

    A shallow embedding of [ConversionWorker] (timestamp conversion, text
    cleanup, parsing of the Events section, assembly of the WebVTT document,
    the per-file conversion and the batch loop) and of the window
    [AssToVttConverter] that drives it (the list of files, the language
    tables, the slots of the buttons and of the signals of the worker),
    together with the Python built-ins they call, followed by the
    properties of the specification and of the code.

    Conventions of the embedding.
    - A Python [str] is a [string]; a character is a code point below 256.
      On that range the whitespace of [str.strip] and the literals accepted
      by [int] are written out exactly.
    - A Python [int] is a [Z].  [int(str)] refuses a literal of more than
      4300 digits, the default of [sys.set_int_max_str_digits], which the
      program does not change.  [str(int)] and the [d] formats have the same
      limit; the numbers the program prints are results of [int(str)], which
      stay within it ([parse_within_limit]), and positions in a list.
    - A [float] is the rational it stands for; division and multiplication
      round to 53 bits, to nearest, ties to even.
    - A raised exception is a value of [exn]; fallible code returns a
      [result].  An [re.error] never leaves [clean_ass_formatting]: it is
      an outcome of the functions of [Re].
    - [os.path] is [posixpath].  Files are read with universal newlines.
    - A signal emitted is an element of the list of signals [run] returns;
      the file system is passed along. *)

From Stdlib Require Import String Ascii List ZArith Lia Bool Arith Sorted.
From Stdlib Require Import QArith Qround Qpower Lqa.
Close Scope Q_scope.
Import ListNotations.

Open Scope string_scope.

(** ** Exceptions *)

Inductive exn : Type :=
| ValueError
| FileNotFoundError (msg : string)
| UnicodeDecodeError (msg : string)
| OSError (msg : string).

Inductive result (A : Type) : Type :=
| Ok (a : A)
| Raise (e : exn).

Arguments Ok {A} a.
Arguments Raise {A} e.

Definition bind {A B : Type} (r : result A) (k : A -> result B) : result B :=
  match r with
  | Ok a => k a
  | Raise e => Raise e
  end.

Notation "x <- r ;; k" := (bind r (fun x => k))
  (at level 61, r at next level, right associativity).

Definition is_ok {A : Type} (r : result A) : bool :=
  match r with Ok _ => true | Raise _ => false end.

(** [str(e)] *)
Definition str_of_exn (e : exn) : string :=
  match e with
  | ValueError => ""
  | FileNotFoundError m => m
  | UnicodeDecodeError m => m
  | OSError m => m
  end.

(** The places, counted from [i], of the elements of a list that satisfy
    [p]. *)
Fixpoint positions {A : Type} (p : A -> bool) (i : nat) (l : list A)
  : list nat :=
  match l with
  | [] => []
  | a :: rest =>
      if p a then i :: positions p (S i) rest else positions p (S i) rest
  end.

(** ** Python strings *)

Module PyStr.

Definition nl : string := String (ascii_of_nat 10) "".

Definition code (c : ascii) : nat := nat_of_ascii c.

Definition between (lo hi n : nat) : bool := (lo <=? n)%nat && (n <=? hi)%nat.

(** The characters [str.strip()] removes: TAB..CR, FS..US and space, NEL,
    NBSP. *)
Definition isspace (c : ascii) : bool :=
  between 9 13 (code c) || between 28 32 (code c)
  || (code c =? 133)%nat || (code c =? 160)%nat.

Fixpoint lstrip_by (ws : ascii -> bool) (s : string) : string :=
  match s with
  | String c s' => if ws c then lstrip_by ws s' else s
  | EmptyString => EmptyString
  end.

Fixpoint rstrip_by (ws : ascii -> bool) (s : string) : string :=
  match s with
  | EmptyString => EmptyString
  | String c s' =>
      match rstrip_by ws s' with
      | EmptyString => if ws c then EmptyString else String c EmptyString
      | r => String c r
      end
  end.

Definition strip_by (ws : ascii -> bool) (s : string) : string :=
  rstrip_by ws (lstrip_by ws s).

(** [s.strip()] *)
Definition strip (s : string) : string := strip_by isspace s.

(** [s.startswith(p)] *)
Fixpoint startswith (s p : string) {struct p} : bool :=
  match p with
  | EmptyString => true
  | String c p' =>
      match s with
      | String d s' => Ascii.eqb d c && startswith s' p'
      | EmptyString => false
      end
  end.

Definition may_split (maxsplit : option nat) : bool :=
  match maxsplit with
  | Some O => false
  | _ => true
  end.

Definition one_less (maxsplit : option nat) : option nat :=
  option_map Nat.pred maxsplit.

(** [s.split(sep)] is [split sep None s] and [s.split(sep, n)] is
    [split sep (Some n) s], for a separator of one character. *)
Fixpoint split (sep : ascii) (maxsplit : option nat) (s : string)
  : list string :=
  match s with
  | EmptyString => [EmptyString]
  | String c s' =>
      if Ascii.eqb c sep && may_split maxsplit
      then EmptyString :: split sep (one_less maxsplit) s'
      else match split sep maxsplit s' with
           | p :: ps => String c p :: ps
           | [] => [String c EmptyString]
           end
  end.

(** [sep.join(l)] *)
Definition join (sep : string) (l : list string) : string := String.concat sep l.

(** [s.find(c)], with [None] for [-1] *)
Fixpoint find_char (c : ascii) (s : string) : option nat :=
  match s with
  | EmptyString => None
  | String d s' =>
      if Ascii.eqb d c then Some O else option_map S (find_char c s')
  end.

Fixpoint drop (n : nat) (s : string) : string :=
  match n, s with
  | O, _ => s
  | S n', String _ s' => drop n' s'
  | S _, EmptyString => EmptyString
  end.

(** [c in s] for a single character *)
Fixpoint contains (c : ascii) (s : string) : bool :=
  match s with
  | EmptyString => false
  | String d s' => Ascii.eqb d c || contains c s'
  end.

Fixpoint all_chars (p : ascii -> bool) (s : string) : bool :=
  match s with
  | EmptyString => true
  | String c s' => p c && all_chars p s'
  end.

(** [c.isprintable()], below 256: the control characters, the no-break
    space and the soft hyphen are not. *)
Definition isprintable (c : ascii) : bool :=
  between 32 126 (code c)
  || (between 161 255 (code c) && negb (code c =? 173)%nat).

Definition hex_digit (n : nat) : ascii :=
  if (n <? 10)%nat then ascii_of_nat (48 + n) else ascii_of_nat (87 + n).

(** One character as [repr] writes it between the quotes [quote]. *)
Definition escape (quote c : ascii) : string :=
  if Ascii.eqb c quote || Ascii.eqb c "\"
  then String "\" (String c "")
  else if (code c =? 9)%nat then "\t"
  else if (code c =? 10)%nat then "\n"
  else if (code c =? 13)%nat then "\r"
  else if isprintable c then String c ""
  else "\x" ++ String (hex_digit (code c / 16))
                 (String (hex_digit (code c mod 16)) "").

Fixpoint escaped (quote : ascii) (s : string) : string :=
  match s with
  | EmptyString => EmptyString
  | String c s' => escape quote c ++ escaped quote s'
  end.

(** [repr(s)]: between double quotes when [s] holds a single quote and no
    double quote, between single quotes otherwise. *)
Definition repr (s : string) : string :=
  let quote :=
    if contains "'" s && negb (contains (ascii_of_nat 34) s)
    then ascii_of_nat 34 else "'"%char in
  String quote (escaped quote s ++ String quote "").

(** [a] is [b] with some characters deleted. *)
Inductive Subseq : string -> string -> Prop :=
| subseq_nil : Subseq "" ""
| subseq_keep (c : ascii) (a b : string) :
    Subseq a b -> Subseq (String c a) (String c b)
| subseq_drop (c : ascii) (a b : string) : Subseq a b -> Subseq a (String c b).

End PyStr.

(** ** Python integers: [int(str)], [str(int)] and the [02d] format *)

Module PyInt.

Definition is_digit (c : ascii) : bool := PyStr.between 48 57 (PyStr.code c).

Definition digit_value (c : ascii) : Z := Z.of_nat (PyStr.code c - 48).

Definition digit_char (d : Z) : ascii := ascii_of_nat (48 + Z.to_nat d).

(** The whitespace [int] skips around a literal: TAB..CR, space, NEL and
    NBSP (FS..US are not skipped). *)
Definition int_space (c : ascii) : bool :=
  PyStr.between 9 13 (PyStr.code c) || (PyStr.code c =? 32)%nat
  || (PyStr.code c =? 133)%nat || (PyStr.code c =? 160)%nat.

(** Digits with single underscores between them; [after_digit] tells
    whether the previous character was a digit. *)
Fixpoint digits (acc : Z) (after_digit : bool) (s : string) : option Z :=
  match s with
  | EmptyString => if after_digit then Some acc else None
  | String c s' =>
      if is_digit c then digits (10 * acc + digit_value c)%Z true s'
      else if Ascii.eqb c "_" && after_digit then digits acc false s'
      else None
  end.

(** [sys.int_info.default_max_str_digits] *)
Definition max_str_digits : nat := 4300.

(** The number of digits of a literal: underscores are not counted, leading
    zeros are. *)
Fixpoint count_digits (s : string) : nat :=
  match s with
  | EmptyString => O
  | String c s' => if is_digit c then S (count_digits s') else count_digits s'
  end.

(** A literal without its sign; more than [max_str_digits] digits are
    refused. *)
Definition literal (ds : string) : option Z :=
  if (count_digits ds <=? max_str_digits)%nat then digits 0%Z false ds
  else None.

(** [int(s)]: [None] stands for [ValueError]. *)
Definition parse (s : string) : option Z :=
  match PyStr.strip_by int_space s with
  | String "+" ds => literal ds
  | String "-" ds => option_map Z.opp (literal ds)
  | ds => literal ds
  end.

Fixpoint dec_go (fuel : nat) (n : Z) (acc : string) : string :=
  let acc' := String (digit_char (n mod 10)%Z) acc in
  match fuel with
  | O => acc'
  | S f => if (n <? 10)%Z then acc' else dec_go f (n / 10)%Z acc'
  end.

(** Decimal digits of [n >= 0], without leading zeros. *)
Definition dec (n : Z) : string := dec_go (Z.to_nat (Z.log2 n)) n "".

(** [str(n)], also [f"{n}"] *)
Definition to_str (n : Z) : string :=
  if (n <? 0)%Z then "-" ++ dec (- n) else dec n.

Fixpoint zeros (k : nat) : string :=
  match k with
  | O => ""
  | S k' => String "0" (zeros k')
  end.

(** [f"{n:02d}"]: the sign counts in the width and the zeros come after
    it. *)
Definition format_02d (n : Z) : string :=
  if (n <? 0)%Z
  then "-" ++ zeros (1 - String.length (dec (- n))) ++ dec (- n)
  else zeros (2 - String.length (dec n)) ++ dec n.

End PyInt.

(** ** Regular expressions: the part of [re] the program relies on

    [compile] follows the parser of [re] on the syntax the four patterns of
    the program are written in: literal characters, backslash escapes of
    punctuation, character sets [[...]] and [[^...]], capture groups, and
    the quantifiers [?], [*] and their lazy forms on a single character or
    set.  A pattern using any other construct is reported as [Outside]
    rather than interpreted. *)

Module Re.

Inductive token : Type :=
| Ch (c : ascii)
| Esc (c : ascii)
| EscEnd.

Fixpoint tokenize (p : string) : list token :=
  match p with
  | EmptyString => []
  | String "\" EmptyString => [EscEnd]
  | String "\" (String c r) => Esc c :: tokenize r
  | String c r => Ch c :: tokenize r
  end.

Inductive atom : Type :=
| Lit (c : ascii)
| CharSet (negate : bool) (members : list ascii).

Inductive quant : Type :=
| One
| Opt (greedy : bool)
| Star (greedy : bool).

Inductive item : Type :=
| Atom (a : atom) (q : quant)
| GroupOpen (k : nat)
| GroupClose (k : nat).

Definition regex : Type := list item.

Inductive outcome (A : Type) : Type :=
| Done (a : A)
| Error (msg : string)
| Outside.

Arguments Done {A} a.
Arguments Error {A} msg.
Arguments Outside {A}.

Definition is_alnum (c : ascii) : bool :=
  PyStr.between 48 57 (PyStr.code c) || PyStr.between 65 90 (PyStr.code c)
  || PyStr.between 97 122 (PyStr.code c).

(** Where the parser stands: in the pattern proper, just after [[], or
    inside a set. *)
Inductive mode : Type :=
| Top
| SetOpen
| InSet (negate : bool) (members : list ascii).

Record pstate : Type := mk_pstate {
  items : list item;        (* parsed so far, last first *)
  open_groups : list nat;   (* groups not yet closed, innermost first *)
  ngroups : nat;            (* groups opened so far *)
  where_ : mode
}.

Definition push (st : pstate) (i : item) : pstate :=
  mk_pstate (i :: items st) (open_groups st) (ngroups st) Top.

Definition in_set (st : pstate) (neg : bool) (ms : list ascii) : pstate :=
  mk_pstate (items st) (open_groups st) (ngroups st) (InSet neg ms).

(** A quantifier character after the items parsed so far. *)
Definition repeat (st : pstate) (c : ascii) : outcome pstate :=
  match items st with
  | [] => Error "nothing to repeat"
  | Atom a One :: r =>
      let q := if Ascii.eqb c "*" then Star true else Opt true in
      Done (mk_pstate (Atom a q :: r) (open_groups st) (ngroups st) Top)
  | Atom a (Opt true) :: r =>
      if Ascii.eqb c "?"
      then Done (mk_pstate (Atom a (Opt false) :: r) (open_groups st)
                   (ngroups st) Top)
      else Error "multiple repeat"
  | Atom a (Star true) :: r =>
      if Ascii.eqb c "?"
      then Done (mk_pstate (Atom a (Star false) :: r) (open_groups st)
                   (ngroups st) Top)
      else Error "multiple repeat"
  | Atom _ _ :: _ => Error "multiple repeat"
  | GroupOpen _ :: _ => Outside
  | GroupClose _ :: _ => Outside
  end.

Definition step_top (st : pstate) (t : token) : outcome pstate :=
  match t with
  | EscEnd => Error "bad escape (end of pattern)"
  | Esc c => if is_alnum c then Outside else Done (push st (Atom (Lit c) One))
  | Ch "[" => Done (mk_pstate (items st) (open_groups st) (ngroups st) SetOpen)
  | Ch "(" =>
      let k := S (ngroups st) in
      Done (mk_pstate (GroupOpen k :: items st) (k :: open_groups st) k Top)
  | Ch ")" =>
      match open_groups st with
      | [] => Error "unbalanced parenthesis"
      | k :: ks =>
          Done (mk_pstate (GroupClose k :: items st) ks (ngroups st) Top)
      end
  | Ch "*" => repeat st "*"
  | Ch "?" => repeat st "?"
  | Ch "." | Ch "^" | Ch "$" | Ch "|" | Ch "+" | Ch "{" => Outside
  | Ch c => Done (push st (Atom (Lit c) One))
  end.

(** One element of a set; a [[]] closes the set only when the set already
    has a member. *)
Definition step_set (st : pstate) (neg : bool) (ms : list ascii) (t : token)
  : outcome pstate :=
  match t with
  | EscEnd => Error "bad escape (end of pattern)"
  | Esc c => if is_alnum c then Outside else Done (in_set st neg (ms ++ [c]))
  | Ch "]" =>
      match ms with
      | [] => Done (in_set st neg ["]"%char])
      | _ => Done (push st (Atom (CharSet neg ms) One))
      end
  | Ch "-" => Outside
  | Ch c => Done (in_set st neg (ms ++ [c]))
  end.

Definition step (st : pstate) (t : token) : outcome pstate :=
  match where_ st with
  | Top => step_top st t
  | SetOpen =>
      match t with
      | Ch "^" => Done (in_set st true [])
      | _ => step_set st false [] t
      end
  | InSet neg ms => step_set st neg ms t
  end.

(** The tokenizer reads one token ahead: a backslash that ends the pattern
    is reported when the token before it is taken, before that token is
    parsed.  A closing parenthesis is looked at before it is taken, so one
    that closes nothing is reported first. *)
Fixpoint parse (st : pstate) (ts : list token) : outcome regex :=
  match ts with
  | [] =>
      match where_ st, open_groups st with
      | Top, [] => Done (rev (items st))
      | Top, _ :: _ => Error "missing ), unterminated subpattern"
      | _, _ => Error "unterminated character set"
      end
  | t :: ts' =>
      match t, where_ st, open_groups st, ts' with
      | Ch ")", Top, [], _ => Error "unbalanced parenthesis"
      | _, _, _, EscEnd :: _ => Error "bad escape (end of pattern)"
      | _, _, _, _ =>
          match step st t with
          | Done st' => parse st' ts'
          | Error m => Error m
          | Outside => Outside
          end
      end
  end.

(** [re.compile(p)] *)
Definition compile (p : string) : outcome regex :=
  parse (mk_pstate [] [] 0 Top) (tokenize p).

Definition accepts (a : atom) (c : ascii) : bool :=
  match a with
  | Lit d => Ascii.eqb c d
  | CharSet neg ms => xorb neg (existsb (Ascii.eqb c) ms)
  end.

(** Spans of the groups: starts of the groups entered, and the groups
    matched as [(k, (start, stop))]. *)
Record spans : Type := mk_spans {
  starts : list (nat * nat);
  closed : list (nat * (nat * nat))
}.

Fixpoint assoc {A : Type} (k : nat) (l : list (nat * A)) : option A :=
  match l with
  | [] => None
  | (k', v) :: l' => if (k =? k')%nat then Some v else assoc k l'
  end.

Definition or_else {A : Type} (x y : option A) : option A :=
  match x with
  | Some _ => x
  | None => y
  end.

(** Backtracking match of [r] at the head of [s], which starts at offset
    [pos] of the subject: the offset where the match stops and the groups.
    A match that would stop before [floor] is refused and the search goes
    on; this is how an empty match is excluded. *)
Fixpoint match_here (r : regex) (floor : nat) (s : string) (pos : nat)
  (g : spans) : option (nat * spans) :=
  match r with
  | [] => if (floor <=? pos)%nat then Some (pos, g) else None
  | GroupOpen k :: r' =>
      match_here r' floor s pos (mk_spans ((k, pos) :: starts g) (closed g))
  | GroupClose k :: r' =>
      match assoc k (starts g) with
      | Some b => match_here r' floor s pos
                    (mk_spans (starts g) ((k, (b, pos)) :: closed g))
      | None => None
      end
  | Atom a One :: r' =>
      match s with
      | String c s' =>
          if accepts a c then match_here r' floor s' (S pos) g else None
      | EmptyString => None
      end
  | Atom a (Opt greedy) :: r' =>
      let taken :=
        match s with
        | String c s' =>
            if accepts a c then match_here r' floor s' (S pos) g else None
        | EmptyString => None
        end in
      if greedy then or_else taken (match_here r' floor s pos g)
      else or_else (match_here r' floor s pos g) taken
  | Atom a (Star greedy) :: r' =>
      (fix star (s : string) (pos : nat) : option (nat * spans) :=
         match s with
         | String c s' =>
             if accepts a c
             then if greedy
                  then or_else (star s' (S pos)) (match_here r' floor s pos g)
                  else or_else (match_here r' floor s pos g) (star s' (S pos))
             else match_here r' floor s pos g
         | EmptyString => match_here r' floor s pos g
         end) s pos
  end.

(** The replacement template. *)
Inductive piece : Type :=
| Text (c : ascii)
| GroupRef (k : nat).

Fixpoint template (groups : nat) (repl : string) : outcome (list piece) :=
  match repl with
  | EmptyString => Done []
  | String "\" EmptyString => Error "bad escape (end of pattern)"
  | String "\" (String c r) =>
      if Ascii.eqb c "\"
      then match template groups r with
           | Done ps => Done (Text "\" :: ps)
           | o => o
           end
      else if PyStr.between 49 57 (PyStr.code c)
      then match r with
           | String d _ =>
               if PyInt.is_digit d then Outside
               else if (PyStr.code c - 48 <=? groups)%nat
               then match template groups r with
                    | Done ps => Done (GroupRef (PyStr.code c - 48) :: ps)
                    | o => o
                    end
               else Error ("invalid group reference " ++ String c "")
           | EmptyString =>
               if (PyStr.code c - 48 <=? groups)%nat
               then Done [GroupRef (PyStr.code c - 48)]
               else Error ("invalid group reference " ++ String c "")
           end
      else Outside
  | String c r =>
      match template groups r with
      | Done ps => Done (Text c :: ps)
      | o => o
      end
  end.

Definition count_groups (r : regex) : nat :=
  List.length (filter (fun i => match i with GroupOpen _ => true | _ => false end) r).

Definition slice (b e : nat) (s : string) : string := substring b (e - b) s.

Fixpoint expand (tpl : list piece) (subject : string) (g : spans) : string :=
  match tpl with
  | [] => ""
  | Text c :: t => String c (expand t subject g)
  | GroupRef k :: t =>
      match assoc k (closed g) with
      | Some (b, e) => slice b e subject ++ expand t subject g
      | None => expand t subject g
      end
  end.

(** The substitution loop: leftmost matches, not overlapping; [skip]
    counts the characters of the current match still to pass over.  An
    empty match is replaced, and the match is tried once more at the same
    place, this time not empty; an empty match right after another match is
    allowed. *)
Fixpoint sub_loop (r : regex) (tpl : list piece) (subject : string)
  (skip pos : nat) (s : string) : string :=
  match skip with
  | S k =>
      match s with
      | String _ s' => sub_loop r tpl subject k (S pos) s'
      | EmptyString => ""
      end
  | O =>
      match match_here r pos s pos (mk_spans [] []) with
      | Some (e, g) =>
          let rep := expand tpl subject g in
          match s with
          | EmptyString => rep
          | String c s' =>
              if (e =? pos)%nat
              then
                match match_here r (S pos) s pos (mk_spans [] []) with
                | Some (e', g') =>
                    rep ++ expand tpl subject g'
                    ++ sub_loop r tpl subject (e' - pos - 1) (S pos) s'
                | None => rep ++ String c (sub_loop r tpl subject 0 (S pos) s')
                end
              else rep ++ sub_loop r tpl subject (e - pos - 1) (S pos) s'
          end
      | None =>
          match s with
          | EmptyString => ""
          | String c s' => String c (sub_loop r tpl subject 0 (S pos) s')
          end
      end
  end.

(** [re.sub(pattern, repl, text)] *)
Definition sub (pattern repl text : string) : outcome string :=
  match compile pattern with
  | Done r =>
      match template (count_groups r) repl with
      | Done tpl => Done (sub_loop r tpl text 0 0 text)
      | Error m => Error m
      | Outside => Outside
      end
  | Error m => Error m
  | Outside => Outside
  end.

End Re.

(** ** Binary floating point, as far as [int((i + 1) / total * 100)] needs it

    A finite [float] is the rational it stands for.  [rn] rounds a positive
    rational to the nearest number with a 53-bit significand, ties to even:
    it is what [/] on two [int]s and [*] on two [float]s do with the exact
    quotient and product.  The exponent range is not modelled: the quotients
    and products of the batch loop lie between [1/total] and [100], far from
    overflow and underflow for any list that fits in memory. *)

Module Float64.

Local Open Scope Q_scope.

Definition two : Q := 2 # 1.

(** [floor(log2 x)] for [x > 0]: [x] is first scaled above one. *)
Definition flog2 (x : Q) : Z :=
  let s := (Z.log2 (Zpos (Qden x)) + 1)%Z in
  (Z.log2 (Qfloor (x * two ^ s)) - s)%Z.

(** The nearest integer, ties to even. *)
Definition round_half_even (x : Q) : Z :=
  let q := Qfloor x in
  match Qcompare (x - inject_Z q) (1 # 2) with
  | Lt => q
  | Gt => (q + 1)%Z
  | Eq => if Z.even q then q else (q + 1)%Z
  end.

Definition rn (x : Q) : Q :=
  let e := (flog2 x - 52)%Z in
  inject_Z (round_half_even (x / two ^ e)) * two ^ e.

(** [a / b] for two positive [int]s *)
Definition truediv (a b : Z) : Q := rn (inject_Z a / inject_Z b).

(** [x * 100] *)
Definition times100 (x : Q) : Q := rn (x * inject_Z 100).

(** [int(x)] for [x >= 0] *)
Definition trunc (x : Q) : Z := Qfloor x.

End Float64.

(** ** [os.path], as [posixpath] has it *)

Module OsPath.

Fixpoint rfind (c : ascii) (s : string) : option nat :=
  match s with
  | EmptyString => None
  | String d s' =>
      match rfind c s' with
      | Some i => Some (S i)
      | None => if Ascii.eqb d c then Some O else None
      end
  end.

Definition after_sep (p : string) : nat :=
  match rfind "/" p with
  | Some i => S i
  | None => O
  end.

(** [os.path.basename(p)] *)
Definition basename (p : string) : string := PyStr.drop (after_sep p) p.

(** [os.path.splitext(p)[0]]: cut at the last dot of the last component,
    unless only dots precede it there. *)
Definition splitext_root (p : string) : string :=
  match rfind "." p with
  | Some dot =>
      let name := after_sep p in
      if (name <=? dot)%nat
         && negb (PyStr.all_chars (Ascii.eqb ".") (substring name (dot - name) p))
      then substring 0 dot p
      else p
  | None => p
  end.

End OsPath.

(** ** The file system

    A regular file either decodes as UTF-8 (with or without a byte-order
    mark, which the [utf-8-sig] reader drops) to a text, or it does not: then
    each of the two readers yields some lines before it raises
    [UnicodeDecodeError].  [refuses] is the operating system's answer to an
    [open] for reading, and to a write, that is to [open], [f.write] and the
    closing of the file: the message of the [OSError], if any.  A write is
    refused either by [open], the file being left as it was, or after [open]
    has created the file or emptied it: [left_behind] then gives what the
    file is left holding, nothing or a part of the text, and is [None] when
    it was [open] that raised.  The text of an error of [open] ends with
    the [repr] of the path.  A path names a file by its characters, and what
    is written is read back as written. *)

Module FS.

Inductive file_data : Type :=
| Text (content : string)
| Undecodable (bom_tolerant strict : list string) (msg : string).

Inductive node : Type :=
| Directory
| File (d : file_data).

Inductive open_mode : Type := Reading | Writing.

Record t : Type := mk {
  node_at : string -> option node;
  refuses : open_mode -> string -> option string;
  left_behind : string -> string -> option file_data
}.

(** [os.path.exists(p)] *)
Definition exists_ (fs : t) (p : string) : bool :=
  match node_at fs p with
  | Some _ => true
  | None => false
  end.

(** [open(p, 'r', ...)] *)
Definition open_read (fs : t) (p : string) : result file_data :=
  match refuses fs Reading p with
  | Some m => Raise (OSError m)
  | None =>
      match node_at fs p with
      | Some (File d) => Ok d
      | Some Directory =>
          Raise (OSError ("[Errno 21] Is a directory: " ++ PyStr.repr p))
      | None =>
          Raise (FileNotFoundError
                   ("[Errno 2] No such file or directory: " ++ PyStr.repr p))
      end
  end.

(** The file system with the file [d] at [p]. *)
Definition put (fs : t) (p : string) (d : file_data) : t :=
  mk (fun q => if String.eqb q p then Some (File d) else node_at fs q)
     (refuses fs) (left_behind fs).

(** [with open(p, 'w', ...) as f: f.write(content)], when it raises
    nothing. *)
Definition write (fs : t) (p content : string) : result t :=
  match refuses fs Writing p with
  | Some m => Raise (OSError m)
  | None =>
      match node_at fs p with
      | Some Directory =>
          Raise (OSError ("[Errno 21] Is a directory: " ++ PyStr.repr p))
      | _ => Ok (put fs p (Text content))
      end
  end.

(** The file system a write that raised leaves: a directory is never
    opened; a file that was opened holds what [left_behind] tells. *)
Definition interrupted (fs : t) (p content : string) : t :=
  match node_at fs p with
  | Some Directory => fs
  | _ =>
      match refuses fs Writing p, left_behind fs p content with
      | Some _, Some d => put fs p d
      | _, _ => fs
      end
  end.

(** Universal newlines: [\r\n] and [\r] are read as [\n]. *)
Fixpoint universal_newlines (text : string) : string :=
  match text with
  | EmptyString => EmptyString
  | String c rest =>
      if Ascii.eqb c (ascii_of_nat 13)
      then match rest with
           | String c' _ =>
               if Ascii.eqb c' (ascii_of_nat 10) then universal_newlines rest
               else String (ascii_of_nat 10) (universal_newlines rest)
           | EmptyString => PyStr.nl
           end
      else String c (universal_newlines rest)
  end.

(** The lines of a text, each with its [\n]; the last may lack it. *)
Fixpoint keepends (text : string) : list string :=
  match text with
  | EmptyString => []
  | String c rest =>
      if Ascii.eqb c (ascii_of_nat 10) then PyStr.nl :: keepends rest
      else match keepends rest with
           | [] => [String c EmptyString]
           | l :: ls => String c l :: ls
           end
  end.

(** The lines [for line in f] yields for a text. *)
Definition lines_of (text : string) : list string :=
  keepends (universal_newlines text).

End FS.

Module ConversionWorker.

(** [ass_time_to_vtt_time]: both unpackings raise [ValueError] unless the
    split gives exactly three, respectively two, fields; so does [int]. *)
Definition ass_time_to_vtt_time (ass_time : string) : result string :=
  match PyStr.split ":" None ass_time with
  | [hours; minutes; seconds] =>
      match PyStr.split "." None seconds with
      | [seconds; centiseconds] =>
          let milliseconds := centiseconds ++ "0" in
          match PyInt.parse hours, PyInt.parse minutes, PyInt.parse seconds with
          | Some h, Some m, Some s =>
              Ok (PyInt.format_02d h ++ ":" ++ PyInt.format_02d m ++ ":"
                  ++ PyInt.format_02d s ++ "." ++ milliseconds)
          | _, _, _ => Raise ValueError
          end
      | _ => Raise ValueError
      end
  | _ => Raise ValueError
  end.

(** The patterns of [clean_ass_formatting], as the raw strings of the
    source. *)
Definition block_pattern : string := "\{\\[^}]*\}".
Definition bold_pattern : string := "\{\\b1?\}([^]*?)\{\\b0\}".
Definition italic_pattern : string := "\{\\i1?\}([^]*?)\{\\i0\}".
Definition underline_pattern : string := "\{\\u1?\}([^]*?)\{\\u0\}".

(** The loop of the [except re.error] branch: [skip] is the number of
    characters up to and including the closing brace found by
    [text.find('}', i)]. *)
Fixpoint strip_loop (skip : nat) (text : string) : string :=
  match text with
  | EmptyString => ""
  | String c rest =>
      match skip with
      | S k => strip_loop k rest
      | O =>
          if Ascii.eqb c "{" && PyStr.startswith rest "\"
          then match PyStr.find_char "}" text with
               | Some j => strip_loop j rest
               | None => String c (strip_loop 0 rest)
               end
          else String c (strip_loop 0 rest)
      end
  end.

(** Does a [{] followed by a backslash occur in the text? *)
Fixpoint opens_block (text : string) : bool :=
  match text with
  | EmptyString => false
  | String c rest =>
      Ascii.eqb c "{" && PyStr.startswith rest "\" || opens_block rest
  end.

(** The first [try] of [clean_ass_formatting]. *)
Definition strip_override_blocks (text : string) : string :=
  match Re.sub block_pattern "" text with
  | Re.Done t => t
  | Re.Error _ => strip_loop 0 text
  | Re.Outside => text
  end.

(** The second [try]: the three substitutions in sequence, the first
    [re.error] leaving the [try]. *)
Definition pair_tags (text : string) : Re.outcome string :=
  match Re.sub bold_pattern "<b>\1</b>" text with
  | Re.Done t1 =>
      match Re.sub italic_pattern "<i>\1</i>" t1 with
      | Re.Done t2 => Re.sub underline_pattern "<u>\1</u>" t2
      | o => o
      end
  | o => o
  end.

Definition clean_ass_formatting (text : string) : string :=
  let text := strip_override_blocks text in
  match pair_tags text with
  | Re.Done t => t
  | Re.Error _ => text
  | Re.Outside => text
  end.

(** One subtitle event: [(start_time, end_time, clean_text)]. *)
Definition event : Type := string * string * string.

(** The state of the scanning loop of [parse_ass_file]. *)
Record scan_state : Type := mk_scan {
  subtitles : list event;
  in_events_section : bool
}.

Inductive flow : Type :=
| Next (st : scan_state)
| Break.

(** The body of [for line in f]. *)
Definition scan_line (st : scan_state) (line : string) : flow :=
  let line := PyStr.strip line in
  if PyStr.startswith line "[Events]"
  then Next (mk_scan (subtitles st) true)
  else if PyStr.startswith line "[" && in_events_section st
          && negb (PyStr.startswith line "[Events]")
  then Break
  else if in_events_section st && PyStr.startswith line "Dialogue:"
  then
    let parts := PyStr.split "," (Some 9) line in
    if (10 <=? List.length parts)%nat
    then
      let start_time := PyStr.strip (nth 1 parts "") in
      let end_time := PyStr.strip (nth 2 parts "") in
      let raw_text :=
        if (9 <? List.length parts)%nat then PyStr.strip (nth 9 parts "")
        else "" in
      let clean_text := clean_ass_formatting raw_text in
      Next (mk_scan (subtitles st ++ [(start_time, end_time, clean_text)])
              (in_events_section st))
    else Next st
  else Next st.

(** The loop over the lines a reader yields: the state it stops in, and
    whether it left by [break]. *)
Fixpoint scan (st : scan_state) (lines : list string) : scan_state * bool :=
  match lines with
  | [] => (st, false)
  | line :: rest =>
      match scan_line st line with
      | Next st' => scan st' rest
      | Break => (st, true)
      end
  end.

(** The events of a text whose lines are [lines]. *)
Definition parse_lines (lines : list string) : list event :=
  subtitles (fst (scan (mk_scan [] false) lines)).

(** [parse_ass_file]: when the first reader raises [UnicodeDecodeError]
    before the loop has left by [break], the second loop starts from the
    state the first one stopped in. *)
Definition parse_ass_file (fs : FS.t) (file_path : string)
  : result (list event) :=
  d <- FS.open_read fs file_path ;;
  match d with
  | FS.Text content => Ok (parse_lines (FS.lines_of content))
  | FS.Undecodable first second msg =>
      match scan (mk_scan [] false) first with
      | (st, true) => Ok (subtitles st)
      | (st, false) =>
          match scan st second with
          | (st', true) => Ok (subtitles st')
          | (_, false) => Raise (UnicodeDecodeError msg)
          end
      end
  end.

(** The lines the body of the loop of [generate_vtt_content] appends for
    the [i]-th event; nothing when a timestamp does not convert. *)
Definition cue_lines (i : nat) (ev : event) : list string :=
  let '(start_time, end_time, text) := ev in
  match ass_time_to_vtt_time start_time with
  | Ok vtt_start =>
      match ass_time_to_vtt_time end_time with
      | Ok vtt_end =>
          [PyInt.to_str (Z.of_nat i); vtt_start ++ " --> " ++ vtt_end; text; ""]
      | Raise _ => []
      end
  | Raise _ => []
  end.

(** [for i, (...) in enumerate(subtitles, i): ...] on the list [lines]. *)
Fixpoint vtt_loop (i : nat) (subs : list event) (lines : list string)
  : list string :=
  match subs with
  | [] => lines
  | ev :: rest => vtt_loop (S i) rest (lines ++ cue_lines i ev)
  end.

Definition vtt_lines (subs : list event) : list string :=
  vtt_loop 1 subs ["WEBVTT FILE"; ""].

Definition generate_vtt_content (subs : list event) : string :=
  PyStr.join PyStr.nl (vtt_lines subs).

(** Does the loop emit a cue for this event? *)
Definition converts (ev : event) : bool :=
  let '(start_time, end_time, _) := ev in
  is_ok (ass_time_to_vtt_time start_time)
  && is_ok (ass_time_to_vtt_time end_time).

(** The numbers of the cues the loop emits, counting events from [i]. *)
Definition cue_numbers (i : nat) (subs : list event) : list nat :=
  positions converts i subs.

(** [convert_ass_to_vtt]: the value returned or the exception raised, and
    the file system afterwards.  When the [with] statement raises, the
    output file may have been opened, and emptied, before. *)
Definition convert_ass_to_vtt (fs : FS.t) (ass_file_path suffix : string)
  : result string * FS.t :=
  if negb (FS.exists_ fs ass_file_path)
  then (Raise (FileNotFoundError ("ASS file not found: " ++ ass_file_path)), fs)
  else
    match parse_ass_file fs ass_file_path with
    | Raise e => (Raise e, fs)
    | Ok subs =>
        let vtt_content := generate_vtt_content subs in
        let base_name := OsPath.splitext_root ass_file_path in
        let vtt_file_path := base_name ++ "." ++ suffix in
        match FS.write fs vtt_file_path vtt_content with
        | Ok fs' => (Ok vtt_file_path, fs')
        | Raise e => (Raise e, FS.interrupted fs vtt_file_path vtt_content)
        end
    end.

(** The signals of the worker. *)
Inductive signal : Type :=
| progress_updated (value : Z)
| file_converted (name : string)
| conversion_finished
| error_occurred (msg : string).

(** [int((i + 1) / total_files * 100)] *)
Definition progress_of (i total_files : nat) : Z :=
  Float64.trunc
    (Float64.times100
       (Float64.truediv (Z.of_nat i + 1) (Z.of_nat total_files))).

(** What one iteration of the loop of [run] emits for the outcome [r] of
    the conversion: the two signals of the [try] body, or the signal of the
    [except] clause. *)
Definition notifications (total_files i : nat) (file_path : string)
  (r : result string) : list signal :=
  match r with
  | Ok _ =>
      [file_converted (OsPath.basename file_path);
       progress_updated (progress_of i total_files)]
  | Raise e =>
      [error_occurred ("Error converting " ++ OsPath.basename file_path
                       ++ ": " ++ str_of_exn e)]
  end.

Definition attempt (fs : FS.t) (suffix : string) (total_files i : nat)
  (file_path : string) : list signal * FS.t :=
  let (r, fs') := convert_ass_to_vtt fs file_path suffix in
  (notifications total_files i file_path r, fs').

Fixpoint run_loop (fs : FS.t) (suffix : string) (total_files i : nat)
  (files : list string) : list signal * FS.t :=
  match files with
  | [] => ([], fs)
  | file_path :: rest =>
      let (emitted, fs') := attempt fs suffix total_files i file_path in
      let (later, fs'') := run_loop fs' suffix total_files (S i) rest in
      ((emitted ++ later)%list, fs'')
  end.

(** [run]: the signals emitted, in order, and the file system left. *)
Definition run (fs : FS.t) (files : list string) (suffix : string)
  : list signal * FS.t :=
  let (emitted, fs') := run_loop fs suffix (List.length files) 0 files in
  ((emitted ++ [conversion_finished])%list, fs').

(** The outcome of each conversion of a batch, in order, each on the file
    system the conversions before it left. *)
Fixpoint outcomes (fs : FS.t) (suffix : string) (files : list string)
  : list (string * result string) :=
  match files with
  | [] => []
  | file_path :: rest =>
      let (r, fs') := convert_ass_to_vtt fs file_path suffix in
      (file_path, r) :: outcomes fs' suffix rest
  end.

Definition succeeded (o : string * result string) : bool := is_ok (snd o).

Definition is_error (s : signal) : bool :=
  match s with error_occurred _ => true | _ => false end.

Definition is_converted (s : signal) : bool :=
  match s with file_converted _ => true | _ => false end.

Definition is_finished (s : signal) : bool :=
  match s with conversion_finished => true | _ => false end.

(** The values of the [progress_updated] signals, in order. *)
Fixpoint progress_values (sigs : list signal) : list Z :=
  match sigs with
  | [] => []
  | progress_updated v :: rest => v :: progress_values rest
  | _ :: rest => progress_values rest
  end.

(** The character occurs in no field of the event. *)
Definition lacks (c : ascii) (ev : event) : Prop :=
  PyStr.contains c (fst (fst ev)) = false
  /\ PyStr.contains c (snd (fst ev)) = false
  /\ PyStr.contains c (snd ev) = false.

End ConversionWorker.

(** ** The window: [AssToVttConverter]

    The window is the part of the state of its widgets that the program
    reads or writes: the title or text each widget shows, whether a button
    is enabled, the rows of the list, the value of the progress bar, the
    text of the suffix field.  What the program asks of Qt and cannot see
    the end of is a trace: the message boxes opened and the workers
    started, in order.

    The texts shown are kept in UTF-8, as the source file has its literals;
    a [str] of the engine (a file name, an error message) is shown through
    [utf8].  A slot returns the window it leaves, or the exception that
    left it and the window at that moment (PySide reports the exception and
    the event loop goes on).  The checked state of the two menu actions is
    Qt's (an exclusive action group) and is not modelled. *)

Module AssToVttConverter.

(** The bytes of a character of the engine in UTF-8. *)
Definition utf8_char (c : ascii) : string :=
  let n := nat_of_ascii c in
  if (n <? 128)%nat then String c ""
  else String (ascii_of_nat (192 + n / 64))
         (String (ascii_of_nat (128 + n mod 64)) "").

Fixpoint utf8 (s : string) : string :=
  match s with
  | EmptyString => ""
  | String c s' => utf8_char c ++ utf8 s'
  end.

(** The tables of the two languages, a dictionary of dictionaries: the
    keys in the order of the source. *)
Definition LANGUAGES : list (string * list (string * string)) :=
  [("en",
    [("window_title", "ASS to VTT Converter");
     ("files", "Files");
     ("add_files", "Add Files");
     ("remove_selected", "Remove Selected");
     ("clear_all", "Clear All");
     ("settings", "Settings");
     ("output_suffix", "Output Suffix:");
     ("progress", "Progress");
     ("ready", "Ready");
     ("convert_files", "Convert Files");
     ("select_ass_files", "Select ASS Files");
     ("ass_files", "ASS Files (*.ass)");
     ("warning", "Warning");
     ("no_files_added", "Please add files to convert.");
     ("invalid_suffix", "Please enter a valid suffix.");
     ("converted", "Converted: {}");
     ("conversion_completed", "Conversion completed!");
     ("success", "Success");
     ("all_files_converted", "All files converted successfully!");
     ("error", "Error");
     ("language", "Language");
     ("english", "English");
     ("chinese", "中文")]);
   ("zh",
    [("window_title", "ASS转VTT转换器");
     ("files", "文件");
     ("add_files", "添加文件");
     ("remove_selected", "删除选中");
     ("clear_all", "清空所有");
     ("settings", "设置");
     ("output_suffix", "输出后缀:");
     ("progress", "进度");
     ("ready", "就绪");
     ("convert_files", "转换文件");
     ("select_ass_files", "选择ASS文件");
     ("ass_files", "ASS文件 (*.ass)");
     ("warning", "警告");
     ("no_files_added", "请添加要转换的文件。");
     ("invalid_suffix", "请输入有效的后缀。");
     ("converted", "已转换: {}");
     ("conversion_completed", "转换完成！");
     ("success", "成功");
     ("all_files_converted", "所有文件转换成功！");
     ("error", "错误");
     ("language", "语言");
     ("english", "English");
     ("chinese", "中文")])].

(** [d[key]]: [None] stands for [KeyError]. *)
Fixpoint getitem {A : Type} (d : list (string * A)) (key : string) : option A :=
  match d with
  | [] => None
  | (k, v) :: rest => if String.eqb k key then Some v else getitem rest key
  end.

(** [x in l] *)
Definition contains (l : list string) (x : string) : bool :=
  existsb (String.eqb x) l.

(** The exceptions of the window.  [Unmodelled]: a format string with a
    replacement field other than [{}]. *)
Inductive raised : Type :=
| KeyError (key : string)
| IndexError
| ValueError
| Unmodelled.

(** [template.format(arg)]: [{}] is replaced by the argument, [{{] and [}}]
    stand for a brace; [used] tells whether the argument has been taken. *)
Fixpoint format_from (used : bool) (template arg : string) : string + raised :=
  match template with
  | EmptyString => inl ""
  | String "{" (String "{" rest) =>
      match format_from used rest arg with
      | inl s => inl (String "{" s)
      | inr e => inr e
      end
  | String "{" (String "}" rest) =>
      if used then inr IndexError
      else match format_from true rest arg with
           | inl s => inl (arg ++ s)
           | inr e => inr e
           end
  | String "{" (String _ _) => inr Unmodelled
  | String "{" EmptyString => inr ValueError
  | String "}" (String "}" rest) =>
      match format_from used rest arg with
      | inl s => inl (String "}" s)
      | inr e => inr e
      end
  | String "}" _ => inr ValueError
  | String c rest =>
      match format_from used rest arg with
      | inl s => inl (String c s)
      | inr e => inr e
      end
  end.

Definition format (template arg : string) : string + raised :=
  format_from false template arg.

(** The widgets that show a text the program sets. *)
Inductive widget : Type :=
| Window
| LanguageMenu
| EnglishAction
| ChineseAction
| FileGroup
| AddFilesBtn
| RemoveFilesBtn
| ClearFilesBtn
| SettingsGroup
| SuffixLabel
| ProgressGroup
| StatusLabel
| ConvertBtn.

Definition widget_index (w : widget) : nat :=
  match w with
  | Window => 0
  | LanguageMenu => 1
  | EnglishAction => 2
  | ChineseAction => 3
  | FileGroup => 4
  | AddFilesBtn => 5
  | RemoveFilesBtn => 6
  | ClearFilesBtn => 7
  | SettingsGroup => 8
  | SuffixLabel => 9
  | ProgressGroup => 10
  | StatusLabel => 11
  | ConvertBtn => 12
  end.

Definition widget_eqb (a b : widget) : bool :=
  (widget_index a =? widget_index b)%nat.

(** A row of the list: a [QListWidgetItem] is an object, told from the
    others by its identity, not by its text. *)
Record item : Type := mk_item {
  item_id : nat;
  item_text : string
}.

Definition item_eqb (a b : item) : bool := (item_id a =? item_id b)%nat.

(** The message boxes of [QMessageBox]. *)
Inductive box : Type :=
| warning (title text : string)
| information (title text : string)
| critical (title text : string).

(** The window.  [shown] is the title or text of each widget; [items_made]
    counts the items [addItem] has made, and numbers the next one;
    [suffix_input] is the text of the suffix field; [workers] are the
    arguments of the workers made and started, the latest ([self.worker])
    last; [boxes] are the message boxes opened, in order. *)
Record t : Type := mk {
  current_lang : string;
  translations : list (string * string);
  shown : widget -> string;
  enabled : widget -> bool;
  files : list string;
  file_list : list item;
  items_made : nat;
  suffix_input : string;
  progress_bar : Z;
  workers : list (list string * string);
  boxes : list box
}.

(** What a slot leaves: the window, and the exception if one left the
    slot. *)
Inductive outcome : Type :=
| Done (st : t)
| Raised (e : raised) (st : t).

Definition state_of (o : outcome) : t :=
  match o with
  | Done st => st
  | Raised _ st => st
  end.

Definition set_current_lang (v : string) (st : t) : t :=
  mk v (translations st) (shown st) (enabled st) (files st) (file_list st)
    (items_made st) (suffix_input st) (progress_bar st) (workers st) (boxes st).

Definition set_translations (v : list (string * string)) (st : t) : t :=
  mk (current_lang st) v (shown st) (enabled st) (files st) (file_list st)
    (items_made st) (suffix_input st) (progress_bar st) (workers st) (boxes st).

(** [setText], [setTitle], [setWindowTitle] *)
Definition setText (w : widget) (v : string) (st : t) : t :=
  mk (current_lang st) (translations st)
    (fun w' => if widget_eqb w' w then v else shown st w')
    (enabled st) (files st) (file_list st)
    (items_made st) (suffix_input st) (progress_bar st) (workers st) (boxes st).

Definition setEnabled (w : widget) (v : bool) (st : t) : t :=
  mk (current_lang st) (translations st) (shown st)
    (fun w' => if widget_eqb w' w then v else enabled st w')
    (files st) (file_list st)
    (items_made st) (suffix_input st) (progress_bar st) (workers st) (boxes st).

Definition set_files (v : list string) (st : t) : t :=
  mk (current_lang st) (translations st) (shown st) (enabled st) v (file_list st)
    (items_made st) (suffix_input st) (progress_bar st) (workers st) (boxes st).

Definition set_file_list (v : list item) (st : t) : t :=
  mk (current_lang st) (translations st) (shown st) (enabled st) (files st) v
    (items_made st) (suffix_input st) (progress_bar st) (workers st) (boxes st).

(** [QListWidget.addItem(text)]: a new item at the end. *)
Definition addItem (text : string) (st : t) : t :=
  mk (current_lang st) (translations st) (shown st) (enabled st) (files st)
    (file_list st ++ [mk_item (items_made st) text])
    (S (items_made st)) (suffix_input st) (progress_bar st) (workers st)
    (boxes st).

Definition set_suffix_input (v : string) (st : t) : t :=
  mk (current_lang st) (translations st) (shown st) (enabled st) (files st)
    (file_list st) (items_made st) v (progress_bar st) (workers st) (boxes st).

(** [QProgressBar.setValue] between the minimum 0 and the maximum 100 the
    bar is made with; a value outside is ignored. *)
Definition setValue (v : Z) (st : t) : t :=
  if (0 <=? v)%Z && (v <=? 100)%Z
  then mk (current_lang st) (translations st) (shown st) (enabled st) (files st)
         (file_list st) (items_made st) (suffix_input st) v (workers st)
         (boxes st)
  else st.

(** [ConversionWorker(files, suffix)] made and started. *)
Definition start (worker_files : list string) (suffix : string) (st : t) : t :=
  mk (current_lang st) (translations st) (shown st) (enabled st) (files st)
    (file_list st) (items_made st) (suffix_input st) (progress_bar st)
    (workers st ++ [(worker_files, suffix)]) (boxes st).

Definition open_box (b : box) (st : t) : t :=
  mk (current_lang st) (translations st) (shown st) (enabled st) (files st)
    (file_list st) (items_made st) (suffix_input st) (progress_bar st)
    (workers st) (boxes st ++ [b]).

(** [self.translations[key]], then the rest of the slot. *)
Definition tr (key : string) (st : t) (k : string -> outcome) : outcome :=
  match getitem (translations st) key with
  | Some v => k v
  | None => Raised (KeyError key) st
  end.

Notation "'let*' x ':=' c 'in' k" := (c (fun x => k))
  (at level 10, x name, c at level 200, k at level 200).

(** The language menu: its title and its two entries are set here and
    nowhere else. *)
Definition create_menu_bar (st : t) : outcome :=
  let* language := tr "language" st in
  let st := setText LanguageMenu language st in
  let* english := tr "english" st in
  let st := setText EnglishAction english st in
  let* chinese := tr "chinese" st in
  let st := setText ChineseAction chinese st in
  Done st.

Definition init_ui (st : t) : outcome :=
  match create_menu_bar st with
  | Raised e st => Raised e st
  | Done st =>
      let* files_text := tr "files" st in
      let st := setText FileGroup files_text st in
      let st := set_file_list [] st in
      let* add_files_text := tr "add_files" st in
      let st := setText AddFilesBtn add_files_text st in
      let* remove_selected := tr "remove_selected" st in
      let st := setText RemoveFilesBtn remove_selected st in
      let* clear_all := tr "clear_all" st in
      let st := setText ClearFilesBtn clear_all st in
      let* settings := tr "settings" st in
      let st := setText SettingsGroup settings st in
      let st := set_suffix_input "vtt" st in
      let* output_suffix := tr "output_suffix" st in
      let st := setText SuffixLabel output_suffix st in
      let* progress := tr "progress" st in
      let st := setText ProgressGroup progress st in
      let st := setValue 0 st in
      let* ready := tr "ready" st in
      let st := setText StatusLabel ready st in
      let* convert_files_text := tr "convert_files" st in
      let st := setText ConvertBtn convert_files_text st in
      Done st
  end.

(** A window none of whose attributes is set: no text, every widget
    enabled, the progress bar at the [-1] it is made with. *)
Definition blank : t :=
  mk "" [] (fun _ => "") (fun _ => true) [] [] 0 "" (-1) [] [].

(** [__init__] *)
Definition init : outcome :=
  let st := set_current_lang "en" blank in
  match getitem LANGUAGES (current_lang st) with
  | None => Raised (KeyError (current_lang st)) st
  | Some d =>
      let st := set_translations d st in
      let* window_title := tr "window_title" st in
      let st := setText Window window_title st in
      let st := set_files [] st in
      init_ui st
  end.

(** [retranslate_ui]: the status label is rewritten when it shows the
    ready text or the completion text, of the table or of either language. *)
Definition retranslate_ui (st : t) : outcome :=
  let* window_title := tr "window_title" st in
  let st := setText Window window_title st in
  let* files_text := tr "files" st in
  let st := setText FileGroup files_text st in
  let* settings := tr "settings" st in
  let st := setText SettingsGroup settings st in
  let* progress := tr "progress" st in
  let st := setText ProgressGroup progress st in
  let* add_files_text := tr "add_files" st in
  let st := setText AddFilesBtn add_files_text st in
  let* remove_selected := tr "remove_selected" st in
  let st := setText RemoveFilesBtn remove_selected st in
  let* clear_all := tr "clear_all" st in
  let st := setText ClearFilesBtn clear_all st in
  let* convert_files_text := tr "convert_files" st in
  let st := setText ConvertBtn convert_files_text st in
  let* output_suffix := tr "output_suffix" st in
  let st := setText SuffixLabel output_suffix st in
  let current_text := shown st StatusLabel in
  let* ready := tr "ready" st in
  if String.eqb current_text ready || contains ["Ready"; "就绪"] current_text
  then
    let* ready := tr "ready" st in
    Done (setText StatusLabel ready st)
  else
    let* completed := tr "conversion_completed" st in
    if String.eqb current_text completed
       || contains ["Conversion completed!"; "转换完成！"] current_text
    then
      let* completed := tr "conversion_completed" st in
      Done (setText StatusLabel completed st)
    else Done st.

(** [switch_language]: [current_lang] is set before the table is looked
    up. *)
Definition switch_language (lang_code : string) (st : t) : outcome :=
  let st := set_current_lang lang_code st in
  match getitem LANGUAGES (current_lang st) with
  | None => Raised (KeyError (current_lang st)) st
  | Some d => retranslate_ui (set_translations d st)
  end.

(** The loop of [add_files] over the paths the dialog returned. *)
Fixpoint add_paths (file_paths : list string) (st : t) : t :=
  match file_paths with
  | [] => st
  | file_path :: rest =>
      if negb (contains (files st) file_path)
      then add_paths rest
             (addItem (OsPath.basename file_path)
                (set_files (files st ++ [file_path]) st))
      else add_paths rest st
  end.

(** [add_files], with the paths [QFileDialog.getOpenFileNames] returns (none
    when the dialog is cancelled). *)
Definition add_files (file_paths : list string) (st : t) : outcome :=
  let* select_ass_files := tr "select_ass_files" st in
  let* ass_files := tr "ass_files" st in
  Done (add_paths file_paths st).

(** [QListWidget.row(item)]: the row of the item, [-1] when the list does
    not hold it. *)
Fixpoint row (l : list item) (it : item) : Z :=
  match l with
  | [] => (-1)%Z
  | x :: rest =>
      if item_eqb x it then 0%Z
      else match row rest it with
           | Z.neg _ => (-1)%Z
           | r => (r + 1)%Z
           end
  end.

Fixpoint remove_nth {A : Type} (n : nat) (l : list A) : list A :=
  match n, l with
  | _, [] => []
  | O, _ :: rest => rest
  | S n', x :: rest => x :: remove_nth n' rest
  end.

(** [QListWidget.takeItem(row)]: nothing is taken at a row the list has
    not. *)
Definition takeItem (r : Z) (l : list item) : list item :=
  if (0 <=? r)%Z && (r <? Z.of_nat (List.length l))%Z
  then remove_nth (Z.to_nat r) l
  else l.

(** [del l[r]]: a negative index counts from the end; [None] stands for
    [IndexError]. *)
Definition del {A : Type} (r : Z) (l : list A) : option (list A) :=
  let n := Z.of_nat (List.length l) in
  if (0 <=? r)%Z && (r <? n)%Z then Some (remove_nth (Z.to_nat r) l)
  else if (- n <=? r)%Z && (r <? 0)%Z then Some (remove_nth (Z.to_nat (n + r)) l)
  else None.

(** [remove_files], with the items [selectedItems] returns. *)
Fixpoint remove_files (selected_items : list item) (st : t) : outcome :=
  match selected_items with
  | [] => Done st
  | it :: rest =>
      let r := row (file_list st) it in
      let st := set_file_list (takeItem r (file_list st)) st in
      match del r (files st) with
      | Some files' => remove_files rest (set_files files' st)
      | None => Raised IndexError st
      end
  end.

Definition clear_files (st : t) : outcome :=
  Done (set_file_list [] (set_files [] st)).

(** [convert_files]: the worker is given the list [self.files] itself and
    the suffix without the whitespace around it. *)
Definition convert_files (st : t) : outcome :=
  match files st with
  | [] =>
      let* title := tr "warning" st in
      let* text := tr "no_files_added" st in
      Done (open_box (warning title text) st)
  | _ :: _ =>
      let suffix := PyStr.strip (suffix_input st) in
      if String.eqb suffix ""
      then
        let* title := tr "warning" st in
        let* text := tr "invalid_suffix" st in
        Done (open_box (warning title text) st)
      else
        let st := setEnabled ConvertBtn false st in
        let st := setEnabled AddFilesBtn false st in
        let st := setEnabled RemoveFilesBtn false st in
        let st := setEnabled ClearFilesBtn false st in
        Done (start (files st) suffix st)
  end.

Definition update_progress (value : Z) (st : t) : outcome :=
  Done (setValue value st).

Definition file_converted (filename : string) (st : t) : outcome :=
  let* converted := tr "converted" st in
  match format converted (utf8 filename) with
  | inl text => Done (setText StatusLabel text st)
  | inr e => Raised e st
  end.

Definition conversion_finished (st : t) : outcome :=
  let st := setEnabled ConvertBtn true st in
  let st := setEnabled AddFilesBtn true st in
  let st := setEnabled RemoveFilesBtn true st in
  let st := setEnabled ClearFilesBtn true st in
  let* completed := tr "conversion_completed" st in
  let st := setText StatusLabel completed st in
  let* title := tr "success" st in
  let* text := tr "all_files_converted" st in
  Done (open_box (information title text) st).

Definition handle_error (error_msg : string) (st : t) : outcome :=
  let* title := tr "error" st in
  Done (open_box (critical title (utf8 error_msg)) st).

(** What the event loop brings to the window: a click on a button (with
    what the user chose in the dialog or in the list), a choice in the
    language menu, an edit of the suffix field, a signal of a worker. *)
Inductive event : Type :=
| add_clicked (file_paths : list string)
| remove_clicked (selected_items : list item)
| clear_clicked
| convert_clicked
| english_triggered
| chinese_triggered
| suffix_edited (text : string)
| emitted (s : ConversionWorker.signal).

(** A button that is not enabled sends no [clicked]. *)
Definition click (w : widget) (slot : t -> outcome) (st : t) : outcome :=
  if enabled st w then slot st else Done st.

(** The slot each event is connected to. *)
Definition dispatch (ev : event) (st : t) : outcome :=
  match ev with
  | add_clicked file_paths => click AddFilesBtn (add_files file_paths) st
  | remove_clicked selected_items =>
      click RemoveFilesBtn (remove_files selected_items) st
  | clear_clicked => click ClearFilesBtn clear_files st
  | convert_clicked => click ConvertBtn convert_files st
  | english_triggered => switch_language "en" st
  | chinese_triggered => switch_language "zh" st
  | suffix_edited text => Done (set_suffix_input text st)
  | emitted (ConversionWorker.progress_updated value) => update_progress value st
  | emitted (ConversionWorker.file_converted name) => file_converted name st
  | emitted ConversionWorker.conversion_finished => conversion_finished st
  | emitted (ConversionWorker.error_occurred msg) => handle_error msg st
  end.

(** The window after a sequence of events. *)
Fixpoint after (evs : list event) (st : t) : t :=
  match evs with
  | [] => st
  | ev :: rest => after rest (state_of (dispatch ev st))
  end.

(** What Qt can bring to the window in a state: the items of a selection
    are rows of the list, each once. *)
Definition possible (st : t) (ev : event) : Prop :=
  match ev with
  | remove_clicked selected_items =>
      NoDup (map item_id selected_items)
      /\ forall it, In it selected_items -> In it (file_list st)
  | _ => True
  end.

(** The windows the program can be in. *)
Inductive reachable : t -> Prop :=
| reachable_init (st : t) : init = Done st -> reachable st
| reachable_step (st : t) (ev : event) :
    reachable st -> possible st ev -> reachable (state_of (dispatch ev st)).

(** The messages of the [error_occurred] signals, in order. *)
Fixpoint errors (sigs : list ConversionWorker.signal) : list string :=
  match sigs with
  | [] => []
  | ConversionWorker.error_occurred msg :: rest => msg :: errors rest
  | _ :: rest => errors rest
  end.

(** The window is consistent: its texts come from the table of its
    language, each row of the list shows the base name of the file at the
    same place of [files], no file is listed twice and no item is in two
    rows. *)
Definition consistent (st : t) : Prop :=
  (current_lang st = "en" \/ current_lang st = "zh")
  /\ getitem LANGUAGES (current_lang st) = Some (translations st)
  /\ map item_text (file_list st) = map OsPath.basename (files st)
  /\ NoDup (files st)
  /\ NoDup (map item_id (file_list st))
  /\ Forall (fun it => item_id it < items_made st) (file_list st).

End AssToVttConverter.

(** ** Sample inputs *)

Module Samples.

Definition script : string :=
  PyStr.join PyStr.nl
    ["[Script Info]"; "Title: sample"; "";
     "[Events]";
     "Format: Layer, Start, End, Style, Name, MarginL, MarginR, MarginV, Effect, Text";
     "Dialogue: 0,0:00:01.00,0:00:02.50,Default,,0,0,0,,{\pos(100,200)}Hello, world";
     "Dialogue: 0,0:00:03.00,0:00:04.00,Default,,0,0,0,,Bye"; ""].

Definition no_events : string :=
  PyStr.join PyStr.nl ["[Script Info]"; "Title: sample"; ""].

(** A disk that holds [a.ass], [b.ass] (two scripts) and [empty.ass] (a
    script without Events section), and refuses nothing. *)
Definition disk : FS.t :=
  FS.mk (fun p => if String.eqb p "a.ass" then Some (FS.File (FS.Text script))
                  else if String.eqb p "b.ass" then Some (FS.File (FS.Text script))
                  else if String.eqb p "empty.ass"
                       then Some (FS.File (FS.Text no_events))
                  else None)
        (fun _ _ => None) (fun _ _ => None).

(** The same disk when it is full: a file can be opened for writing, and
    is emptied, but nothing can be written to it. *)
Definition full_disk : FS.t :=
  FS.mk (FS.node_at disk)
        (fun mode _ =>
           match mode with
           | FS.Writing => Some "[Errno 28] No space left on device"
           | FS.Reading => None
           end)
        (fun _ _ => Some (FS.Text "")).

(** A window in which three files have been added: the two scripts of
    the disk and, between them, a file the disk does not hold. *)
Definition window : AssToVttConverter.t :=
  AssToVttConverter.add_paths ["a.ass"; "x/missing.ass"; "b.ass"]
    (AssToVttConverter.state_of AssToVttConverter.init).

End Samples.

Import ConversionWorker.

(** ** Proof tools *)

(** Case analysis on the 256 characters, the cases refuted by computation
    dropped. *)
Ltac each_ascii c :=
  destruct c as [[] [] [] [] [] [] [] []]; try discriminate.

(** * Properties *)

Arguments PyInt.digit_char : simpl never.
Arguments PyInt.is_digit : simpl never.
Arguments PyInt.digit_value : simpl never.
Arguments PyInt.int_space : simpl never.
Arguments PyStr.isspace : simpl never.

(** ** Strings *)

Section StringFacts.

Lemma append_empty_r (s : string) : s ++ "" = s.
Proof. induction s as [|c s IH]; simpl; [reflexivity | now rewrite IH]. Qed.

Lemma append_assoc' (a b c : string) : (a ++ b) ++ c = a ++ b ++ c.
Proof. induction a as [|x a IH]; simpl; [reflexivity | now rewrite IH]. Qed.

Lemma length_append' (a b : string) :
  String.length (a ++ b) = String.length a + String.length b.
Proof. induction a as [|x a IH]; simpl; [reflexivity | now rewrite IH]. Qed.

Lemma contains_append (c : ascii) (a b : string) :
  PyStr.contains c (a ++ b) = PyStr.contains c a || PyStr.contains c b.
Proof.
  induction a as [|x a IH]; simpl; [reflexivity|].
  now rewrite IH, orb_assoc.
Qed.

Lemma all_chars_append (p : ascii -> bool) (a b : string) :
  PyStr.all_chars p (a ++ b) = PyStr.all_chars p a && PyStr.all_chars p b.
Proof.
  induction a as [|x a IH]; simpl; [reflexivity|].
  now rewrite IH, andb_assoc.
Qed.

Lemma all_chars_excludes (p : ascii -> bool) (c : ascii) (s : string) :
  PyStr.all_chars p s = true -> p c = false -> PyStr.contains c s = false.
Proof.
  intros Hs Hc. induction s as [|x s IH]; simpl in *; [reflexivity|].
  apply andb_true_iff in Hs as [Hx Hs]. rewrite (IH Hs), orb_false_r.
  destruct (Ascii.eqb_spec x c) as [->|]; [congruence | reflexivity].
Qed.

Lemma all_chars_impl (p q : ascii -> bool) (s : string) :
  (forall c, p c = true -> q c = true) ->
  PyStr.all_chars p s = true -> PyStr.all_chars q s = true.
Proof.
  intros Hpq. induction s as [|x s IH]; simpl; [reflexivity|].
  intros [Hx Hs]%andb_true_iff. now rewrite (Hpq _ Hx), IH.
Qed.

(** A string without the separator is one field. *)
Lemma split_no_sep (sep : ascii) (m : option nat) (a : string) :
  PyStr.contains sep a = false -> PyStr.split sep m a = [a].
Proof.
  induction a as [|x a IH]; simpl; [reflexivity|].
  intros [Hx Ha]%orb_false_iff. now rewrite Hx, (IH Ha).
Qed.

(** The first separator ends the first field, when a split is allowed. *)
Lemma split_at_sep (sep : ascii) (m : option nat) (a b : string) :
  PyStr.contains sep a = false -> PyStr.may_split m = true ->
  PyStr.split sep m (a ++ String sep b)
  = a :: PyStr.split sep (PyStr.one_less m) b.
Proof.
  intros Ha Hm. induction a as [|x a IH]; simpl in *.
  - now rewrite Ascii.eqb_refl, Hm.
  - apply orb_false_iff in Ha as [Hx Ha]. now rewrite Hx, (IH Ha).
Qed.

(** With no split left the text is returned as it is. *)
Lemma split_exhausted (sep : ascii) (a : string) :
  PyStr.split sep (Some 0) a = [a].
Proof.
  induction a as [|x a IH]; simpl; [reflexivity|].
  now rewrite andb_false_r, IH.
Qed.

Lemma split_nonempty (sep : ascii) (m : option nat) (a : string) :
  PyStr.split sep m a <> [].
Proof.
  revert m. induction a as [|x a IH]; intros m; simpl; [discriminate|].
  destruct (_ && _); [discriminate|].
  destruct (PyStr.split sep m a); discriminate.
Qed.

Lemma lstrip_by_clean (ws : ascii -> bool) (s : string) :
  PyStr.all_chars (fun c => negb (ws c)) s = true -> PyStr.lstrip_by ws s = s.
Proof.
  destruct s as [|x s]; simpl; [reflexivity|].
  intros [Hx _]%andb_true_iff. apply negb_true_iff in Hx. now rewrite Hx.
Qed.

Lemma rstrip_by_clean (ws : ascii -> bool) (s : string) :
  PyStr.all_chars (fun c => negb (ws c)) s = true -> PyStr.rstrip_by ws s = s.
Proof.
  induction s as [|x s IH]; simpl; [reflexivity|].
  intros [Hx Hs]%andb_true_iff. apply negb_true_iff in Hx.
  rewrite (IH Hs), Hx. now destruct s.
Qed.

Lemma strip_by_clean (ws : ascii -> bool) (s : string) :
  PyStr.all_chars (fun c => negb (ws c)) s = true -> PyStr.strip_by ws s = s.
Proof.
  intros H. unfold PyStr.strip_by. now rewrite lstrip_by_clean, rstrip_by_clean.
Qed.

(** Splitting a join of fields free of the separator gives the fields. *)
Lemma split_join_all (sep : ascii) (l : list string) :
  l <> [] ->
  Forall (fun f => PyStr.contains sep f = false) l ->
  PyStr.split sep None (PyStr.join (String sep "") l) = l.
Proof.
  intros Hne Hall. induction Hall as [|f l Hf Hl IH]; [congruence|].
  destruct l as [|g l].
  - cbn. now apply split_no_sep.
  - unfold PyStr.join in *.
    change (String.concat (String sep "") (f :: g :: l))
      with (f ++ String sep (String.concat (String sep "") (g :: l))).
    rewrite split_at_sep by (assumption || reflexivity).
    cbn [PyStr.one_less option_map]. now rewrite IH.
Qed.

(** Stripping brings in no character. *)
Lemma contains_lstrip (ws : ascii -> bool) (c : ascii) (s : string) :
  PyStr.contains c s = false -> PyStr.contains c (PyStr.lstrip_by ws s) = false.
Proof.
  induction s as [|x s IH]; [reflexivity|]. cbn [PyStr.lstrip_by].
  destruct (ws x); [|auto]. cbn [PyStr.contains].
  intros [_ H]%orb_false_iff. auto.
Qed.

Lemma contains_rstrip (ws : ascii -> bool) (c : ascii) (s : string) :
  PyStr.contains c s = false -> PyStr.contains c (PyStr.rstrip_by ws s) = false.
Proof.
  induction s as [|x s IH]; [reflexivity|]. cbn [PyStr.rstrip_by PyStr.contains].
  intros [Hx H]%orb_false_iff. specialize (IH H).
  destruct (PyStr.rstrip_by ws s) as [|y r].
  - destruct (ws x); [reflexivity|]. cbn [PyStr.contains]. now rewrite Hx.
  - cbn [PyStr.contains] in *. now rewrite Hx, IH.
Qed.

Lemma contains_strip (c : ascii) (s : string) :
  PyStr.contains c s = false -> PyStr.contains c (PyStr.strip s) = false.
Proof.
  intros H. unfold PyStr.strip, PyStr.strip_by.
  now apply contains_rstrip, contains_lstrip.
Qed.

(** A trailing character that [rstrip] removes takes nothing with it. *)
Lemma rstrip_by_snoc (ws : ascii -> bool) (c : ascii) (s : string) :
  ws c = true ->
  PyStr.rstrip_by ws (s ++ String c "") = PyStr.rstrip_by ws s.
Proof.
  intros Hc. induction s as [|x s IH]; cbn [append PyStr.rstrip_by].
  - now rewrite Hc.
  - now rewrite IH.
Qed.

Lemma lstrip_by_append (ws : ascii -> bool) (a b : string) :
  PyStr.lstrip_by ws (a ++ b)
  = if PyStr.all_chars ws a then PyStr.lstrip_by ws b
    else PyStr.lstrip_by ws a ++ b.
Proof.
  induction a as [|x a IH]; [reflexivity|].
  cbn [append PyStr.lstrip_by PyStr.all_chars].
  destruct (ws x); [exact IH | reflexivity].
Qed.

(** A line that holds its only newline at its end is stripped of it. *)
Lemma strip_line (c : ascii) (b : string) :
  PyStr.isspace c = true -> PyStr.contains c b = false ->
  PyStr.contains c (PyStr.strip (b ++ String c "")) = false.
Proof.
  intros Hc Hb. unfold PyStr.strip, PyStr.strip_by. rewrite lstrip_by_append.
  destruct (PyStr.all_chars PyStr.isspace b).
  - cbn [PyStr.lstrip_by]. now rewrite Hc.
  - rewrite rstrip_by_snoc by exact Hc. now apply contains_rstrip, contains_lstrip.
Qed.

(** Nor does splitting. *)
Lemma contains_field (c sep : ascii) (s : string) :
  PyStr.contains c s = false ->
  forall m, Forall (fun f => PyStr.contains c f = false) (PyStr.split sep m s).
Proof.
  induction s as [|x s IH]; intros H m; cbn [PyStr.split].
  - repeat constructor.
  - cbn [PyStr.contains] in H. apply orb_false_iff in H as [Hx H].
    destruct (Ascii.eqb x sep && PyStr.may_split m).
    + constructor; [reflexivity | now apply IH].
    + specialize (IH H m). destruct (PyStr.split sep m s) as [|p ps].
      * repeat constructor. cbn [PyStr.contains]. now rewrite Hx.
      * inversion IH; subst. constructor; [|assumption].
        cbn [PyStr.contains]. rewrite Hx. assumption.
Qed.

Lemma contains_nth (c : ascii) (l : list string) (k : nat) :
  Forall (fun f => PyStr.contains c f = false) l ->
  PyStr.contains c (nth k l "") = false.
Proof.
  intros H. revert k. induction H as [|f l Hf _ IH]; intros [|k]; cbn [nth]; auto.
Qed.

(** [find] returns the place of the first occurrence. *)
Lemma find_char_first (c : ascii) (a b : string) :
  PyStr.contains c a = false ->
  PyStr.find_char c (a ++ String c b) = Some (String.length a).
Proof.
  induction a as [|x a IH]; cbn [append PyStr.find_char PyStr.contains String.length].
  - now rewrite Ascii.eqb_refl.
  - intros [Hx H]%orb_false_iff. now rewrite Hx, IH.
Qed.

Lemma find_char_none (c : ascii) (s : string) :
  PyStr.contains c s = false -> PyStr.find_char c s = None.
Proof.
  induction s as [|x s IH]; [reflexivity|]. cbn [PyStr.contains PyStr.find_char].
  intros [Hx H]%orb_false_iff. now rewrite Hx, IH.
Qed.

Lemma find_char_append (c : ascii) (a b : string) :
  PyStr.contains c b = false ->
  PyStr.find_char c (a ++ b) = PyStr.find_char c a.
Proof.
  intros Hb. induction a as [|x a IH]; cbn [append PyStr.find_char].
  - now apply find_char_none.
  - now rewrite IH.
Qed.

Lemma find_char_bound (c : ascii) (s : string) (j : nat) :
  PyStr.find_char c s = Some j -> j < String.length s.
Proof.
  revert j. induction s as [|x s IH]; intros j; cbn [PyStr.find_char String.length];
    [discriminate|].
  destruct (Ascii.eqb x c); [intros [= <-]; lia|].
  destruct (PyStr.find_char c s) as [k|]; [|discriminate].
  intros [= <-]. specialize (IH k eq_refl). lia.
Qed.

Lemma startswith_append (a b p : string) :
  PyStr.startswith a p = true -> PyStr.startswith (a ++ b) p = true.
Proof.
  revert a. induction p as [|c p IH]; intros a; [reflexivity|].
  destruct a as [|x a]; cbn [append PyStr.startswith]; [discriminate|].
  intros [-> H]%andb_true_iff. now rewrite IH.
Qed.

End StringFacts.

(** ** Integers *)

Section IntFacts.

Lemma is_digit_cases (c : ascii) :
  PyInt.is_digit c = true ->
  In c ["0"; "1"; "2"; "3"; "4"; "5"; "6"; "7"; "8"; "9"]%char.
Proof. each_ascii c; intros _; simpl; tauto. Qed.

Lemma digit_not_space (c : ascii) :
  PyInt.is_digit c = true -> negb (PyInt.int_space c) = true.
Proof. intros H. apply is_digit_cases in H. simpl in H. intuition subst; reflexivity. Qed.

Lemma digit_value_range (c : ascii) :
  PyInt.is_digit c = true -> (0 <= PyInt.digit_value c <= 9)%Z.
Proof.
  intros H. apply is_digit_cases in H. simpl in H.
  unfold PyInt.digit_value, PyStr.code.
  intuition subst; simpl; lia.
Qed.

Lemma digit_char_value (d : Z) :
  (0 <= d <= 9)%Z ->
  PyInt.is_digit (PyInt.digit_char d) = true
  /\ PyInt.digit_value (PyInt.digit_char d) = d.
Proof.
  intros H.
  assert (In d [0; 1; 2; 3; 4; 5; 6; 7; 8; 9]%Z) as Hd by (simpl; lia).
  simpl in Hd. intuition subst; split; reflexivity.
Qed.

Lemma digit_char_nonzero (q : Z) (rest : string) :
  (1 <= q <= 9)%Z ->
  PyStr.startswith (String (PyInt.digit_char q) rest) "0" = false.
Proof.
  intros H.
  assert (q = 1 \/ q = 2 \/ q = 3 \/ q = 4 \/ q = 5 \/ q = 6 \/ q = 7
          \/ q = 8 \/ q = 9)%Z as Hq by lia.
  repeat (destruct Hq as [-> | Hq]; [reflexivity|]). subst q. reflexivity.
Qed.

(** A digit string reads as a number whatever came before it. *)
Lemma digits_digit_string (s : string) :
  PyStr.all_chars PyInt.is_digit s = true -> s <> "" ->
  forall acc, (0 <= acc)%Z ->
  exists v, (0 <= v)%Z /\
    forall b rest, PyInt.digits acc b (s ++ rest) = PyInt.digits v true rest.
Proof.
  induction s as [|c s IH]; [congruence|].
  cbn [PyStr.all_chars]. intros [Hc Hs]%andb_true_iff _ acc Hacc.
  pose proof (digit_value_range c Hc) as Hr.
  destruct s as [|c' s'].
  - exists (10 * acc + PyInt.digit_value c)%Z. split; [lia|].
    intros b rest. cbn [append PyInt.digits]. now rewrite Hc.
  - destruct (IH Hs ltac:(discriminate) (10 * acc + PyInt.digit_value c)%Z
                ltac:(lia)) as (v & Hv & Heq).
    exists v. split; [exact Hv|]. intros b rest.
    change (String c (String c' s') ++ rest) with (String c (String c' s' ++ rest)).
    cbn [PyInt.digits]. rewrite Hc. apply Heq.
Qed.

Lemma digits_zeros (k : nat) (b : bool) (rest : string) :
  PyInt.digits 0 b (PyInt.zeros k ++ rest)
  = PyInt.digits 0 (b || (0 <? k)%nat) rest.
Proof.
  revert b. induction k as [|k IH]; intros b; cbn [PyInt.zeros append PyInt.digits].
  - now rewrite orb_false_r.
  - change (PyInt.is_digit "0") with true. cbv iota.
    change (10 * 0 + PyInt.digit_value "0")%Z with 0%Z.
    rewrite IH. now rewrite orb_true_r.
Qed.

Lemma all_digits_zeros (k : nat) :
  PyStr.all_chars PyInt.is_digit (PyInt.zeros k) = true.
Proof. induction k as [|k IH]; cbn [PyInt.zeros PyStr.all_chars]; [reflexivity | exact IH]. Qed.

Lemma length_zeros (k : nat) : String.length (PyInt.zeros k) = k.
Proof. induction k as [|k IH]; simpl; [reflexivity | now rewrite IH]. Qed.

(** The digits [dec_go] puts before [acc]: they read back as [n], and the
    first is not a zero unless [n] has one digit. *)
Lemma dec_go_spec (fuel : nat) :
  forall n acc, (0 <= n < 2 ^ Z.of_nat (S fuel))%Z ->
  exists ds,
    PyInt.dec_go fuel n acc = ds ++ acc
    /\ PyStr.all_chars PyInt.is_digit ds = true
    /\ (forall a b rest,
          PyInt.digits a b (ds ++ rest)
          = PyInt.digits (a * 10 ^ Z.of_nat (String.length ds) + n) true rest)
    /\ (if (n <? 10)%Z then ds = String (PyInt.digit_char n) ""
        else (2 <= String.length ds)%nat /\ PyStr.startswith ds "0" = false).
Proof.
  assert (one : forall n acc, (0 <= n < 10)%Z ->
    let ds := String (PyInt.digit_char n) "" in
    String (PyInt.digit_char (n mod 10)) acc = ds ++ acc
    /\ PyStr.all_chars PyInt.is_digit ds = true
    /\ (forall a b rest,
          PyInt.digits a b (ds ++ rest)
          = PyInt.digits (a * 10 ^ Z.of_nat (String.length ds) + n) true rest)).
  { intros n acc Hn ds. rewrite Z.mod_small by lia.
    destruct (digit_char_value n ltac:(lia)) as [Hd Hv].
    repeat split.
    - subst ds. cbn [PyStr.all_chars]. now rewrite Hd.
    - intros a b rest. subst ds. cbn [append PyInt.digits String.length]. rewrite Hd.
      rewrite Hv. f_equal. change (10 ^ Z.of_nat 1)%Z with 10%Z. lia. }
  induction fuel as [|f IH]; intros n acc Hn.
  - assert (n < 10)%Z as Hlt by (change (2 ^ Z.of_nat 1)%Z with 2%Z in Hn; lia).
    exists (String (PyInt.digit_char n) ""). simpl PyInt.dec_go.
    destruct (one n acc ltac:(lia)) as (E1 & E2 & E3).
    repeat split; try assumption.
    apply Z.ltb_lt in Hlt. now rewrite Hlt.
  - simpl PyInt.dec_go. destruct (Z.ltb_spec n 10) as [Hlt|Hge].
    + exists (String (PyInt.digit_char n) "").
      destruct (one n acc ltac:(lia)) as (E1 & E2 & E3).
      repeat split; assumption.
    + assert (0 <= n / 10 < 2 ^ Z.of_nat (S f))%Z as Hq.
      { split; [apply Z.div_pos; lia|].
        apply Z.div_lt_upper_bound; [lia|].
        rewrite !Nat2Z.inj_succ, !Z.pow_succ_r in * by lia. lia. }
      set (d := PyInt.digit_char (n mod 10)).
      destruct (IH (n / 10)%Z (String d acc) Hq) as (ds & E1 & E2 & E3 & E4).
      assert (0 <= n mod 10 <= 9)%Z as Hm by (pose proof (Z.mod_pos_bound n 10); lia).
      destruct (digit_char_value _ Hm) as [Hd Hv]. fold d in Hd, Hv.
      exists (ds ++ String d ""). repeat split.
      * rewrite E1, append_assoc'. reflexivity.
      * rewrite all_chars_append, E2. cbn [PyStr.all_chars andb]. now rewrite Hd.
      * intros a b rest. rewrite append_assoc'. cbn [append]. rewrite E3.
        cbn [PyInt.digits]. rewrite Hd, Hv. f_equal.
        rewrite length_append'. cbn [String.length].
        replace (Z.of_nat (String.length ds + 1)) with (Z.of_nat (String.length ds) + 1)%Z by lia.
        rewrite Z.pow_add_r by lia.
        pose proof (Z.div_mod n 10 ltac:(lia)). lia.
      * rewrite length_append'. cbn [String.length].
        destruct (Z.ltb_spec (n / 10) 10) as [Hs|Hs].
        -- subst ds. cbn [String.length]. lia.
        -- lia.
      * destruct (Z.ltb_spec (n / 10) 10) as [Hs|Hs].
        -- subst ds. assert (1 <= n / 10 <= 9)%Z as Hr.
           { split; [|lia]. apply Z.div_le_lower_bound; lia. }
           apply digit_char_nonzero, Hr.
        -- destruct E4 as [E4l E4].
           destruct ds as [|x ds]; [cbn in E4l; lia|].
           cbn [PyStr.startswith append] in *. exact E4.
Qed.

Lemma dec_spec (n : Z) :
  (0 <= n)%Z ->
  PyStr.all_chars PyInt.is_digit (PyInt.dec n) = true
  /\ (forall b, PyInt.digits 0 b (PyInt.dec n) = Some n)
  /\ (1 <= String.length (PyInt.dec n))%nat
  /\ (if (n <? 10)%Z then String.length (PyInt.dec n) = 1
      else (2 <= String.length (PyInt.dec n))%nat
           /\ PyStr.startswith (PyInt.dec n) "0" = false).
Proof.
  intros Hn. unfold PyInt.dec.
  destruct (dec_go_spec (Z.to_nat (Z.log2 n)) n "") as (ds & E1 & E2 & E3 & E4).
  { split; [exact Hn|]. rewrite Nat2Z.inj_succ, Z2Nat.id by apply Z.log2_nonneg.
    destruct (Z.eq_dec n 0) as [->|]; [reflexivity|].
    apply Z.log2_spec. lia. }
  rewrite E1, append_empty_r. repeat split.
  - exact E2.
  - intros b. specialize (E3 0%Z b ""). rewrite append_empty_r in E3.
    rewrite E3. reflexivity.
  - destruct (n <? 10)%Z; [subst ds; cbn [String.length]; lia | lia].
  - destruct (n <? 10)%Z; [subst ds; reflexivity | exact E4].
Qed.

Lemma max_str_digits_ge_2 : 2 <= PyInt.max_str_digits.
Proof. apply Nat.leb_le. reflexivity. Qed.

Lemma count_digits_all (s : string) :
  PyStr.all_chars PyInt.is_digit s = true ->
  PyInt.count_digits s = String.length s.
Proof.
  induction s as [|c s IH]; [reflexivity|].
  cbn [PyStr.all_chars PyInt.count_digits String.length].
  intros [Hc Hs]%andb_true_iff. now rewrite Hc, IH.
Qed.

(** The value of a literal lies where the number of its digits puts it, and
    a literal has a digit. *)
Lemma digits_bound (s : string) :
  forall acc b v, (0 <= acc)%Z -> PyInt.digits acc b s = Some v ->
  (acc * 10 ^ Z.of_nat (PyInt.count_digits s) <= v
   < (acc + 1) * 10 ^ Z.of_nat (PyInt.count_digits s))%Z
  /\ (b = true \/ 1 <= PyInt.count_digits s).
Proof.
  induction s as [|c s IH]; intros acc b v Hacc H;
    cbn [PyInt.digits PyInt.count_digits] in *.
  - destruct b; [|discriminate]. injection H as <-.
    split; [change (10 ^ Z.of_nat 0)%Z with 1%Z; lia | now left].
  - destruct (PyInt.is_digit c) eqn:Hc.
    + pose proof (digit_value_range c Hc) as Hr.
      apply IH in H as [H _]; [|lia]. split; [|right; lia].
      rewrite Nat2Z.inj_succ, Z.pow_succ_r by lia.
      assert (0 < 10 ^ Z.of_nat (PyInt.count_digits s))%Z as Hp
        by (apply Z.pow_pos_nonneg; lia).
      nia.
    + destruct (Ascii.eqb c "_" && b) eqn:E; [|discriminate].
      apply andb_true_iff in E as [_ ->].
      apply IH in H as [H _]; [|exact Hacc]. split; [exact H | now left].
Qed.

(** A number below [10 ^ k] is printed on at most [k] digits. *)
Lemma dec_length (v : Z) (k : nat) :
  (0 <= v < 10 ^ Z.of_nat k)%Z -> 1 <= k -> String.length (PyInt.dec v) <= k.
Proof.
  intros Hv Hk. destruct (dec_spec v ltac:(lia)) as (D1 & D2 & D3 & D4).
  destruct (Z.ltb_spec v 10) as [|Hge]; [lia|]. destruct D4 as [_ D5].
  destruct (PyInt.dec v) as [|c rest] eqn:E; [cbn in D3; lia|].
  cbn [PyStr.all_chars] in D1. apply andb_true_iff in D1 as [Hc Hrest].
  specialize (D2 false). cbn [PyInt.digits] in D2. rewrite Hc in D2.
  assert (1 <= PyInt.digit_value c <= 9)%Z as Hd.
  { apply is_digit_cases in Hc. cbn [In] in Hc.
    unfold PyInt.digit_value, PyStr.code.
    intuition subst; try discriminate D5; simpl; lia. }
  apply digits_bound in D2 as [B _]; [|lia].
  rewrite count_digits_all in B by exact Hrest.
  assert (10 ^ Z.of_nat (String.length rest) < 10 ^ Z.of_nat k)%Z as Hlt.
  { assert (0 < 10 ^ Z.of_nat (String.length rest))%Z
      by (apply Z.pow_pos_nonneg; lia).
    nia. }
  apply Z.pow_lt_mono_r_iff in Hlt; [|lia|lia].
  cbn [String.length]. lia.
Qed.

(** What a literal reads as is not negative and is printed within the
    limit. *)
Lemma literal_spec (ds : string) (v : Z) :
  PyInt.literal ds = Some v ->
  PyInt.digits 0 false ds = Some v
  /\ PyInt.count_digits ds <= PyInt.max_str_digits
  /\ (0 <= v)%Z
  /\ String.length (PyInt.dec v) <= PyInt.max_str_digits.
Proof.
  unfold PyInt.literal.
  destruct (Nat.leb_spec (PyInt.count_digits ds) PyInt.max_str_digits)
    as [Hle|]; [|discriminate].
  intros H. split; [exact H|]. split; [exact Hle|].
  apply digits_bound in H as [B [D|D]]; [discriminate D | | lia].
  split; [lia|].
  transitivity (PyInt.count_digits ds); [|exact Hle].
  apply dec_length; [lia | exact D].
Qed.

Lemma literal_within (ds : string) :
  PyInt.count_digits ds <= PyInt.max_str_digits ->
  PyInt.literal ds = PyInt.digits 0 false ds.
Proof.
  intros H. unfold PyInt.literal. apply Nat.leb_le in H. now rewrite H.
Qed.

(** The numbers [int] returns are those [str] and the [d] formats print:
    they have at most [max_str_digits] digits. *)
Lemma parse_within_limit (s : string) (n : Z) :
  PyInt.parse s = Some n ->
  String.length (PyInt.dec (Z.abs n)) <= PyInt.max_str_digits.
Proof.
  unfold PyInt.parse.
  assert (forall ds, PyInt.literal ds = Some n ->
            String.length (PyInt.dec (Z.abs n)) <= PyInt.max_str_digits) as P.
  { intros ds H. apply literal_spec in H as (_ & _ & H0 & H1).
    now rewrite Z.abs_eq. }
  assert (forall ds, option_map Z.opp (PyInt.literal ds) = Some n ->
            String.length (PyInt.dec (Z.abs n)) <= PyInt.max_str_digits) as M.
  { intros ds H. destruct (PyInt.literal ds) as [v|] eqn:E; [|discriminate].
    injection H as <-. apply literal_spec in E as (_ & _ & H0 & H1).
    now rewrite Z.abs_opp, Z.abs_eq. }
  destruct (PyStr.strip_by PyInt.int_space s) as [|c ds]; [apply P|].
  destruct c as [[] [] [] [] [] [] [] []]; solve [apply P | apply M].
Qed.

(** [int] on a string of digits. *)
Lemma parse_digit_string (s : string) :
  PyStr.all_chars PyInt.is_digit s = true -> s <> "" ->
  String.length s <= PyInt.max_str_digits ->
  PyInt.parse s = PyInt.digits 0 false s.
Proof.
  intros Hs Hne Hl. rewrite <- literal_within by now rewrite count_digits_all.
  unfold PyInt.parse.
  rewrite strip_by_clean by (eapply all_chars_impl; [apply digit_not_space | exact Hs]).
  destruct s as [|c s]; [congruence|].
  cbn [PyStr.all_chars] in Hs. apply andb_true_iff in Hs as [Hc _].
  apply is_digit_cases in Hc. cbn [In] in Hc. intuition subst; reflexivity.
Qed.

(** What [02d] prints for a number that is not negative. *)
Lemma format_02d_nonneg (v : Z) :
  (0 <= v)%Z -> String.length (PyInt.dec v) <= PyInt.max_str_digits ->
  PyStr.all_chars PyInt.is_digit (PyInt.format_02d v) = true
  /\ (2 <= String.length (PyInt.format_02d v))%nat
  /\ PyInt.parse (PyInt.format_02d v) = Some v
  /\ (String.length (PyInt.format_02d v) = 2
      \/ PyStr.startswith (PyInt.format_02d v) "0" = false).
Proof.
  intros Hv Hl. destruct (dec_spec v Hv) as (D1 & D2 & D3 & D4).
  unfold PyInt.format_02d. apply Z.ltb_ge in Hv as Hneg. rewrite Hneg.
  set (k := 2 - String.length (PyInt.dec v)).
  assert (PyStr.all_chars PyInt.is_digit (PyInt.zeros k ++ PyInt.dec v) = true) as Hall.
  { now rewrite all_chars_append, all_digits_zeros, D1. }
  repeat split.
  - exact Hall.
  - rewrite length_append', length_zeros. lia.
  - rewrite parse_digit_string; [|exact Hall| |].
    + rewrite digits_zeros. apply D2.
    + destruct (PyInt.dec v); [cbn in D3; lia|]. now destruct (PyInt.zeros k).
    + rewrite length_append', length_zeros.
      pose proof max_str_digits_ge_2. lia.
  - destruct (v <? 10)%Z.
    + left. rewrite length_append', length_zeros. lia.
    + right. destruct D4 as [D4 D5]. replace k with 0 by lia. exact D5.
Qed.

Lemma two_digits_cases (m : string) :
  String.length m = 2 -> PyStr.all_chars PyInt.is_digit m = true ->
  exists d1 d2, m = String d1 (String d2 "")
    /\ In d1 ["0"; "1"; "2"; "3"; "4"; "5"; "6"; "7"; "8"; "9"]%char
    /\ In d2 ["0"; "1"; "2"; "3"; "4"; "5"; "6"; "7"; "8"; "9"]%char.
Proof.
  destruct m as [|d1 [|d2 [|? ?]]]; try discriminate. intros _.
  cbn [PyStr.all_chars]. intros [H1 [H2 _]%andb_true_iff]%andb_true_iff.
  exists d1, d2. auto using is_digit_cases.
Qed.

(** Two digits are read and printed back as they are, and a zero appended
    to them multiplies by ten. *)
Lemma two_digits_roundtrip (m : string) :
  String.length m = 2 -> PyStr.all_chars PyInt.is_digit m = true ->
  exists v, PyInt.parse m = Some v /\ PyInt.format_02d v = m
    /\ PyInt.parse (m ++ "0") = Some (10 * v)%Z.
Proof.
  intros Hl Hd. destruct (two_digits_cases m Hl Hd) as (d1 & d2 & -> & H1 & H2).
  cbn [In] in H1, H2.
  repeat (destruct H1 as [<- | H1]; [|]); try contradiction;
    repeat (destruct H2 as [<- | H2]; [|]); try contradiction;
    eexists; (split; [vm_compute; reflexivity|]); split; vm_compute; reflexivity.
Qed.

Lemma contains_zeros (c : ascii) (k : nat) :
  PyInt.is_digit c = false -> PyStr.contains c (PyInt.zeros k) = false.
Proof.
  intros H. apply (all_chars_excludes PyInt.is_digit); [apply all_digits_zeros | exact H].
Qed.

(** What [02d] prints holds digits and at most a sign before them. *)
Lemma format_02d_excludes (c : ascii) (v : Z) :
  PyInt.is_digit c = false -> c <> "-"%char ->
  PyStr.contains c (PyInt.format_02d v) = false.
Proof.
  intros Hc Hm. unfold PyInt.format_02d.
  destruct (Z.ltb_spec v 0) as [Hv|Hv].
  - destruct (dec_spec (- v) ltac:(lia)) as (D1 & _).
    cbn [append PyStr.contains]. rewrite contains_append, contains_zeros by exact Hc.
    rewrite (all_chars_excludes PyInt.is_digit c _ D1 Hc).
    destruct (Ascii.eqb_spec "-"%char c); [congruence | reflexivity].
  - destruct (dec_spec v Hv) as (D1 & _).
    rewrite contains_append, contains_zeros by exact Hc.
    now rewrite (all_chars_excludes PyInt.is_digit c _ D1 Hc).
Qed.

(** [int] reads back what [02d] printed, the number being within the
    limit. *)
Lemma parse_format_02d (v : Z) :
  String.length (PyInt.dec (Z.abs v)) <= PyInt.max_str_digits ->
  PyInt.parse (PyInt.format_02d v) = Some v.
Proof.
  intros Hl.
  destruct (Z.ltb_spec v 0) as [Hv|Hv];
    [|rewrite Z.abs_eq in Hl by lia; now apply format_02d_nonneg].
  rewrite Z.abs_neq in Hl by lia.
  unfold PyInt.format_02d. apply Z.ltb_lt in Hv as Hneg. rewrite Hneg.
  destruct (dec_spec (- v) ltac:(lia)) as (D1 & D2 & D3 & _).
  set (k := 1 - String.length (PyInt.dec (- v))).
  unfold PyInt.parse. rewrite strip_by_clean.
  - cbn [append]. rewrite literal_within.
    + rewrite digits_zeros, D2. cbn [option_map]. f_equal. lia.
    + rewrite count_digits_all
        by now rewrite all_chars_append, all_digits_zeros, D1.
      rewrite length_append', length_zeros. lia.
  - cbn [append PyStr.all_chars]. rewrite all_chars_append.
    change (negb (PyInt.int_space "-")) with true. cbn [andb].
    rewrite (all_chars_impl PyInt.is_digit _ _ digit_not_space (all_digits_zeros k)).
    now rewrite (all_chars_impl PyInt.is_digit _ _ digit_not_space D1).
Qed.

(** [str] of a natural number holds digits only. *)
Lemma to_str_keeps_out (c : ascii) (i : nat) :
  PyInt.is_digit c = false -> PyStr.contains c (PyInt.to_str (Z.of_nat i)) = false.
Proof.
  intros Hd. unfold PyInt.to_str.
  destruct (Z.ltb_spec (Z.of_nat i) 0); [lia|].
  destruct (dec_spec (Z.of_nat i) ltac:(lia)) as (D1 & _).
  now apply (all_chars_excludes PyInt.is_digit).
Qed.

End IntFacts.

(** ** Timestamps *)

Section Timestamps.

Lemma digits_no_colon (s : string) :
  PyStr.all_chars PyInt.is_digit s = true -> PyStr.contains ":" s = false.
Proof. intros H. now apply (all_chars_excludes PyInt.is_digit). Qed.

Lemma digits_no_dot (s : string) :
  PyStr.all_chars PyInt.is_digit s = true -> PyStr.contains "." s = false.
Proof. intros H. now apply (all_chars_excludes PyInt.is_digit). Qed.

(** The three colon-separated fields and the two fields of the last one. *)
Lemma split_timestamp (h m s c : string) :
  PyStr.contains ":" h = false -> PyStr.contains ":" m = false ->
  PyStr.contains ":" s = false -> PyStr.contains ":" c = false ->
  PyStr.contains "." s = false -> PyStr.contains "." c = false ->
  PyStr.split ":" None (h ++ ":" ++ m ++ ":" ++ s ++ "." ++ c)
  = [h; m; s ++ "." ++ c]
  /\ PyStr.split "." None (s ++ "." ++ c) = [s; c].
Proof.
  intros Hh Hm Hs Hc Ds Dc. cbn [append]. split.
  - rewrite split_at_sep by (assumption || reflexivity).
    rewrite split_at_sep by (assumption || reflexivity).
    rewrite split_no_sep; [reflexivity|].
    rewrite contains_append, Hs. cbn [PyStr.contains]. now rewrite Hc.
  - rewrite split_at_sep by (assumption || reflexivity).
    now rewrite split_no_sep.
Qed.

(** C1, as the code has it.  For an ASS timestamp [h:mm:ss.cc] (one to
    4300 digits of hours, as many as [int] reads; two digits each of
    minutes, seconds and centiseconds), [ass_time_to_vtt_time] returns
    [H:mm:ss.cc0]: the milliseconds are the centiseconds times ten on three
    digits, minutes and seconds are kept on their two digits, and [H] is the
    number of hours on at least two digits, with a leading zero only to
    reach two. *)
Theorem ass_time_to_vtt_time_wellformed (h m s c : string) :
  h <> "" -> PyStr.all_chars PyInt.is_digit h = true ->
  String.length h <= PyInt.max_str_digits ->
  String.length m = 2 -> PyStr.all_chars PyInt.is_digit m = true ->
  String.length s = 2 -> PyStr.all_chars PyInt.is_digit s = true ->
  String.length c = 2 -> PyStr.all_chars PyInt.is_digit c = true ->
  exists H,
    ass_time_to_vtt_time (h ++ ":" ++ m ++ ":" ++ s ++ "." ++ c)
    = Ok (H ++ ":" ++ m ++ ":" ++ s ++ "." ++ c ++ "0")
    /\ PyStr.all_chars PyInt.is_digit H = true
    /\ (2 <= String.length H)%nat
    /\ (String.length H = 2 \/ PyStr.startswith H "0" = false)
    /\ (exists hours, PyInt.parse h = Some hours /\ PyInt.parse H = Some hours)
    /\ (exists cs, PyInt.parse c = Some cs
                   /\ PyInt.parse (c ++ "0") = Some (10 * cs)%Z)
    /\ String.length (c ++ "0") = 3.
Proof.
  intros Hne Hh Lh Lm Hm Ls Hs Lc Hc.
  destruct (split_timestamp h m s c) as [E1 E2];
    auto using digits_no_colon, digits_no_dot.
  destruct (digits_digit_string h Hh Hne 0%Z ltac:(lia)) as (vh & Hvh & Eh).
  assert (PyInt.parse h = Some vh) as Ph.
  { rewrite parse_digit_string by assumption.
    specialize (Eh false ""). now rewrite append_empty_r in Eh. }
  destruct (two_digits_roundtrip m Lm Hm) as (vm & Pm & Fm & _).
  destruct (two_digits_roundtrip s Ls Hs) as (vs & Ps & Fs & _).
  destruct (two_digits_roundtrip c Lc Hc) as (vc & Pc & _ & Pc0).
  pose proof (parse_within_limit h vh Ph) as Wh.
  rewrite Z.abs_eq in Wh by exact Hvh.
  destruct (format_02d_nonneg vh Hvh Wh) as (F1 & F2 & F3 & F4).
  exists (PyInt.format_02d vh). repeat split; try assumption.
  - unfold ass_time_to_vtt_time. rewrite E1, E2, Ph, Pm, Ps, Fm, Fs.
    reflexivity.
  - exists vh. now split.
  - exists vc. now split.
  - rewrite length_append', Lc. reflexivity.
Qed.

(** C1 at [1:23:45.07]. *)
Lemma ass_time_to_vtt_time_wellformed_witness :
  exists H,
    ass_time_to_vtt_time "1:23:45.07" = Ok (H ++ ":23:45.070")
    /\ PyStr.all_chars PyInt.is_digit H = true
    /\ (2 <= String.length H)%nat
    /\ (String.length H = 2 \/ PyStr.startswith H "0" = false)
    /\ (exists hours, PyInt.parse "1" = Some hours /\ PyInt.parse H = Some hours)
    /\ (exists cs, PyInt.parse "07" = Some cs
                   /\ PyInt.parse "070" = Some (10 * cs)%Z)
    /\ String.length "070" = 3.
Proof.
  apply (ass_time_to_vtt_time_wellformed "1" "23" "45" "07");
    solve [discriminate | reflexivity | apply Nat.leb_le; reflexivity].
Defined.

(** C1 as stated fails on hours of more than 4300 digits: [int] refuses
    them, zeros or not, and the conversion raises; 4300 digits are read. *)
Lemma ass_time_to_vtt_time_long_hours :
  String.length (PyInt.zeros 4301) = 4301
  /\ PyStr.all_chars PyInt.is_digit (PyInt.zeros 4301) = true
  /\ ass_time_to_vtt_time (PyInt.zeros 4301 ++ ":00:00.00") = Raise ValueError
  /\ ass_time_to_vtt_time ("1" ++ PyInt.zeros 4300 ++ ":00:00.00")
     = Raise ValueError
  /\ ass_time_to_vtt_time (PyInt.zeros 4300 ++ ":00:00.00")
     = Ok "00:00:00.000".
Proof.
  split; [|split; [|split; [|split]]]; vm_compute; reflexivity.
Qed.

Lemma join_cons_char (sep : string) (x : ascii) (p : string) (ps : list string) :
  PyStr.join sep (String x p :: ps) = String x (PyStr.join sep (p :: ps)).
Proof. destruct ps; reflexivity. Qed.

Lemma join_cons_empty (sep : string) (l : list string) :
  l <> [] -> PyStr.join sep ("" :: l) = sep ++ PyStr.join sep l.
Proof. destruct l; [congruence | reflexivity]. Qed.

(** Joining the fields of a split gives the text back. *)
Lemma join_split (sep : ascii) (m : option nat) (t : string) :
  PyStr.join (String sep "") (PyStr.split sep m t) = t.
Proof.
  revert m. induction t as [|x t IH]; intros m; [reflexivity|].
  cbn [PyStr.split].
  assert (forall m', PyStr.join (String sep "")
            match PyStr.split sep m' t with
            | [] => [String x ""]
            | p :: ps => String x p :: ps
            end = String x t) as Hkeep.
  { intros m'. specialize (IH m').
    destruct (PyStr.split sep m' t) as [|p ps] eqn:E;
      [now apply split_nonempty in E|].
    now rewrite join_cons_char, IH. }
  destruct (Ascii.eqb_spec x sep) as [->|Hx]; cbn [andb]; [|apply Hkeep].
  destruct (PyStr.may_split m); [|apply Hkeep].
  rewrite join_cons_empty by apply split_nonempty.
  now rewrite IH.
Qed.

(** Without a limit no field of a split holds the separator. *)
Lemma split_fields_clean (sep : ascii) (t : string) :
  Forall (fun f => PyStr.contains sep f = false) (PyStr.split sep None t).
Proof.
  induction t as [|x t IH]; cbn [PyStr.split]; [now constructor|].
  cbn [PyStr.may_split PyStr.one_less option_map].
  destruct (Ascii.eqb_spec x sep) as [->|Hx]; cbn [andb].
  - now constructor.
  - destruct (PyStr.split sep None t) as [|p ps] eqn:E;
      [now apply split_nonempty in E|].
    inversion IH as [|? ? Hp Hps]; subst. constructor; [|assumption].
    cbn [PyStr.contains]. rewrite Hp.
    destruct (Ascii.eqb_spec x sep); [contradiction | reflexivity].
Qed.

(** The timestamps the conversion accepts. *)
Lemma ass_time_to_vtt_time_ok_iff (t out : string) :
  ass_time_to_vtt_time t = Ok out <->
  exists h m s c vh vm vs,
    t = h ++ ":" ++ m ++ ":" ++ s ++ "." ++ c
    /\ PyStr.contains ":" h = false /\ PyStr.contains ":" m = false
    /\ PyStr.contains ":" s = false /\ PyStr.contains ":" c = false
    /\ PyStr.contains "." s = false /\ PyStr.contains "." c = false
    /\ PyInt.parse h = Some vh /\ PyInt.parse m = Some vm
    /\ PyInt.parse s = Some vs
    /\ out = PyInt.format_02d vh ++ ":" ++ PyInt.format_02d vm ++ ":"
             ++ PyInt.format_02d vs ++ "." ++ c ++ "0".
Proof.
  split.
  - unfold ass_time_to_vtt_time.
    pose proof (join_split ":" None t) as J.
    pose proof (split_fields_clean ":" t) as F.
    destruct (PyStr.split ":" None t) as [|h [|m [|x [|? ?]]]]; try discriminate.
    pose proof (join_split "." None x) as J'.
    pose proof (split_fields_clean "." x) as F'.
    destruct (PyStr.split "." None x) as [|s [|c [|? ?]]]; try discriminate.
    destruct (PyInt.parse h) as [vh|] eqn:Ph; try discriminate.
    destruct (PyInt.parse m) as [vm|] eqn:Pm; try discriminate.
    destruct (PyInt.parse s) as [vs|] eqn:Ps; try discriminate.
    intros [= <-]. exists h, m, s, c, vh, vm, vs.
    unfold PyStr.join in J, J'. cbn [String.concat] in J, J'.
    inversion F as [|? ? Fh F1]; subst. inversion F1 as [|? ? Fm F2]; subst.
    inversion F2 as [|? ? Fx _]; subst.
    inversion F' as [|? ? Fs F3]; subst. inversion F3 as [|? ? Fc _]; subst.
    cbn [append] in Fx. rewrite contains_append in Fx.
    apply orb_false_iff in Fx as [Fx1 Fx2].
    cbn [PyStr.contains] in Fx2. apply orb_false_iff in Fx2 as [_ Fx2].
    repeat split; auto.
  - intros (h & m & s & c & vh & vm & vs & -> & Hh & Hm & Hs & Hc & Ds & Dc
            & Ph & Pm & Ps & ->).
    destruct (split_timestamp h m s c) as [E1 E2]; try assumption.
    unfold ass_time_to_vtt_time. now rewrite E1, E2, Ph, Pm, Ps.
Qed.

(** The conversion raises nothing but [ValueError]. *)
Lemma ass_time_to_vtt_time_total (t : string) :
  (exists out, ass_time_to_vtt_time t = Ok out)
  \/ ass_time_to_vtt_time t = Raise ValueError.
Proof.
  unfold ass_time_to_vtt_time.
  destruct (PyStr.split ":" None t) as [|h [|m [|x [|? ?]]]]; auto.
  destruct (PyStr.split "." None x) as [|s [|c [|? ?]]]; auto.
  destruct (PyInt.parse h), (PyInt.parse m), (PyInt.parse s); eauto.
Qed.

(** A converted timestamp holds digits, signs, colons, dots and what its
    source held. *)
Lemma time_keeps_out (c : ascii) (t out : string) :
  PyInt.is_digit c = false -> c <> "-"%char -> c <> ":"%char -> c <> "."%char ->
  PyStr.contains c t = false ->
  ass_time_to_vtt_time t = Ok out -> PyStr.contains c out = false.
Proof.
  intros Hd H1 H2 H3 Ht H. apply ass_time_to_vtt_time_ok_iff in H
    as (h & m & s & x & vh & vm & vs & -> & _ & _ & _ & _ & _ & _ & _ & _ & _ & ->).
  assert (forall a b, PyStr.contains c (a ++ b) = false ->
                      PyStr.contains c b = false) as R.
  { intros a b E. rewrite contains_append in E. now apply orb_false_iff in E. }
  do 6 apply R in Ht.
  rewrite !contains_append, !format_02d_excludes, Ht by assumption.
  cbn [PyStr.contains orb].
  destruct (Ascii.eqb_spec ":"%char c); [congruence|].
  destruct (Ascii.eqb_spec "."%char c); [congruence|].
  destruct (Ascii.eqb_spec "0"%char c) as [<-|]; [discriminate | reflexivity].
Qed.

(** X3.  What [ass_time_to_vtt_time] returns, it accepts: converting a
    converted timestamp succeeds and appends one more zero, the hours,
    minutes and seconds printed by [02d] being read back by [int] as the
    numbers they were.  The conversion is therefore not idempotent. *)
Theorem ass_time_to_vtt_time_again (t out : string) :
  ass_time_to_vtt_time t = Ok out ->
  ass_time_to_vtt_time out = Ok (out ++ "0").
Proof.
  intros H. apply ass_time_to_vtt_time_ok_iff in H
    as (h & m & s & c & vh & vm & vs & -> & Hh & Hm & Hs & Hc & Ds & Dc
        & Ph & Pm & Ps & ->).
  apply ass_time_to_vtt_time_ok_iff.
  exists (PyInt.format_02d vh), (PyInt.format_02d vm), (PyInt.format_02d vs),
    (c ++ "0"), vh, vm, vs.
  rewrite !format_02d_excludes by (reflexivity || discriminate).
  rewrite !parse_format_02d by (eapply parse_within_limit; eassumption).
  rewrite !contains_append, Hc, Dc.
  repeat split; try reflexivity.
  rewrite !append_assoc'. reflexivity.
Qed.

(** X3 at [0:01:02.50], converted twice. *)
Lemma ass_time_to_vtt_time_again_witness :
  ass_time_to_vtt_time "00:01:02.500" = Ok "00:01:02.5000".
Proof. apply (ass_time_to_vtt_time_again "0:01:02.50" "00:01:02.500"). reflexivity. Defined.

End Timestamps.

(** ** Rounding *)

Section FloatFacts.
Local Open Scope Q_scope.
Import Float64.

Lemma two_neq0 : ~ two == 0.
Proof. discriminate. Qed.

Lemma pow_pos (k : Z) : 0 < two ^ k.
Proof. apply Qpower_0_lt. reflexivity. Qed.

Lemma pow_succ (k : Z) : two ^ (k + 1) == 2 * two ^ k.
Proof.
  rewrite Qpower_plus by apply two_neq0. change (two ^ 1) with two.
  unfold two at 2. lra.
Qed.

Lemma pow_mono (a b : Z) : (a <= b)%Z -> two ^ a <= two ^ b.
Proof. intros H. apply Qpower_le_compat_l; [exact H | unfold two; lra]. Qed.

Lemma pow_lt_inv (a b : Z) : two ^ a < two ^ b -> (a < b)%Z.
Proof. intros H. apply (Qpower_lt_compat_l_inv two); [exact H | reflexivity]. Qed.

Lemma pow_inject (k : Z) : (0 <= k)%Z -> inject_Z (2 ^ k) == two ^ k.
Proof. intros H. now rewrite Zpower_Qpower. Qed.

(** [flog2 x] is the exponent of the power of two at or below [x]. *)
Lemma flog2_spec (x : Q) :
  0 < x -> two ^ flog2 x <= x /\ x < two ^ (flog2 x + 1).
Proof.
  intros Hx. unfold flog2.
  set (s := (Z.log2 (Zpos (Qden x)) + 1)%Z).
  set (P := Qfloor (x * two ^ s)).
  assert (0 <= s - 1)%Z as Hs by (subst s; pose proof (Z.log2_nonneg (Zpos (Qden x))); lia).
  assert (inject_Z (Zpos (Qden x)) < two ^ s) as Hden.
  { rewrite <- pow_inject by lia. rewrite <- Zlt_Qlt.
    pose proof (Z.log2_spec (Zpos (Qden x)) ltac:(lia)) as [_ H].
    subst s. now rewrite <- Z.add_1_r in H. }
  assert (1 <= x * inject_Z (Zpos (Qden x))) as Hnum.
  { destruct x as [n d]. unfold Qlt in Hx. cbn in Hx.
    unfold Qle, Qmult, inject_Z. cbn. nia. }
  pose proof (pow_pos s) as Hp.
  assert (1 <= x * two ^ s) as H1 by nra.
  assert (1 <= P)%Z as HP.
  { subst P. change 1%Z with (Qfloor 1). now apply Qfloor_resp_le. }
  pose proof (Z.log2_spec P ltac:(lia)) as [Lo Hi].
  pose proof (Z.log2_nonneg P) as HL.
  rewrite <- Z.add_1_r in Hi.
  assert (two ^ Z.log2 P <= x * two ^ s) as A.
  { apply Qle_trans with (inject_Z P); [|apply Qfloor_le].
    rewrite <- (pow_inject (Z.log2 P)) by lia. now rewrite <- Zle_Qle. }
  assert (x * two ^ s < two ^ (Z.log2 P + 1)) as B.
  { apply Qlt_le_trans with (inject_Z (P + 1)); [apply Qlt_floor|].
    rewrite <- (pow_inject (Z.log2 P + 1)) by lia. rewrite <- Zle_Qle. lia. }
  assert (two ^ Z.log2 P == two ^ (Z.log2 P - s) * two ^ s) as E1.
  { rewrite <- Qpower_plus by apply two_neq0. now replace (Z.log2 P - s + s)%Z with (Z.log2 P) by lia. }
  assert (two ^ (Z.log2 P + 1) == two ^ (Z.log2 P - s + 1) * two ^ s) as E2.
  { rewrite <- Qpower_plus by apply two_neq0. now replace (Z.log2 P - s + 1 + s)%Z with (Z.log2 P + 1)%Z by lia. }
  rewrite E1 in A. rewrite E2 in B.
  pose proof (pow_pos (Z.log2 P - s)). pose proof (pow_pos (Z.log2 P - s + 1)).
  split; nra.
Qed.

Lemma flog2_mono (x y : Q) : 0 < x -> x <= y -> (flog2 x <= flog2 y)%Z.
Proof.
  intros Hx Hxy. destruct (flog2_spec x Hx) as [A _].
  destruct (flog2_spec y ltac:(lra)) as [_ B].
  assert (two ^ flog2 x < two ^ (flog2 y + 1)) as H by lra.
  apply pow_lt_inv in H. lia.
Qed.

Lemma round_half_even_Z (k : Z) : round_half_even (inject_Z k) = k.
Proof.
  unfold round_half_even. rewrite Qfloor_Z.
  destruct (Qcompare_spec (inject_Z k - inject_Z k) (1 # 2)) as [H|H|H]; try lra.
  reflexivity.
Qed.

Lemma round_half_even_mono (x y : Q) :
  x <= y -> (round_half_even x <= round_half_even y)%Z.
Proof.
  intros Hxy. unfold round_half_even.
  pose proof (Qfloor_resp_le x y Hxy) as Hf.
  pose proof (Qfloor_le x) as X1. pose proof (Qlt_floor x) as X2.
  pose proof (Qfloor_le y) as Y1. pose proof (Qlt_floor y) as Y2.
  rewrite inject_Z_plus in X2, Y2. 
  destruct (Z.eq_dec (Qfloor x) (Qfloor y)) as [E|E].
  - rewrite <- E in *.
    destruct (Qcompare_spec (x - inject_Z (Qfloor x)) (1 # 2)) as [H|H|H];
      destruct (Qcompare_spec (y - inject_Z (Qfloor x)) (1 # 2)) as [H'|H'|H'];
      try lra; destruct (Z.even (Qfloor x)); lia.
  - assert (Qfloor x + 1 <= Qfloor y)%Z as Hlt by lia.
    destruct (Qcompare (x - inject_Z (Qfloor x)) (1 # 2));
      destruct (Qcompare (y - inject_Z (Qfloor y)) (1 # 2));
      destruct (Z.even (Qfloor x)); destruct (Z.even (Qfloor y)); lia.
Qed.

Lemma round_half_even_ge (k : Z) (x : Q) :
  inject_Z k <= x -> (k <= round_half_even x)%Z.
Proof. intros H. rewrite <- (round_half_even_Z k). now apply round_half_even_mono. Qed.

Lemma round_half_even_le (k : Z) (x : Q) :
  x <= inject_Z k -> (round_half_even x <= k)%Z.
Proof. intros H. rewrite <- (round_half_even_Z k). now apply round_half_even_mono. Qed.

(** The rounded value stays within the binade of [x]. *)
Lemma rn_bracket (x : Q) :
  0 < x -> two ^ flog2 x <= rn x /\ rn x <= two ^ (flog2 x + 1).
Proof.
  intros Hx. destruct (flog2_spec x Hx) as [A B]. unfold rn.
  set (e := (flog2 x - 52)%Z).
  pose proof (pow_pos e) as He.
  assert (two ^ flog2 x == two ^ 52 * two ^ e) as E1.
  { rewrite <- Qpower_plus by apply two_neq0. now replace (52 + e)%Z with (flog2 x) by (subst e; lia). }
  assert (two ^ (flog2 x + 1) == two ^ 53 * two ^ e) as E2.
  { rewrite <- Qpower_plus by apply two_neq0. now replace (53 + e)%Z with (flog2 x + 1)%Z by (subst e; lia). }
  assert (inject_Z (2 ^ 52) <= x / two ^ e) as L.
  { rewrite pow_inject by lia. apply Qle_shift_div_l; [exact He|]. now rewrite <- E1. }
  assert (x / two ^ e <= inject_Z (2 ^ 53)) as U.
  { rewrite pow_inject by lia. apply Qle_shift_div_r; [exact He|]. rewrite <- E2. lra. }
  apply round_half_even_ge in L. apply round_half_even_le in U.
  rewrite Zle_Qle in L, U. rewrite !pow_inject in L, U by lia.
  rewrite E1, E2. split; nra.
Qed.

Lemma rn_pos (x : Q) : 0 < x -> 0 < rn x.
Proof.
  intros Hx. destruct (rn_bracket x Hx) as [A _].
  pose proof (pow_pos (flog2 x)). lra.
Qed.

(** Rounding to nearest is monotone. *)
Lemma rn_mono (x y : Q) : 0 < x -> x <= y -> rn x <= rn y.
Proof.
  intros Hx Hxy. pose proof (flog2_mono x y Hx Hxy) as Hf.
  destruct (Z.eq_dec (flog2 x) (flog2 y)) as [E|E].
  - unfold rn. rewrite <- E. set (e := (flog2 x - 52)%Z).
    pose proof (pow_pos e) as He.
    assert (x / two ^ e <= y / two ^ e) as H.
    { apply Qle_shift_div_l; [exact He|]. unfold Qdiv.
      rewrite <- Qmult_assoc, (Qmult_comm (/ _)), Qmult_inv_r by lra. lra. }
    apply round_half_even_mono in H. rewrite Zle_Qle in H. nra.
  - destruct (rn_bracket x Hx) as [_ A].
    destruct (rn_bracket y ltac:(lra)) as [B _].
    pose proof (pow_mono (flog2 x + 1) (flog2 y) ltac:(lia)). lra.
Qed.

Lemma rn_comp (x y : Q) : 0 < x -> x == y -> rn x == rn y.
Proof.
  intros Hx E. apply Qle_antisym; apply rn_mono; lra.
Qed.

(** The nearest integer is at most one half away. *)
Lemma round_half_even_near (y : Q) :
  y - (1 # 2) <= inject_Z (round_half_even y)
  /\ inject_Z (round_half_even y) <= y + (1 # 2).
Proof.
  unfold round_half_even.
  pose proof (Qfloor_le y) as F1. pose proof (Qlt_floor y) as F2.
  rewrite inject_Z_plus in F2. change (inject_Z 1) with 1 in F2.
  destruct (Qcompare_spec (y - inject_Z (Qfloor y)) (1 # 2)) as [H|H|H].
  - destruct (Z.even (Qfloor y)); rewrite ?inject_Z_plus;
      change (inject_Z 1) with 1; split; lra.
  - split; lra.
  - rewrite inject_Z_plus. change (inject_Z 1) with 1. split; lra.
Qed.

(** Rounding moves a number by at most [2 ^ -53] of itself. *)
Lemma rn_error (x : Q) :
  0 < x ->
  x - x * (1 # 9007199254740992) <= rn x
  /\ rn x <= x + x * (1 # 9007199254740992).
Proof.
  intros Hx. destruct (flog2_spec x Hx) as [A _]. unfold rn.
  set (e := (flog2 x - 52)%Z).
  pose proof (pow_pos e) as He.
  destruct (round_half_even_near (x / two ^ e)) as [L U].
  set (R := inject_Z (round_half_even (x / two ^ e))) in *.
  assert (x / two ^ e * two ^ e == x) as Ex by (field; lra).
  assert (two ^ flog2 x == two ^ 52 * two ^ e) as E1.
  { rewrite <- Qpower_plus by apply two_neq0.
    now replace (52 + e)%Z with (flog2 x) by (subst e; lia). }
  assert (two ^ 52 == 4503599627370496) as E52 by reflexivity.
  rewrite E1, E52 in A.
  assert ((x / two ^ e - (1 # 2)) * two ^ e <= R * two ^ e) as L'
    by (apply Qmult_le_compat_r; lra).
  assert (R * two ^ e <= (x / two ^ e + (1 # 2)) * two ^ e) as U'
    by (apply Qmult_le_compat_r; lra).
  assert ((x / two ^ e - (1 # 2)) * two ^ e == x - (1 # 2) * two ^ e) as EL
    by (rewrite <- Ex at 2; ring).
  assert ((x / two ^ e + (1 # 2)) * two ^ e == x + (1 # 2) * two ^ e) as EU
    by (rewrite <- Ex at 2; ring).
  rewrite EL in L'. rewrite EU in U'.
  split; lra.
Qed.

End FloatFacts.

(** ** Text cleanup *)

Section Cleanup.

Lemma subseq_contains (c : ascii) (a b : string) :
  PyStr.Subseq a b -> PyStr.contains c a = true -> PyStr.contains c b = true.
Proof.
  induction 1 as [|x a b _ IH|x a b _ IH]; cbn [PyStr.contains]; auto.
  - intros [H|H]%orb_true_iff; [now rewrite H | now rewrite IH, orb_true_r].
  - intros H. now rewrite IH, orb_true_r.
Qed.

(** A substitution by the empty string only deletes characters. *)
Lemma sub_loop_deletes (r : Re.regex) (subject s : string) :
  forall skip pos, PyStr.Subseq (Re.sub_loop r [] subject skip pos s) s.
Proof.
  induction s as [|c s IH]; intros skip pos.
  - destruct skip; cbn [Re.sub_loop]; [|constructor].
    destruct (Re.match_here r pos "" pos _) as [[e g]|]; constructor.
  - destruct skip as [|k]; cbn [Re.sub_loop].
    + destruct (Re.match_here r pos (String c s) pos _) as [[e g]|].
      * cbn [Re.expand append]. destruct (e =? pos)%nat.
        -- destruct (Re.match_here r (S pos) (String c s) pos _) as [[e' g']|].
           ++ apply PyStr.subseq_drop, IH.
           ++ apply PyStr.subseq_keep, IH.
        -- apply PyStr.subseq_drop, IH.
      * apply PyStr.subseq_keep, IH.
    + apply PyStr.subseq_drop, IH.
Qed.

Lemma block_pattern_compiles :
  Re.compile block_pattern =
  Re.Done [Re.Atom (Re.Lit "{") Re.One; Re.Atom (Re.Lit "\") Re.One;
           Re.Atom (Re.CharSet true ["}"%char]) (Re.Star true);
           Re.Atom (Re.Lit "}") Re.One].
Proof. reflexivity. Qed.

(** The three pairing patterns do not compile: in each the set opened by
    [[^]] is never closed. *)
Lemma pairing_patterns_invalid :
  Re.compile bold_pattern = Re.Error "unterminated character set"
  /\ Re.compile italic_pattern = Re.Error "unterminated character set"
  /\ Re.compile underline_pattern = Re.Error "unterminated character set".
Proof. repeat split; reflexivity. Qed.

Lemma strip_override_blocks_sub (text : string) :
  exists r, Re.compile block_pattern = Re.Done r
    /\ strip_override_blocks text = Re.sub_loop r [] text 0 0 text.
Proof.
  eexists. split; [apply block_pattern_compiles|].
  unfold strip_override_blocks, Re.sub. rewrite block_pattern_compiles.
  reflexivity.
Qed.

Lemma pair_tags_raises (text : string) :
  pair_tags text = Re.Error "unterminated character set".
Proof.
  unfold pair_tags, Re.sub.
  destruct pairing_patterns_invalid as (-> & _ & _). reflexivity.
Qed.

Lemma or_else_none {A : Type} (x : option A) : Re.or_else x None = x.
Proof. now destruct x. Qed.

(** One step of a starred atom. *)
Lemma match_star_step (a : Re.atom) (greedy : bool) (r : Re.regex)
  (floor : nat) (s : string) (pos : nat) (g : Re.spans) :
  Re.match_here (Re.Atom a (Re.Star greedy) :: r) floor s pos g
  = match s with
    | String c s' =>
        if Re.accepts a c
        then if greedy
             then Re.or_else
                    (Re.match_here (Re.Atom a (Re.Star greedy) :: r) floor s' (S pos) g)
                    (Re.match_here r floor s pos g)
             else Re.or_else
                    (Re.match_here r floor s pos g)
                    (Re.match_here (Re.Atom a (Re.Star greedy) :: r) floor s' (S pos) g)
        else Re.match_here r floor s pos g
    | EmptyString => Re.match_here r floor s pos g
    end.
Proof. destruct s; reflexivity. Qed.

(** The greedy run of characters other than [}] and the brace after it:
    the match stops just after the first [}], if there is one. *)
Lemma match_to_brace (floor : nat) (g : Re.spans) (s : string) :
  forall pos,
    Re.match_here [Re.Atom (Re.CharSet true ["}"%char]) (Re.Star true);
                   Re.Atom (Re.Lit "}") Re.One] floor s pos g
    = match PyStr.find_char "}" s with
      | Some j => if (floor <=? pos + j + 1)%nat then Some (pos + j + 1, g) else None
      | None => None
      end.
Proof.
  induction s as [|c s IH]; intros pos; [reflexivity|].
  rewrite match_star_step, IH. cbn [PyStr.find_char Re.accepts existsb].
  rewrite orb_false_r.
  destruct (Ascii.eqb_spec c "}") as [->|Hc].
  - cbn. now rewrite Nat.add_0_r, Nat.add_1_r.
  - cbn [xorb negb Re.match_here Re.accepts].
    assert ((c =? "}")%char = false) as -> by now apply Ascii.eqb_neq.
    rewrite or_else_none.
    destruct (PyStr.find_char "}" s) as [j|]; cbn [option_map]; [|reflexivity].
    now replace (pos + S j + 1) with (S pos + j + 1) by lia.
Qed.

(** A match of the block pattern: an opening [{\], then up to the first
    closing brace. *)
Lemma match_block (floor : nat) (g : Re.spans) (s : string) (pos : nat) :
  Re.match_here [Re.Atom (Re.Lit "{") Re.One; Re.Atom (Re.Lit "\") Re.One;
                 Re.Atom (Re.CharSet true ["}"%char]) (Re.Star true);
                 Re.Atom (Re.Lit "}") Re.One] floor s pos g
  = match s with
    | String c rest =>
        if Ascii.eqb c "{" && PyStr.startswith rest "\"
        then match PyStr.find_char "}" s with
             | Some j => if (floor <=? pos + j + 1)%nat
                         then Some (pos + j + 1, g) else None
             | None => None
             end
        else None
    | EmptyString => None
    end.
Proof.
  destruct s as [|c rest]; [reflexivity|].
  cbn [Re.match_here Re.accepts].
  destruct (Ascii.eqb_spec c "{") as [->|Hc]; [|reflexivity].
  destruct rest as [|d t]; [reflexivity|].
  cbn [PyStr.startswith andb].
  destruct (Ascii.eqb_spec d "\") as [->|Hd]; [|reflexivity].
  change (Re.match_here
    [Re.Atom (Re.CharSet true ["}"%char]) (Re.Star true);
     Re.Atom (Re.Lit "}") Re.One] floor t (S (S pos)) g
    = match PyStr.find_char "}" (String "{" (String "\" t)) with
      | Some j => if (floor <=? pos + j + 1)%nat then Some (pos + j + 1, g) else None
      | None => None
      end).
  rewrite match_to_brace. cbn [PyStr.find_char]. 
  change ("{" =? "}")%char with false. change ("\" =? "}")%char with false.
  cbv iota. destruct (PyStr.find_char "}" t) as [j|]; cbn [option_map]; [|reflexivity].
  now replace (pos + S (S j) + 1) with (S (S pos) + j + 1) by lia.
Qed.

(** The substitution of the block pattern by nothing is the loop of the
    [except] branch. *)
Lemma sub_block_is_strip_loop (subject s : string) :
  forall skip pos,
    Re.sub_loop [Re.Atom (Re.Lit "{") Re.One; Re.Atom (Re.Lit "\") Re.One;
                 Re.Atom (Re.CharSet true ["}"%char]) (Re.Star true);
                 Re.Atom (Re.Lit "}") Re.One] [] subject skip pos s
    = strip_loop skip s.
Proof.
  induction s as [|c rest IH]; intros skip pos.
  - destruct skip; reflexivity.
  - destruct skip as [|k]; cbn [Re.sub_loop strip_loop]; [|apply IH].
    rewrite match_block.
    destruct (Ascii.eqb c "{" && PyStr.startswith rest "\") eqn:E.
    + destruct (PyStr.find_char "}" (String c rest)) as [j|] eqn:F.
      * replace (pos <=? pos + j + 1)%nat with true by (symmetry; apply Nat.leb_le; lia).
        replace (pos + j + 1 =? pos)%nat with false by (symmetry; apply Nat.eqb_neq; lia).
        cbn [Re.expand append]. rewrite IH. f_equal. lia.
      * now rewrite IH.
    + now rewrite IH.
Qed.

(** C9.  [clean_ass_formatting] is the stripping of override blocks and
    nothing more: none of the three pairing patterns compiles, the
    [re.error] of the first is swallowed, and the text the stripping left is
    returned.  The result is its input with characters deleted, so cleanup
    brings in no markup of its own. *)
Theorem clean_ass_formatting_is_stripping (text : string) :
  clean_ass_formatting text = strip_override_blocks text
  /\ (Re.compile bold_pattern = Re.Error "unterminated character set"
      /\ Re.compile italic_pattern = Re.Error "unterminated character set"
      /\ Re.compile underline_pattern = Re.Error "unterminated character set")
  /\ pair_tags (strip_override_blocks text)
     = Re.Error "unterminated character set"
  /\ PyStr.Subseq (clean_ass_formatting text) text
  /\ (forall c, PyStr.contains c text = false ->
                PyStr.contains c (clean_ass_formatting text) = false).
Proof.
  assert (clean_ass_formatting text = strip_override_blocks text) as E.
  { unfold clean_ass_formatting. now rewrite pair_tags_raises. }
  assert (PyStr.Subseq (clean_ass_formatting text) text) as S.
  { rewrite E. destruct (strip_override_blocks_sub text) as (r & _ & ->).
    apply sub_loop_deletes. }
  split; [exact E|]. split; [exact pairing_patterns_invalid|].
  split; [apply pair_tags_raises|]. split; [exact S|].
  intros c Hc.
  destruct (PyStr.contains c (clean_ass_formatting text)) eqn:Ho; [|reflexivity].
  rewrite (subseq_contains c _ _ S Ho) in Hc. discriminate.
Qed.

(** C7, on the code: the paired tags are stripped with every other override
    block and nothing is put in their place; the unmatched opening tag is
    stripped alike. *)
Theorem clean_ass_formatting_drops_pairs :
  clean_ass_formatting "{\b1}bold{\b0}" = "bold"
  /\ clean_ass_formatting "{\i1}italic{\i0}" = "italic"
  /\ clean_ass_formatting "{\u1}under{\u0}" = "under"
  /\ clean_ass_formatting "{\b1}bold" = "bold".
Proof. repeat split; reflexivity. Qed.

Lemma strip_override_blocks_loop (text : string) :
  strip_override_blocks text = strip_loop 0 text.
Proof.
  unfold strip_override_blocks, Re.sub. rewrite block_pattern_compiles.
  cbn [Re.count_groups Re.template]. apply sub_block_is_strip_loop.
Qed.

Lemma strip_loop_clean (text : string) :
  opens_block text = false -> strip_loop 0 text = text.
Proof.
  induction text as [|c rest IH]; [reflexivity|].
  cbn [opens_block strip_loop]. intros [E H]%orb_false_iff.
  now rewrite E, IH.
Qed.

(** X1.  The two ways of the first [try] agree: the substitution of the block
    pattern by nothing computes what the loop of the [except re.error]
    branch computes, deleting each [{\ ... }] up to its first closing brace;
    and this is all [clean_ass_formatting] does. *)
Theorem clean_ass_formatting_is_strip_loop (text : string) :
  strip_override_blocks text = strip_loop 0 text
  /\ clean_ass_formatting text = strip_loop 0 text.
Proof.
  split; [apply strip_override_blocks_loop|].
  unfold clean_ass_formatting. rewrite pair_tags_raises.
  apply strip_override_blocks_loop.
Qed.

(** X2.  Cleanup leaves a text as it is when no [{] in it is followed by a
    backslash. *)
Theorem clean_ass_formatting_clean_text (text : string) :
  opens_block text = false -> clean_ass_formatting text = text.
Proof.
  intros H. unfold clean_ass_formatting. rewrite pair_tags_raises.
  rewrite strip_override_blocks_loop. now apply strip_loop_clean.
Qed.

(** X2 on a text with braces and no backslash. *)
Lemma clean_ass_formatting_clean_text_witness :
  clean_ass_formatting "Hello, {world}" = "Hello, {world}".
Proof. apply (clean_ass_formatting_clean_text "Hello, {world}"). reflexivity. Defined.

Lemma clean_is_loop (text : string) :
  clean_ass_formatting text = strip_loop 0 text.
Proof.
  unfold clean_ass_formatting. rewrite pair_tags_raises.
  apply strip_override_blocks_loop.
Qed.

(** Cleanup brings in no character. *)
Lemma clean_keeps_out (c : ascii) (text : string) :
  PyStr.contains c text = false ->
  PyStr.contains c (clean_ass_formatting text) = false.
Proof.
  intros Hc.
  assert (PyStr.Subseq (clean_ass_formatting text) text) as S.
  { unfold clean_ass_formatting. rewrite pair_tags_raises.
    destruct (strip_override_blocks_sub text) as (r & _ & ->).
    apply sub_loop_deletes. }
  destruct (PyStr.contains c (clean_ass_formatting text)) eqn:Ho; [|reflexivity].
  rewrite (subseq_contains c _ _ S Ho) in Hc. discriminate.
Qed.

(** Skipping as many characters as a prefix has leaves the rest to the
    loop. *)
Lemma strip_loop_skip (a b : string) :
  strip_loop (String.length a) (a ++ b) = strip_loop 0 b.
Proof. induction a as [|x a IH]; [reflexivity | exact IH]. Qed.

(** Text without an opening brace is copied. *)
Lemma strip_loop_plain (plain rest : string) :
  PyStr.contains "{" plain = false ->
  strip_loop 0 (plain ++ rest) = plain ++ strip_loop 0 rest.
Proof.
  induction plain as [|c plain IH]; [reflexivity|].
  cbn [PyStr.contains append strip_loop]. intros [Hc H]%orb_false_iff.
  now rewrite Hc, IH.
Qed.

(** A block that is closed is dropped. *)
Lemma strip_loop_block (tag rest : string) :
  PyStr.contains "}" tag = false ->
  strip_loop 0 ("{\" ++ tag ++ "}" ++ rest) = strip_loop 0 rest.
Proof.
  intros Ht.
  change ("{\" ++ tag ++ "}" ++ rest) with (String "{" (String "\" (tag ++ String "}" rest))).
  cbn [strip_loop PyStr.startswith Ascii.eqb Bool.eqb andb].
  change (String "{" (String "\" (tag ++ String "}" rest)))
    with (("{\" ++ tag) ++ String "}" rest).
  rewrite find_char_first by (cbn [append PyStr.contains]; now rewrite Ht).
  cbn [append String.length strip_loop].
  replace (S (String.length tag)) with (String.length (tag ++ "}"))
    by (rewrite length_append'; cbn [String.length]; lia).
  change (tag ++ String "}" rest) with (tag ++ "}" ++ rest).
  rewrite <- append_assoc'. apply strip_loop_skip.
Qed.

(** Without a closing brace nothing is dropped. *)
Lemma strip_loop_no_close (b : string) :
  PyStr.contains "}" b = false -> strip_loop 0 b = b.
Proof.
  induction b as [|c b IH]; [reflexivity|]. intros H.
  cbn [strip_loop]. rewrite (find_char_none "}" _ H).
  cbn [PyStr.contains] in H. apply orb_false_iff in H as [_ H].
  rewrite (IH H). now destruct (_ && _).
Qed.

Lemma strip_loop_append (b : string) :
  PyStr.contains "}" b = false ->
  forall a k, k <= String.length a ->
    strip_loop k (a ++ b) = strip_loop k a ++ b.
Proof.
  intros Hb. induction a as [|c a IH]; intros k Hk.
  - cbn in Hk. replace k with 0 by lia. cbn [append strip_loop].
    now apply strip_loop_no_close.
  - cbn [String.length] in Hk. destruct k as [|k].
    + change (String c a ++ b) with (String c (a ++ b)).
      cbn [strip_loop].
      change (String c (a ++ b)) with (String c a ++ b).
      rewrite (find_char_append "}" (String c a) b Hb).
      destruct (PyStr.find_char "}" (String c a)) as [j|] eqn:F.
      * apply find_char_bound in F as Hj. cbn [String.length] in Hj.
        rewrite (IH j) by lia. rewrite (IH 0) by lia.
        destruct (Ascii.eqb c "{") eqn:Ec; cbn [andb]; [|reflexivity].
        destruct a as [|y a].
        -- apply Ascii.eqb_eq in Ec. subst c. discriminate.
        -- cbn [append PyStr.startswith]. now destruct (Ascii.eqb y "\" && true).
      * rewrite (IH 0) by lia.
        now destruct (_ && _), (_ && _).
    + cbn [append strip_loop]. apply IH. lia.
Qed.

(** X4.  On a text made of plain pieces (without [{]) separated by override
    blocks [{\ ... }] (without [}] inside) and ended by a piece in which no
    [{] is followed by a backslash, cleanup returns the plain pieces and the
    ending, concatenated: every block is removed and nothing else is. *)
Theorem clean_ass_formatting_blocks (segs : list (string * string))
  (last : string) :
  Forall (fun seg => PyStr.contains "{" (fst seg) = false
                     /\ PyStr.contains "}" (snd seg) = false) segs ->
  opens_block last = false ->
  clean_ass_formatting
    (fold_right (fun seg rest => fst seg ++ "{\" ++ snd seg ++ "}" ++ rest)
       last segs)
  = fold_right (fun seg rest => fst seg ++ rest) last segs.
Proof.
  intros Hsegs Hlast. rewrite clean_is_loop.
  induction Hsegs as [|[plain tag] segs [Hp Ht] _ IH]; cbn [fold_right fst snd] in *.
  - now apply strip_loop_clean.
  - rewrite strip_loop_plain by exact Hp.
    rewrite strip_loop_block by exact Ht. now rewrite IH.
Qed.

(** X4 on three blocks and an ending with a brace comment. *)
Lemma clean_ass_formatting_blocks_witness :
  clean_ass_formatting
    (fold_right (fun seg rest => fst seg ++ "{\" ++ snd seg ++ "}" ++ rest)
       " {end}" [("Hello ", "i1"); ("big", "i0\fs20"); ("", "pos(1,2)")])
  = fold_right (fun seg rest => fst seg ++ rest)
      " {end}" [("Hello ", "i1"); ("big", "i0\fs20"); ("", "pos(1,2)")].
Proof.
  apply (clean_ass_formatting_blocks
           [("Hello ", "i1"); ("big", "i0\fs20"); ("", "pos(1,2)")] " {end}").
  - repeat constructor.
  - reflexivity.
Defined.

(** X5.  What follows the last closing brace of a text is returned as it
    is: a block opened there and never closed is kept, with its [{\]. *)
Theorem clean_ass_formatting_tail (a b : string) :
  PyStr.contains "}" b = false ->
  clean_ass_formatting (a ++ b) = clean_ass_formatting a ++ b.
Proof.
  intros Hb. rewrite !clean_is_loop. apply strip_loop_append; [exact Hb | lia].
Qed.

(** X5 on a text that ends in a block left open. *)
Lemma clean_ass_formatting_tail_witness :
  clean_ass_formatting ("{\b1}Hello" ++ " {\i1 world")
  = clean_ass_formatting "{\b1}Hello" ++ " {\i1 world".
Proof. apply (clean_ass_formatting_tail "{\b1}Hello" " {\i1 world"). reflexivity. Defined.

End Cleanup.

(** ** Parsing the Events section *)

Section Parsing.

Lemma dialogue_not_bracket (l : string) :
  PyStr.startswith l "Dialogue:" = true ->
  PyStr.startswith l "[" = false /\ PyStr.startswith l "[Events]" = false.
Proof.
  destruct l as [|c l]; [discriminate|]. cbn [PyStr.startswith].
  destruct (Ascii.eqb_spec c "D") as [->|]; [|discriminate].
  intros _. split; reflexivity.
Qed.

(** With [n] splits allowed, the fields before the last hold no
    separator. *)
Lemma split_firstn_clean (sep : ascii) (t : string) :
  forall n, Forall (fun f => PyStr.contains sep f = false)
              (firstn n (PyStr.split sep (Some n) t)).
Proof.
  induction t as [|x t IH]; intros n; cbn [PyStr.split].
  - destruct n as [|[|n]]; cbn [firstn]; repeat constructor.
  - destruct n as [|n].
    + cbn [firstn]. constructor.
    + cbn [PyStr.may_split PyStr.one_less option_map Nat.pred].
      rewrite andb_true_r.
      destruct (Ascii.eqb_spec x sep) as [->|Hx].
      * cbn [firstn]. constructor; [reflexivity | apply IH].
      * specialize (IH (S n)).
        destruct (PyStr.split sep (Some (S n)) t) as [|p ps] eqn:E;
          [now apply split_nonempty in E|].
        cbn [firstn] in *. inversion IH as [|? ? Hp Hps]; subst.
        constructor; [|assumption].
        cbn [PyStr.contains]. rewrite Hp.
        now destruct (Ascii.eqb_spec x sep).
Qed.

(** A split makes at most one field more than the splits allowed. *)
Lemma split_length_max (sep : ascii) (t : string) :
  forall n, List.length (PyStr.split sep (Some n) t) <= S n.
Proof.
  induction t as [|x t IH]; intros n; cbn [PyStr.split]; [cbn; lia|].
  destruct (Ascii.eqb x sep && PyStr.may_split (Some n)) eqn:E.
  - destruct n as [|n]; [now rewrite andb_false_r in E|].
    cbn [PyStr.one_less option_map Nat.pred List.length].
    specialize (IH n). lia.
  - specialize (IH n). destruct (PyStr.split sep (Some n) t); cbn in *; lia.
Qed.

(** Fields free of the separator, joined with a last field of any content
    and split with as many splits as there are such fields, come back: the
    last field keeps its separators. *)
Lemma split_join_fields (sep : ascii) (fields : list string) (text : string) :
  Forall (fun f => PyStr.contains sep f = false) fields ->
  PyStr.split sep (Some (List.length fields))
    (PyStr.join (String sep "") (fields ++ [text]))
  = (fields ++ [text])%list.
Proof.
  induction 1 as [|f fields Hf _ IH]; cbn [List.length app].
  - apply split_exhausted.
  - unfold PyStr.join in *.
    replace (String.concat (String sep "") (f :: fields ++ [text]))
      with (f ++ String sep (String.concat (String sep "") (fields ++ [text])))
      by (destruct fields; reflexivity).
    rewrite split_at_sep by (assumption || reflexivity).
    cbn [PyStr.one_less option_map Nat.pred]. now rewrite IH.
Qed.

(** Outside the section, lines that are no section header change nothing. *)
Lemma scan_before_header (st : scan_state) (before rest : list string) :
  Forall (fun l => PyStr.startswith (PyStr.strip l) "[Events]" = false)
    before ->
  in_events_section st = false ->
  scan st (before ++ rest) = scan st rest.
Proof.
  intros Hall Hin.
  induction Hall as [|l before Hl _ IH]; [reflexivity|].
  cbn [app scan]. unfold scan_line. rewrite Hl, Hin.
  rewrite andb_false_r. cbn [andb]. exact IH.
Qed.

(** C5, as the code has it.  A line that, stripped, begins with [[Events]]
    enters the Events section; inside the section a line beginning with [[]
    but not with [[Events]] ends the scan; outside the section any other line
    leaves the state as it is, so a [Dialogue:] line there yields no event,
    and the lines before the first section header count for nothing. *)
Theorem scan_line_sections (st : scan_state) (line : string) :
  (PyStr.startswith (PyStr.strip line) "[Events]" = true ->
     scan_line st line = Next (mk_scan (subtitles st) true))
  /\ (in_events_section st = true ->
      PyStr.startswith (PyStr.strip line) "[" = true ->
      PyStr.startswith (PyStr.strip line) "[Events]" = false ->
      scan_line st line = Break
      /\ forall rest, scan st (line :: rest) = (st, true))
  /\ (in_events_section st = false ->
      PyStr.startswith (PyStr.strip line) "[Events]" = false ->
      scan_line st line = Next st)
  /\ (forall before rest,
        Forall (fun l => PyStr.startswith (PyStr.strip l) "[Events]" = false)
          before ->
        in_events_section st = false ->
        scan st (before ++ rest) = scan st rest).
Proof.
  split; [|split; [|split]].
  - intros H. unfold scan_line. now rewrite H.
  - intros Hin Hb He.
    assert (scan_line st line = Break) as E
      by (unfold scan_line; now rewrite He, Hb, Hin).
    split; [exact E|]. intros rest. cbn [scan]. now rewrite E.
  - intros Hin He. unfold scan_line. rewrite He, Hin.
    now rewrite andb_false_r.
  - intros before rest Hall Hin. now apply scan_before_header.
Qed.

(** C5 at a state outside the section, a line that is not a header, and
    one such line before a short Events section. *)
Lemma scan_line_sections_witness :
  scan_line (mk_scan [] true) "[Events]" = Next (mk_scan [] true)
  /\ scan_line (mk_scan [] true) "[V4+ Styles]" = Break
  /\ scan_line (mk_scan [] false)
       "Dialogue: 0,0:00:01.00,0:00:02.00,Default,,0,0,0,,hi"
     = Next (mk_scan [] false)
  /\ scan (mk_scan [] false)
       ["Dialogue: 0,0:00:01.00,0:00:02.00,Default,,0,0,0,,hi"; "[Events]"]
     = scan (mk_scan [] false) ["[Events]"].
Proof.
  destruct (scan_line_sections (mk_scan [] true) "[Events]") as (A & _).
  destruct (scan_line_sections (mk_scan [] true) "[V4+ Styles]")
    as (_ & B & _).
  destruct (scan_line_sections (mk_scan [] false)
              "Dialogue: 0,0:00:01.00,0:00:02.00,Default,,0,0,0,,hi")
    as (_ & _ & C & D).
  split; [apply A; reflexivity|].
  split; [apply B; reflexivity|].
  split; [apply C; reflexivity|].
  apply (D ["Dialogue: 0,0:00:01.00,0:00:02.00,Default,,0,0,0,,hi"]
           ["[Events]"]); [|reflexivity].
  repeat constructor.
Defined.

(** C5 as stated fails on a line that begins with [[Events]] and goes on:
    it begins with [[] and is not [[Events]], yet inside the section it does
    not end the scan (the [Dialogue:] line after it is read), and outside
    the section it enters it. *)
Lemma scan_line_events_prefix :
  PyStr.startswith (PyStr.strip "[Events]x") "[" = true
  /\ String.eqb (PyStr.strip "[Events]x") "[Events]" = false
  /\ scan_line (mk_scan [] true) "[Events]x" = Next (mk_scan [] true)
  /\ scan_line (mk_scan [] false) "[Events]x" = Next (mk_scan [] true)
  /\ parse_lines
       ["[Events]"; "[Events]x";
        "Dialogue: 0,0:00:01.00,0:00:02.00,Default,,0,0,0,,hi"]
     = [("0:00:01.00", "0:00:02.00", "hi")].
Proof. repeat split; reflexivity. Qed.

(** C6, as the code has it.  Inside the Events section a line that,
    stripped, begins with [Dialogue:] is split at its first nine commas: at
    most ten fields, the first nine free of commas, the tenth holding the
    rest of the line with its commas.  With ten fields the line adds exactly
    one event, made of fields 2, 3 and 10, each stripped of the whitespace
    around it, the last one cleaned; with fewer it adds none. *)
Theorem scan_line_dialogue (st : scan_state) (line : string) :
  in_events_section st = true ->
  PyStr.startswith (PyStr.strip line) "Dialogue:" = true ->
  let parts := PyStr.split "," (Some 9) (PyStr.strip line) in
  List.length parts <= 10
  /\ PyStr.join "," parts = PyStr.strip line
  /\ Forall (fun f => PyStr.contains "," f = false) (firstn 9 parts)
  /\ (List.length parts = 10 ->
      scan_line st line
      = Next (mk_scan
                (subtitles st ++
                 [(PyStr.strip (nth 1 parts ""), PyStr.strip (nth 2 parts ""),
                   clean_ass_formatting (PyStr.strip (nth 9 parts "")))])
                true))
  /\ (List.length parts < 10 -> scan_line st line = Next st)
  /\ (forall fields text,
        List.length fields = 9 ->
        Forall (fun f => PyStr.contains "," f = false) fields ->
        PyStr.strip line = PyStr.join "," (fields ++ [text]) ->
        parts = (fields ++ [text])%list).
Proof.
  intros Hin Hd parts.
  destruct (dialogue_not_bracket _ Hd) as [Hb He].
  assert (scan_line st line =
          if (10 <=? List.length parts)%nat
          then Next (mk_scan
                (subtitles st ++
                 [(PyStr.strip (nth 1 parts ""), PyStr.strip (nth 2 parts ""),
                   clean_ass_formatting
                     (if (9 <? List.length parts)%nat
                      then PyStr.strip (nth 9 parts "") else ""))])
                (in_events_section st))
          else Next st) as E.
  { unfold scan_line. rewrite He, Hb, Hin, Hd. reflexivity. }
  split; [apply split_length_max|].
  split; [apply (join_split "," (Some 9))|].
  split; [apply split_firstn_clean|].
  split; [|split].
  - intros L. rewrite E, L, Hin. reflexivity.
  - intros L. rewrite E. destruct (Nat.leb_spec 10 (List.length parts)); [lia|].
    reflexivity.
  - intros fields text L F Hl. unfold parts. rewrite Hl, <- L.
    apply (split_join_fields ","). exact F.
Qed.

(** C6 on a line whose text holds two commas. *)
Lemma scan_line_dialogue_witness :
  scan_line (mk_scan [] true)
    "Dialogue: 0,0:00:01.00,0:00:02.00,Default,,0,0,0,,Well, yes, no"
  = Next (mk_scan [("0:00:01.00", "0:00:02.00", "Well, yes, no")] true).
Proof.
  destruct (scan_line_dialogue (mk_scan [] true)
    "Dialogue: 0,0:00:01.00,0:00:02.00,Default,,0,0,0,,Well, yes, no"
    eq_refl eq_refl) as (_ & _ & _ & H & _).
  exact (H eq_refl).
Defined.

(** C6 as stated fails where whitespace surrounds a field: the start and
    the text of the event are fields 2 and 10 without it. *)
Lemma scan_line_dialogue_trims :
  nth 1 (PyStr.split "," (Some 9)
           "Dialogue: 0, 0:00:01.00 ,0:00:02.00,Default,,0,0,0,, a, b") ""
  = " 0:00:01.00 "
  /\ nth 9 (PyStr.split "," (Some 9)
           "Dialogue: 0, 0:00:01.00 ,0:00:02.00,Default,,0,0,0,, a, b") ""
     = " a, b"
  /\ scan_line (mk_scan [] true)
       "Dialogue: 0, 0:00:01.00 ,0:00:02.00,Default,,0,0,0,, a, b"
     = Next (mk_scan [("0:00:01.00", "0:00:02.00", "a, b")] true)
  /\ String.eqb "0:00:01.00" " 0:00:01.00 " = false
  /\ String.eqb "a, b" " a, b" = false.
Proof. repeat split; reflexivity. Qed.

(** Inside the section, lines that end it not, add the events of the
    [Dialogue:] lines among them. *)
Lemma scan_in_section (body : list string) :
  forall st,
    in_events_section st = true ->
    Forall (fun l => PyStr.startswith (PyStr.strip l) "[" = false
                     \/ PyStr.startswith (PyStr.strip l) "[Events]" = true) body ->
    scan st body
    = (mk_scan
         (subtitles st ++
          flat_map (fun l =>
             let parts := PyStr.split "," (Some 9) (PyStr.strip l) in
             if PyStr.startswith (PyStr.strip l) "Dialogue:"
                && (10 <=? List.length parts)%nat
             then [(PyStr.strip (nth 1 parts ""), PyStr.strip (nth 2 parts ""),
                    clean_ass_formatting (PyStr.strip (nth 9 parts "")))]
             else []) body)
         true, false).
Proof.
  induction body as [|l body IH]; intros st Hin Hall.
  - cbn [scan flat_map]. rewrite app_nil_r. destruct st as [subs b].
    cbn in *. now subst b.
  - inversion Hall as [|? ? Hl Hrest]; subst. cbn [scan flat_map].
    unfold scan_line. cbv zeta.
    destruct (PyStr.startswith (PyStr.strip l) "[Events]") eqn:He.
    + assert (PyStr.startswith (PyStr.strip l) "Dialogue:" = false) as Hd.
      { destruct (PyStr.startswith (PyStr.strip l) "Dialogue:") eqn:Hd;
          [|reflexivity].
        apply dialogue_not_bracket in Hd as [_ Hd]. congruence. }
      rewrite Hd. cbn [andb app]. now rewrite IH.
    + destruct Hl as [Hb|Hb]; [|discriminate]. rewrite Hb, Hin. cbn [andb].
      destruct (PyStr.startswith (PyStr.strip l) "Dialogue:") eqn:Hd.
      * cbn [andb].
        destruct (Nat.leb_spec 10
                    (List.length (PyStr.split "," (Some 9) (PyStr.strip l))))
          as [Hlen|Hlen].
        -- replace (9 <? List.length (PyStr.split "," (Some 9) (PyStr.strip l)))%nat
             with true by (symmetry; apply Nat.ltb_lt; lia).
           rewrite IH by (assumption || reflexivity).
           cbn [subtitles]. now rewrite <- app_assoc.
        -- cbn [app]. now rewrite IH.
      * cbn [andb app]. now rewrite IH.
Qed.

(** X6.  The events of a file are those of its first Events section, in
    the order of the lines: with no [[Events]] line among [before], a
    [header] line that begins with [[Events]], [body] lines of which none
    begins with [[] (unless with [[Events]] again) and a [stop] line that
    begins with [[] otherwise, the parser returns one event for each [body]
    line that begins with [Dialogue:] and has ten fields, and nothing for
    any other line: not for the lines before the header, not for what
    follows the [stop] line.  The same holds when the file ends with the
    section. *)
Theorem parse_lines_section (before body rest : list string)
  (header stop : string) :
  Forall (fun l => PyStr.startswith (PyStr.strip l) "[Events]" = false) before ->
  PyStr.startswith (PyStr.strip header) "[Events]" = true ->
  Forall (fun l => PyStr.startswith (PyStr.strip l) "[" = false
                   \/ PyStr.startswith (PyStr.strip l) "[Events]" = true) body ->
  PyStr.startswith (PyStr.strip stop) "[" = true ->
  PyStr.startswith (PyStr.strip stop) "[Events]" = false ->
  let events :=
    flat_map (fun l =>
       let parts := PyStr.split "," (Some 9) (PyStr.strip l) in
       if PyStr.startswith (PyStr.strip l) "Dialogue:"
          && (10 <=? List.length parts)%nat
       then [(PyStr.strip (nth 1 parts ""), PyStr.strip (nth 2 parts ""),
              clean_ass_formatting (PyStr.strip (nth 9 parts "")))]
       else []) body in
  parse_lines (before ++ header :: body ++ stop :: rest) = events
  /\ parse_lines (before ++ header :: body) = events.
Proof.
  intros Hbefore Hheader Hbody Hstop1 Hstop2 events.
  assert (forall tail, scan (mk_scan [] false) (before ++ header :: tail)
                       = scan (mk_scan [] true) tail) as Hstart.
  { intros tail. rewrite scan_before_header by (assumption || reflexivity).
    cbn [scan]. unfold scan_line. now rewrite Hheader. }
  assert (forall tail, scan (mk_scan [] true) (body ++ tail)
                       = scan (mk_scan events true) tail) as Hbody'.
  { intros tail. clear Hstart.
    pose proof (scan_in_section body (mk_scan [] true) eq_refl Hbody) as E.
    cbn [subtitles app] in E. fold events in E.
    revert E. generalize (mk_scan [] true). generalize (mk_scan events true).
    clear. induction body as [|l body IH]; intros st' st E.
    - cbn in *. now inversion E.
    - cbn [app scan] in *. destruct (scan_line st l); [now apply IH | discriminate]. }
  unfold parse_lines. split.
  - rewrite Hstart, Hbody'. cbn [scan]. unfold scan_line.
    rewrite Hstop2, Hstop1. reflexivity.
  - rewrite Hstart. rewrite <- (app_nil_r body), Hbody'. reflexivity.
Qed.

(** X6 on a script with a [Dialogue:] line before the section, a short
    one and a [Comment:] inside, and one after the next section header. *)
Lemma parse_lines_section_witness :
  parse_lines (["[Script Info]"; "Dialogue: 0,0:00:00.00,0:00:00.50,Default,,0,0,0,,early"]
               ++ "[Events]"
               :: ["Format: Layer, Start, End, Style, Name, MarginL, MarginR, MarginV, Effect, Text";
                   "Dialogue: 0,0:00:01.00,0:00:02.00,Default,,0,0,0,,one";
                   "Dialogue: 0,0:00:03.00";
                   "Comment: 0,0:00:02.00,0:00:03.00,Default,,0,0,0,,no";
                   "Dialogue: 0,0:00:03.00,0:00:04.00,Default,,0,0,0,,{\i1}two, three"]
               ++ "[Fonts]"
               :: ["Dialogue: 0,0:00:05.00,0:00:06.00,Default,,0,0,0,,late"])
  = [("0:00:01.00", "0:00:02.00", "one");
     ("0:00:03.00", "0:00:04.00", "two, three")].
Proof.
  apply (parse_lines_section
    ["[Script Info]"; "Dialogue: 0,0:00:00.00,0:00:00.50,Default,,0,0,0,,early"]
    ["Format: Layer, Start, End, Style, Name, MarginL, MarginR, MarginV, Effect, Text";
     "Dialogue: 0,0:00:01.00,0:00:02.00,Default,,0,0,0,,one";
     "Dialogue: 0,0:00:03.00";
     "Comment: 0,0:00:02.00,0:00:03.00,Default,,0,0,0,,no";
     "Dialogue: 0,0:00:03.00,0:00:04.00,Default,,0,0,0,,{\i1}two, three"]
    ["Dialogue: 0,0:00:05.00,0:00:06.00,Default,,0,0,0,,late"]
    "[Events]" "[Fonts]").
  - repeat constructor.
  - reflexivity.
  - repeat constructor.
  - reflexivity.
  - reflexivity.
Defined.

(** A scan that ends outside the section has changed nothing and has not
    left by [break]. *)
Lemma scan_outside (lines : list string) :
  forall st st' b,
    scan st lines = (st', b) -> in_events_section st' = false ->
    st' = st /\ b = false.
Proof.
  induction lines as [|l lines IH]; intros st st' b; cbn [scan].
  - intros [= <- <-] _. auto.
  - unfold scan_line. cbv zeta.
    destruct (PyStr.startswith (PyStr.strip l) "[Events]") eqn:He.
    + intros E Hout. apply IH in E as [-> _]; [|exact Hout]. discriminate.
    + destruct (in_events_section st) eqn:Hin.
      * destruct (PyStr.startswith (PyStr.strip l) "["); cbn [andb negb].
        -- intros [= <- <-] Hout. congruence.
        -- destruct (PyStr.startswith (PyStr.strip l) "Dialogue:").
           ++ destruct (10 <=? _)%nat; intros E Hout;
                apply IH in E as [-> _]; try exact Hout;
                cbn [in_events_section] in Hout; congruence.
           ++ intros E Hout. apply IH in E as [-> _]; [congruence | exact Hout].
      * rewrite andb_false_r. cbn [andb]. apply IH.
Qed.

(** X7.  A file that stops decoding while the Events section is being read
    is not reported: when the second reader starts on a section header
    other than [[Events]] (as a script that begins with [[Script Info]]
    does), its loop leaves at once, the flag of the first loop being still
    set, and [parse_ass_file] returns the events read before the bytes that
    do not decode.  When the first loop never entered the section and the
    second reader yields the same lines, [UnicodeDecodeError] is raised. *)
Theorem parse_ass_file_undecodable (fs : FS.t) (path msg : string)
  (first second : list string) (st : scan_state) :
  FS.open_read fs path = Ok (FS.Undecodable first second msg) ->
  scan (mk_scan [] false) first = (st, false) ->
  (in_events_section st = true ->
   forall l rest, second = l :: rest ->
     PyStr.startswith (PyStr.strip l) "[" = true ->
     PyStr.startswith (PyStr.strip l) "[Events]" = false ->
     parse_ass_file fs path = Ok (parse_lines first))
  /\ (in_events_section st = false -> second = first ->
      parse_ass_file fs path = Raise (UnicodeDecodeError msg)).
Proof.
  intros Hopen Hscan. unfold parse_ass_file. rewrite Hopen. cbn [bind].
  rewrite Hscan. split.
  - intros Hin l rest -> Hb He. cbn [scan]. unfold scan_line.
    rewrite He, Hb, Hin. cbn [andb negb]. unfold parse_lines. now rewrite Hscan.
  - intros Hout ->. destruct (scan_outside _ _ _ _ Hscan Hout) as [-> _].
    now rewrite Hscan.
Qed.

(** X7 on a script cut after its first event: the event is returned and
    no error. *)
Lemma parse_ass_file_undecodable_witness :
  parse_ass_file
    (FS.mk (fun p =>
              if String.eqb p "cut.ass"
              then Some (FS.File (FS.Undecodable
                     ["[Script Info]"; "[Events]";
                      "Dialogue: 0,0:00:01.00,0:00:02.00,Default,,0,0,0,,hi"]
                     ["[Script Info]"; "[Events]";
                      "Dialogue: 0,0:00:01.00,0:00:02.00,Default,,0,0,0,,hi"]
                     "invalid start byte"))
              else None)
           (fun _ _ => None) (fun _ _ => None))
    "cut.ass"
  = Ok (parse_lines
          ["[Script Info]"; "[Events]";
           "Dialogue: 0,0:00:01.00,0:00:02.00,Default,,0,0,0,,hi"]).
Proof.
  eapply (parse_ass_file_undecodable _ "cut.ass" "invalid start byte"
            ["[Script Info]"; "[Events]";
             "Dialogue: 0,0:00:01.00,0:00:02.00,Default,,0,0,0,,hi"]
            ["[Script Info]"; "[Events]";
             "Dialogue: 0,0:00:01.00,0:00:02.00,Default,,0,0,0,,hi"]
            (mk_scan [("0:00:01.00", "0:00:02.00", "hi")] true));
    reflexivity.
Defined.

(** A line holds a newline at its end or nowhere. *)
Lemma keepends_lines (text : string) :
  Forall (fun l => exists b,
            (l = b \/ l = b ++ PyStr.nl)
            /\ PyStr.contains (ascii_of_nat 10) b = false)
    (FS.keepends text).
Proof.
  induction text as [|c rest IH]; cbn [FS.keepends]; [constructor|].
  destruct (Ascii.eqb_spec c (ascii_of_nat 10)) as [->|Hc].
  - constructor; [|exact IH]. exists "". split; [now right | reflexivity].
  - destruct (FS.keepends rest) as [|l ls].
    + constructor; [|constructor]. exists (String c "").
      split; [now left|]. cbn [PyStr.contains].
      destruct (Ascii.eqb_spec c (ascii_of_nat 10)); [contradiction | reflexivity].
    + inversion IH as [|? ? (b & Hb & Hn) Hls]; subst.
      constructor; [|exact Hls]. exists (String c b). split.
      * destruct Hb as [->| ->]; [now left | now right].
      * cbn [PyStr.contains]. rewrite Hn.
        destruct (Ascii.eqb_spec c (ascii_of_nat 10)); [contradiction | reflexivity].
Qed.

(** No line of a file, stripped, holds a newline. *)
Lemma lines_of_stripped (content : string) :
  Forall (fun l => PyStr.contains (ascii_of_nat 10) (PyStr.strip l) = false)
    (FS.lines_of content).
Proof.
  unfold FS.lines_of.
  eapply Forall_impl; [|apply keepends_lines].
  intros l (b & [->| ->] & Hn).
  - now apply contains_strip.
  - now apply strip_line.
Qed.

(** The events of lines that hold a character nowhere, once stripped,
    hold it nowhere. *)
Lemma scan_keeps_out (c : ascii) (lines : list string) :
  Forall (fun l => PyStr.contains c (PyStr.strip l) = false) lines ->
  forall st, Forall (lacks c) (subtitles st) ->
             Forall (lacks c) (subtitles (fst (scan st lines))).
Proof.
  induction 1 as [|l lines Hl _ IH]; intros st Hst; cbn [scan]; [exact Hst|].
  unfold scan_line. cbv zeta.
  destruct (PyStr.startswith (PyStr.strip l) "[Events]"); [now apply IH|].
  destruct (_ && _ && _); [exact Hst|].
  destruct (_ && _); [|now apply IH].
  destruct (10 <=? _)%nat; [|now apply IH].
  apply IH. cbn [subtitles]. apply Forall_app. split; [exact Hst|].
  pose proof (contains_field c "," _ Hl (Some 9)) as F.
  constructor; [|constructor]. unfold lacks. cbn [fst snd].
  repeat split.
  - now apply contains_strip, contains_nth.
  - now apply contains_strip, contains_nth.
  - apply clean_keeps_out. destruct (9 <? _)%nat; [|reflexivity].
    now apply contains_strip, contains_nth.
Qed.

End Parsing.

(** ** Assembling the document *)

Section Assembly.

Lemma vtt_loop_acc (subs : list event) :
  forall i lines, vtt_loop i subs lines = (lines ++ vtt_loop i subs [])%list.
Proof.
  induction subs as [|ev subs IH]; intros i lines; cbn [vtt_loop].
  - now rewrite app_nil_r.
  - rewrite (IH (S i) (lines ++ cue_lines i ev)%list).
    rewrite (IH (S i) ([] ++ cue_lines i ev)%list).
    now rewrite app_assoc.
Qed.

Lemma vtt_loop_cons (i : nat) (ev : event) (subs : list event) :
  vtt_loop i (ev :: subs) [] = (cue_lines i ev ++ vtt_loop (S i) subs [])%list.
Proof. cbn [vtt_loop]. now rewrite vtt_loop_acc. Qed.

Lemma vtt_loop_app (a b : list event) :
  forall i, vtt_loop i (a ++ b) []
            = (vtt_loop i a [] ++ vtt_loop (i + List.length a) b [])%list.
Proof.
  induction a as [|ev a IH]; intros i.
  - cbn [app vtt_loop List.length]. now rewrite Nat.add_0_r.
  - cbn [app List.length]. rewrite !vtt_loop_cons, IH, app_assoc.
    now rewrite Nat.add_succ_r.
Qed.

(** Every event contributes its own lines, whatever the others are. *)
Lemma vtt_lines_split (pre post : list event) (ev : event) :
  vtt_lines (pre ++ ev :: post)
  = (vtt_lines pre ++ cue_lines (S (List.length pre)) ev
       ++ vtt_loop (S (S (List.length pre))) post [])%list.
Proof.
  unfold vtt_lines. rewrite vtt_loop_acc, (vtt_loop_acc pre).
  rewrite vtt_loop_app, vtt_loop_cons. cbn [Nat.add].
  now rewrite <- !app_assoc.
Qed.

Lemma converts_false_iff (start_time end_time text : string) :
  converts (start_time, end_time, text) = false <->
  ass_time_to_vtt_time start_time = Raise ValueError
  \/ ass_time_to_vtt_time end_time = Raise ValueError.
Proof.
  unfold converts.
  destruct (ass_time_to_vtt_time_total start_time) as [[a Ha]|Ha];
    destruct (ass_time_to_vtt_time_total end_time) as [[b Hb]|Hb];
    rewrite Ha, Hb; cbn [is_ok andb]; split; intros H;
    try discriminate; try (destruct H; discriminate); auto.
Qed.

Lemma cue_lines_skipped (i : nat) (ev : event) :
  converts ev = false -> cue_lines i ev = [].
Proof.
  destruct ev as [[s e] t]. unfold converts, cue_lines.
  destruct (ass_time_to_vtt_time s); [|reflexivity].
  destruct (ass_time_to_vtt_time e); [discriminate | reflexivity].
Qed.

Lemma cue_lines_emitted (i : nat) (ev : event) :
  converts ev = true ->
  exists vtt_start vtt_end,
    ass_time_to_vtt_time (fst (fst ev)) = Ok vtt_start
    /\ ass_time_to_vtt_time (snd (fst ev)) = Ok vtt_end
    /\ cue_lines i ev
       = [PyInt.to_str (Z.of_nat i); vtt_start ++ " --> " ++ vtt_end;
          snd ev; ""].
Proof.
  destruct ev as [[s e] t]. unfold converts, cue_lines. cbn [fst snd].
  destruct (ass_time_to_vtt_time s) as [a|]; [|discriminate].
  destruct (ass_time_to_vtt_time e) as [b|]; [|discriminate].
  intros _. now exists a, b.
Qed.

Lemma positions_ge {A : Type} (p : A -> bool) (l : list A) :
  forall i k, In k (positions p i l) -> i <= k < i + List.length l.
Proof.
  induction l as [|a l IH]; intros i k; cbn [positions List.length]; [easy|].
  destruct (p a); cbn [In]; intros H.
  - destruct H as [<-|H]; [lia|]. apply IH in H. lia.
  - apply IH in H. lia.
Qed.

Lemma positions_in {A : Type} (p : A -> bool) (l : list A) :
  forall i k, In k (positions p i l) <->
    exists a, i <= k /\ nth_error l (k - i) = Some a /\ p a = true.
Proof.
  induction l as [|a l IH]; intros i k; cbn [positions].
  - split; [easy|]. intros (e & _ & H & _). now destruct (k - i).
  - assert (In k (positions p (S i) l) <->
            exists e, S i <= k /\ nth_error (a :: l) (k - i) = Some e
                      /\ p e = true) as IH'.
    { rewrite IH. split; intros (e & Hk & Hn & Hc); exists e;
        (split; [exact Hk|]); (split; [|exact Hc]);
        replace (k - i) with (S (k - S i)) in * by lia; exact Hn. }
    destruct (p a) eqn:C; cbn [In]; rewrite IH'.
    + split.
      * intros [<-|(e & Hk & Hn & Hc)].
        -- exists a. rewrite Nat.sub_diag. auto.
        -- exists e. split; [lia | auto].
      * intros (e & Hk & Hn & Hc).
        destruct (Nat.eq_dec i k) as [->|Hne]; [now left|].
        right. exists e. split; [lia | auto].
    + split.
      * intros (e & Hk & Hn & Hc). exists e. split; [lia | auto].
      * intros (e & Hk & Hn & Hc).
        destruct (Nat.eq_dec i k) as [->|Hne].
        -- rewrite Nat.sub_diag in Hn. cbn in Hn. congruence.
        -- exists e. split; [lia | auto].
Qed.

Lemma positions_sorted {A : Type} (p : A -> bool) (l : list A) :
  forall i, StronglySorted lt (positions p i l).
Proof.
  induction l as [|a l IH]; intros i; cbn [positions]; [constructor|].
  destruct (p a); [|apply IH].
  constructor; [apply IH|]. apply Forall_forall. intros k Hk.
  apply positions_ge in Hk. lia.
Qed.

Lemma positions_all {A : Type} (p : A -> bool) (l : list A) :
  forall i, forallb p l = true -> positions p i l = seq i (List.length l).
Proof.
  induction l as [|a l IH]; intros i; cbn [forallb positions]; [easy|].
  intros [-> H]%andb_true_iff. cbn [List.length seq]. now rewrite IH.
Qed.

(** The lines after the header: one block for each number emitted, made
    from the event at that place. *)
Lemma vtt_loop_blocks (d : event) (subs : list event) :
  forall i, vtt_loop i subs []
    = concat (map (fun k => cue_lines k (nth (k - i) subs d))
                (cue_numbers i subs)).
Proof.
  induction subs as [|ev subs IH]; intros i; [reflexivity|].
  rewrite vtt_loop_cons, IH. unfold cue_numbers. cbn [positions].
  assert (map (fun k => cue_lines k (nth (k - S i) subs d))
            (positions converts (S i) subs)
          = map (fun k => cue_lines k (nth (k - i) (ev :: subs) d))
              (positions converts (S i) subs)) as ->.
  { apply map_ext_in. intros k Hk. apply positions_ge in Hk.
    now replace (k - i) with (S (k - S i)) by lia. }
  destruct (converts ev) eqn:C.
  - cbn [map concat]. now rewrite Nat.sub_diag.
  - now rewrite cue_lines_skipped.
Qed.

(** C2, as the code has it.  The document is the header and, for each
    number emitted, the block of the event at that place of the input: a cue
    carries the 1-based position of its event.  The numbers increase
    strictly; they are [1..n] without a gap when every event converts.  An
    event whose start or end does not convert adds no line, and the lines of
    the events before and after it are what they are without it. *)
Theorem generate_vtt_content_numbering (subs : list event) :
  generate_vtt_content subs
  = PyStr.join PyStr.nl
      (["WEBVTT FILE"; ""]
       ++ concat (map (fun k => cue_lines k (nth (k - 1) subs ("", "", "")))
                    (cue_numbers 1 subs)))
  /\ (forall k, In k (cue_numbers 1 subs) <->
        exists ev, 1 <= k /\ nth_error subs (k - 1) = Some ev
                   /\ converts ev = true)
  /\ (forall k ev, converts ev = true ->
        exists vtt_start vtt_end,
          ass_time_to_vtt_time (fst (fst ev)) = Ok vtt_start
          /\ ass_time_to_vtt_time (snd (fst ev)) = Ok vtt_end
          /\ cue_lines k ev
             = [PyInt.to_str (Z.of_nat k); vtt_start ++ " --> " ++ vtt_end;
                snd ev; ""])
  /\ StronglySorted lt (cue_numbers 1 subs)
  /\ (forallb converts subs = true ->
      cue_numbers 1 subs = seq 1 (List.length subs))
  /\ (forall pre ev post, subs = (pre ++ ev :: post)%list ->
        vtt_lines subs
        = (vtt_lines pre ++ cue_lines (S (List.length pre)) ev
             ++ vtt_loop (S (S (List.length pre))) post [])%list
        /\ (converts ev = false -> cue_lines (S (List.length pre)) ev = [])).
Proof.
  split; [|split; [|split; [|split; [|split]]]].
  - unfold generate_vtt_content, vtt_lines.
    now rewrite vtt_loop_acc, (vtt_loop_blocks ("", "", "")).
  - intros k. apply positions_in.
  - intros k ev. apply cue_lines_emitted.
  - apply positions_sorted.
  - apply positions_all.
  - intros pre ev post ->. split; [apply vtt_lines_split|].
    apply cue_lines_skipped.
Qed.

(** C2 on three events that all convert. *)
Lemma generate_vtt_content_numbering_witness :
  cue_numbers 1 [("0:00:01.00", "0:00:02.00", "a");
                 ("0:00:02.00", "0:00:03.00", "b");
                 ("0:00:03.00", "0:00:04.00", "c")]
  = [1; 2; 3].
Proof.
  destruct (generate_vtt_content_numbering
              [("0:00:01.00", "0:00:02.00", "a");
               ("0:00:02.00", "0:00:03.00", "b");
               ("0:00:03.00", "0:00:04.00", "c")]) as (_ & _ & _ & _ & H & _).
  exact (H eq_refl).
Defined.

(** C2 as stated fails when an event in the middle is omitted: the cue
    after it keeps the number of its place, 3, and the numbers emitted are
    1 and 3. *)
Lemma generate_vtt_content_gap :
  converts ("1:2", "0:00:03.00", "b") = false
  /\ cue_numbers 1 [("0:00:01.00", "0:00:02.00", "a");
                    ("1:2", "0:00:03.00", "b");
                    ("0:00:03.00", "0:00:04.00", "c")]
     = [1; 3]
  /\ generate_vtt_content [("0:00:01.00", "0:00:02.00", "a");
                           ("1:2", "0:00:03.00", "b");
                           ("0:00:03.00", "0:00:04.00", "c")]
     = PyStr.join PyStr.nl
         ["WEBVTT FILE"; "";
          "1"; "00:00:01.000 --> 00:00:02.000"; "a"; "";
          "3"; "00:00:03.000 --> 00:00:04.000"; "c"; ""].
Proof. repeat split; reflexivity. Qed.

(** C8, as the code has it.  The conversion raises, and then a
    [ValueError], exactly when the text is not of the form [h:m:s.c] with no
    colon in [h], [m], [s], [c], no dot in [s] and [c], and [h], [m], [s]
    literals that [int] reads.  A failure costs the event its cue and
    nothing else: the lines of the events before and after are the same, and
    the file is written as for any other list of events. *)
Theorem ass_time_to_vtt_time_failure (t : string) :
  (ass_time_to_vtt_time t = Raise ValueError <->
   ~ exists h m s c,
       t = h ++ ":" ++ m ++ ":" ++ s ++ "." ++ c
       /\ PyStr.contains ":" h = false /\ PyStr.contains ":" m = false
       /\ PyStr.contains ":" s = false /\ PyStr.contains ":" c = false
       /\ PyStr.contains "." s = false /\ PyStr.contains "." c = false
       /\ PyInt.parse h <> None /\ PyInt.parse m <> None
       /\ PyInt.parse s <> None)
  /\ (forall e, ass_time_to_vtt_time t = Raise e -> e = ValueError)
  /\ (ass_time_to_vtt_time t = Raise ValueError ->
      forall pre post other text,
        vtt_lines (pre ++ (t, other, text) :: post)
        = (vtt_lines pre ++ vtt_loop (S (S (List.length pre))) post [])%list
        /\ vtt_lines (pre ++ (other, t, text) :: post)
           = (vtt_lines pre ++ vtt_loop (S (S (List.length pre))) post [])%list)
  /\ (forall fs path suffix subs fs',
        FS.exists_ fs path = true ->
        parse_ass_file fs path = Ok subs ->
        FS.write fs (OsPath.splitext_root path ++ "." ++ suffix)
          (generate_vtt_content subs) = Ok fs' ->
        convert_ass_to_vtt fs path suffix
        = (Ok (OsPath.splitext_root path ++ "." ++ suffix), fs')).
Proof.
  split; [|split; [|split]].
  - split.
    + intros E (h & m & s & c & -> & Hh & Hm & Hs & Hc & Ds & Dc & Ph & Pm & Ps).
      destruct (PyInt.parse h) as [vh|] eqn:Eh; [|congruence].
      destruct (PyInt.parse m) as [vm|] eqn:Em; [|congruence].
      destruct (PyInt.parse s) as [vs|] eqn:Es; [|congruence].
      assert (exists out, ass_time_to_vtt_time
                (h ++ ":" ++ m ++ ":" ++ s ++ "." ++ c) = Ok out) as [out Ho].
      { eexists. apply ass_time_to_vtt_time_ok_iff.
        exists h, m, s, c, vh, vm, vs. repeat split; auto. }
      congruence.
    + intros N. destruct (ass_time_to_vtt_time_total t) as [[out Ho]|]; [|assumption].
      exfalso. apply N. apply ass_time_to_vtt_time_ok_iff in Ho
        as (h & m & s & c & vh & vm & vs & -> & Hh & Hm & Hs & Hc & Ds & Dc
            & Ph & Pm & Ps & _).
      exists h, m, s, c. repeat split; auto; congruence.
  - intros e E. destruct (ass_time_to_vtt_time_total t) as [[out Ho]|Hr]; congruence.
  - intros E pre post other text. split; rewrite vtt_lines_split.
    + rewrite cue_lines_skipped; [reflexivity|].
      apply converts_false_iff. now left.
    + rewrite cue_lines_skipped; [reflexivity|].
      apply converts_false_iff. now right.
  - intros fs path suffix subs fs' Hex Hp Hw. unfold convert_ass_to_vtt.
    now rewrite Hex, Hp, Hw.
Qed.

(** C8 at the malformed [1:2] between two well-formed events. *)
Lemma ass_time_to_vtt_time_failure_witness :
  vtt_lines ([("0:00:01.00", "0:00:02.00", "a")]
             ++ ("1:2", "0:00:03.00", "b")
             :: [("0:00:03.00", "0:00:04.00", "c")])
  = (vtt_lines [("0:00:01.00", "0:00:02.00", "a")]
     ++ vtt_loop 3 [("0:00:03.00", "0:00:04.00", "c")] [])%list.
Proof.
  destruct (ass_time_to_vtt_time_failure "1:2") as (_ & _ & H & _).
  apply (H eq_refl [("0:00:01.00", "0:00:02.00", "a")]
           [("0:00:03.00", "0:00:04.00", "c")] "0:00:03.00" "b").
Defined.

(** C8 as stated fails on a text with three fields between colons and a
    dot in the last whose hours are no number, and on one whose last field
    has two dots: both raise. *)
Lemma ass_time_to_vtt_time_rejects_more :
  PyStr.split ":" None "x:00:00.00" = ["x"; "00"; "00.00"]
  /\ PyStr.contains "." "00.00" = true
  /\ ass_time_to_vtt_time "x:00:00.00" = Raise ValueError
  /\ PyStr.split ":" None "0:00:01.2.3" = ["0"; "00"; "01.2.3"]
  /\ PyStr.contains "." "01.2.3" = true
  /\ ass_time_to_vtt_time "0:00:01.2.3" = Raise ValueError.
Proof. repeat split; reflexivity. Qed.

(** The lines of a cue hold what the event held and the characters of
    the number and of the timing line. *)
Lemma cue_lines_keep_out (c : ascii) (i : nat) (ev : event) :
  PyInt.is_digit c = false -> c <> "-"%char -> c <> ":"%char -> c <> "."%char ->
  c <> " "%char -> c <> ">"%char ->
  lacks c ev ->
  Forall (fun l => PyStr.contains c l = false) (cue_lines i ev).
Proof.
  intros Hd H1 H2 H3 H4 H5. destruct ev as [[s e] t]. intros (Hs & He & Ht).
  cbn [fst snd] in *. unfold cue_lines.
  destruct (ass_time_to_vtt_time s) as [vs|] eqn:Es; [|constructor].
  destruct (ass_time_to_vtt_time e) as [ve|] eqn:Ee; [|constructor].
  repeat constructor.
  - now apply to_str_keeps_out.
  - rewrite !contains_append.
    rewrite (time_keeps_out c s vs), (time_keeps_out c e ve) by assumption.
    cbn [PyStr.contains orb].
    destruct (Ascii.eqb_spec " "%char c); [congruence|].
    destruct (Ascii.eqb_spec "-"%char c); [congruence|].
    destruct (Ascii.eqb_spec ">"%char c); [congruence | reflexivity].
  - exact Ht.
Qed.

Lemma vtt_loop_keeps_out (c : ascii) (subs : list event) :
  PyInt.is_digit c = false -> c <> "-"%char -> c <> ":"%char -> c <> "."%char ->
  c <> " "%char -> c <> ">"%char ->
  Forall (lacks c) subs ->
  forall i, Forall (fun l => PyStr.contains c l = false) (vtt_loop i subs []).
Proof.
  intros Hd H1 H2 H3 H4 H5. induction 1 as [|ev subs Hev _ IH]; intros i.
  - constructor.
  - rewrite vtt_loop_cons. apply Forall_app. split; [|apply IH].
    now apply cue_lines_keep_out.
Qed.

(** Four lines for each event that converts. *)
Lemma vtt_loop_length (subs : list event) :
  forall i, List.length (vtt_loop i subs [])
            = 4 * List.length (filter converts subs).
Proof.
  induction subs as [|ev subs IH]; intros i; [reflexivity|].
  rewrite vtt_loop_cons, length_app, IH. cbn [filter].
  destruct (converts ev) eqn:C.
  - destruct (cue_lines_emitted i ev C) as (a & b & _ & _ & ->).
    cbn [List.length]. lia.
  - rewrite cue_lines_skipped by exact C. cbn [List.length]. lia.
Qed.

(** X8.  The document made from the events of a file keeps its line
    structure: no field of a parsed event holds a newline, so the document,
    split at its newlines, is the list of lines it was joined from, and that
    list has the two lines of the header and four lines (number, timing,
    text, empty line) for each event that converts. *)
Theorem generate_vtt_content_lines (content : string) :
  let subs := parse_lines (FS.lines_of content) in
  PyStr.split "010" None (generate_vtt_content subs) = vtt_lines subs
  /\ List.length (vtt_lines subs) = 2 + 4 * List.length (filter converts subs).
Proof.
  intros subs. split.
  - unfold generate_vtt_content. apply split_join_all.
    + unfold vtt_lines. rewrite vtt_loop_acc. discriminate.
    + unfold vtt_lines. rewrite vtt_loop_acc. apply Forall_app. split.
      * repeat constructor.
      * apply vtt_loop_keeps_out; try discriminate; try reflexivity.
        apply scan_keeps_out; [apply lines_of_stripped | constructor].
  - unfold vtt_lines. rewrite vtt_loop_acc, length_app, vtt_loop_length.
    reflexivity.
Qed.

End Assembly.

(** ** Paths *)

Section Paths.

Lemma rfind_none (c : ascii) (s : string) :
  PyStr.contains c s = false -> OsPath.rfind c s = None.
Proof.
  induction s as [|x s IH]; [reflexivity|]. cbn [PyStr.contains OsPath.rfind].
  intros [Hx H]%orb_false_iff. now rewrite IH, Hx.
Qed.

Lemma rfind_append (c : ascii) (a b : string) :
  PyStr.contains c b = false -> OsPath.rfind c (a ++ b) = OsPath.rfind c a.
Proof.
  intros Hb. induction a as [|x a IH]; cbn [append OsPath.rfind].
  - now apply rfind_none.
  - now rewrite IH.
Qed.

Lemma rfind_last (c : ascii) (a b : string) :
  PyStr.contains c b = false ->
  OsPath.rfind c (a ++ String c b) = Some (String.length a).
Proof.
  intros Hb. induction a as [|x a IH]; cbn [append OsPath.rfind String.length].
  - now rewrite rfind_none, Ascii.eqb_refl.
  - now rewrite IH.
Qed.

Lemma rfind_bound (c : ascii) (s : string) (i : nat) :
  OsPath.rfind c s = Some i -> i < String.length s.
Proof.
  revert i. induction s as [|x s IH]; intros i; cbn [OsPath.rfind String.length];
    [discriminate|].
  destruct (OsPath.rfind c s) as [j|].
  - intros [= <-]. specialize (IH j eq_refl). lia.
  - destruct (Ascii.eqb x c); [intros [= <-]; lia | discriminate].
Qed.

Lemma after_sep_bound (p : string) : OsPath.after_sep p <= String.length p.
Proof.
  unfold OsPath.after_sep. destruct (OsPath.rfind "/" p) as [i|] eqn:E; [|lia].
  apply rfind_bound in E. lia.
Qed.

Lemma substring_prefix (a b : string) :
  substring 0 (String.length a) (a ++ b) = a.
Proof.
  induction a as [|x a IH]; cbn [append String.length substring].
  - now destruct b.
  - now rewrite IH.
Qed.

Lemma substring_drop (n : nat) :
  forall a b, n <= String.length a ->
    substring n (String.length a - n) (a ++ b) = PyStr.drop n a.
Proof.
  induction n as [|n IH]; intros a b Hn.
  - rewrite Nat.sub_0_r. cbn [PyStr.drop]. apply substring_prefix.
  - destruct a as [|x a]; [cbn in Hn; lia|].
    cbn [append String.length substring PyStr.drop Nat.sub].
    apply IH. cbn in Hn. lia.
Qed.

Lemma drop_append (n : nat) :
  forall a b, n <= String.length a -> PyStr.drop n (a ++ b) = PyStr.drop n a ++ b.
Proof.
  induction n as [|n IH]; intros a b Hn; [reflexivity|].
  destruct a as [|x a]; [cbn in Hn; lia|].
  cbn [append PyStr.drop]. apply IH. cbn in Hn. lia.
Qed.

(** [splitext] cuts the extension off a name that has one. *)
Lemma splitext_root_ext (dir stem ext : string) :
  PyStr.contains "/" stem = false ->
  PyStr.all_chars (Ascii.eqb ".") stem = false ->
  PyStr.contains "." ext = false -> PyStr.contains "/" ext = false ->
  OsPath.splitext_root (dir ++ stem ++ "." ++ ext) = dir ++ stem.
Proof.
  intros Hs Hnd He1 He2. unfold OsPath.splitext_root.
  rewrite <- append_assoc'. cbn [append].
  rewrite rfind_last by exact He1.
  assert (OsPath.after_sep ((dir ++ stem) ++ String "." ext)
          = OsPath.after_sep dir) as Ea.
  { unfold OsPath.after_sep. rewrite append_assoc'.
    rewrite rfind_append; [reflexivity|].
    rewrite contains_append, Hs. cbn [PyStr.contains]. now rewrite He2. }
  rewrite Ea. pose proof (after_sep_bound dir) as Hb.
  assert (OsPath.after_sep dir <= String.length (dir ++ stem)) as Hle
    by (rewrite length_append'; lia).
  apply Nat.leb_le in Hle as Hle'. rewrite Hle'.
  rewrite substring_drop by exact Hle.
  rewrite drop_append by exact Hb.
  rewrite all_chars_append, Hnd, andb_false_r. cbn [negb andb].
  apply substring_prefix.
Qed.

(** It leaves a name without a dot as it is. *)
Lemma splitext_root_plain (dir name : string) :
  dir = "" \/ (exists d, dir = d ++ "/") ->
  PyStr.contains "." name = false -> PyStr.contains "/" name = false ->
  OsPath.splitext_root (dir ++ name) = dir ++ name.
Proof.
  intros Hdir Hn1 Hn2. unfold OsPath.splitext_root.
  rewrite rfind_append by exact Hn1.
  destruct (OsPath.rfind "." dir) as [dot|] eqn:E; [|reflexivity].
  destruct Hdir as [->|[d ->]]; [discriminate|].
  assert (OsPath.after_sep ((d ++ "/") ++ name) = S (String.length d)) as ->.
  { unfold OsPath.after_sep. rewrite append_assoc'. cbn [append].
    now rewrite rfind_last. }
  apply rfind_bound in E. rewrite length_append' in E. cbn in E.
  replace (S (String.length d) <=? dot)%nat with false
    by (symmetry; apply Nat.leb_gt; lia).
  reflexivity.
Qed.

End Paths.

(** ** Converting one file *)

Section Conversion.

Lemma write_result (fs fs' : FS.t) (p content : string) :
  FS.write fs p content = Ok fs' ->
  FS.node_at fs' p = Some (FS.File (FS.Text content))
  /\ forall q, q <> p -> FS.node_at fs' q = FS.node_at fs q.
Proof.
  unfold FS.write. destruct (FS.refuses fs FS.Writing p); [discriminate|].
  assert (Ok (FS.put fs p (FS.Text content)) = Ok fs' ->
          FS.node_at fs' p = Some (FS.File (FS.Text content))
          /\ forall q, q <> p -> FS.node_at fs' q = FS.node_at fs q) as H.
  { intros [= <-]. cbn [FS.put FS.node_at]. rewrite String.eqb_refl.
    split; [reflexivity|].
    intros q Hq. apply String.eqb_neq in Hq. now rewrite Hq. }
  destruct (FS.node_at fs p) as [[|d]|]; [discriminate | exact H | exact H].
Qed.

Lemma write_allowed (fs : FS.t) (p content : string) :
  FS.refuses fs FS.Writing p = None ->
  FS.node_at fs p <> Some FS.Directory ->
  exists fs', FS.write fs p content = Ok fs'.
Proof.
  intros Hr Hd. unfold FS.write. rewrite Hr.
  destruct (FS.node_at fs p) as [[|d]|]; [congruence | eauto | eauto].
Qed.

Lemma parse_lines_no_section (lines : list string) :
  Forall (fun l => PyStr.startswith (PyStr.strip l) "[Events]" = false) lines ->
  parse_lines lines = [].
Proof.
  intros H. unfold parse_lines.
  rewrite <- (app_nil_r lines), scan_before_header by (assumption || reflexivity).
  reflexivity.
Qed.

(** C10.  The document of an empty list of events is the line
    [WEBVTT FILE] and an empty line, that is [WEBVTT FILE] and a newline.
    When the input exists and parses to no event (as a text does that has
    no [[Events]] line) and the output may be written, [convert_ass_to_vtt]
    writes that document at the derived path and returns the path. *)
Theorem convert_without_events (fs : FS.t) (path suffix : string) :
  FS.exists_ fs path = true ->
  parse_ass_file fs path = Ok [] ->
  FS.refuses fs FS.Writing (OsPath.splitext_root path ++ "." ++ suffix) = None ->
  FS.node_at fs (OsPath.splitext_root path ++ "." ++ suffix)
    <> Some FS.Directory ->
  vtt_lines [] = ["WEBVTT FILE"; ""]
  /\ generate_vtt_content [] = "WEBVTT FILE" ++ PyStr.nl
  /\ (exists fs',
        convert_ass_to_vtt fs path suffix
        = (Ok (OsPath.splitext_root path ++ "." ++ suffix), fs')
        /\ FS.node_at fs' (OsPath.splitext_root path ++ "." ++ suffix)
           = Some (FS.File (FS.Text ("WEBVTT FILE" ++ PyStr.nl)))
        /\ forall q, q <> OsPath.splitext_root path ++ "." ++ suffix ->
                     FS.node_at fs' q = FS.node_at fs q)
  /\ (forall content,
        FS.node_at fs path = Some (FS.File (FS.Text content)) ->
        FS.refuses fs FS.Reading path = None ->
        Forall (fun l => PyStr.startswith (PyStr.strip l) "[Events]" = false)
          (FS.lines_of content) ->
        parse_ass_file fs path = Ok []).
Proof.
  intros Hex Hp Hr Hd.
  split; [reflexivity|]. split; [reflexivity|]. split.
  - destruct (write_allowed fs _ (generate_vtt_content []) Hr Hd) as [fs' Hw].
    exists fs'. split.
    + unfold convert_ass_to_vtt. now rewrite Hex, Hp, Hw.
    + now apply write_result.
  - intros content Hn Hread Hall. unfold parse_ass_file, FS.open_read.
    rewrite Hread, Hn. cbn [bind]. now rewrite parse_lines_no_section.
Qed.

(** C10 on the script of the sample disk that has no Events section. *)
Lemma convert_without_events_witness :
  exists fs',
    convert_ass_to_vtt Samples.disk "empty.ass" "vtt" = (Ok "empty.vtt", fs')
    /\ FS.node_at fs' "empty.vtt"
       = Some (FS.File (FS.Text ("WEBVTT FILE" ++ PyStr.nl)))
    /\ forall q, q <> "empty.vtt" -> FS.node_at fs' q = FS.node_at Samples.disk q.
Proof.
  destruct (convert_without_events Samples.disk "empty.ass" "vtt")
    as (_ & _ & H & _); [reflexivity | reflexivity | reflexivity | discriminate |].
  exact H.
Defined.

(** What a conversion that returns has done. *)
Lemma convert_ok (fs fs' : FS.t) (path suffix out : string) :
  convert_ass_to_vtt fs path suffix = (Ok out, fs') ->
  out = OsPath.splitext_root path ++ "." ++ suffix
  /\ FS.exists_ fs path = true
  /\ exists subs,
       parse_ass_file fs path = Ok subs
       /\ FS.write fs out (generate_vtt_content subs) = Ok fs'.
Proof.
  unfold convert_ass_to_vtt.
  destruct (FS.exists_ fs path); cbn [negb]; [|discriminate].
  destruct (parse_ass_file fs path) as [subs|e]; [|discriminate].
  destruct (FS.write fs _ _) as [fs1|e] eqn:W; [|discriminate].
  intros [= <- <-]. split; [reflexivity|]. split; [reflexivity|].
  exists subs. now split.
Qed.

(** A conversion that raises has written nothing, unless it is the write
    that raised: then the output file is what the interrupted write left. *)
Lemma convert_raise (fs fs' : FS.t) (path suffix : string) (e : exn) :
  convert_ass_to_vtt fs path suffix = (Raise e, fs') ->
  fs' = fs
  \/ exists subs,
       parse_ass_file fs path = Ok subs
       /\ FS.write fs (OsPath.splitext_root path ++ "." ++ suffix)
            (generate_vtt_content subs) = Raise e
       /\ fs' = FS.interrupted fs (OsPath.splitext_root path ++ "." ++ suffix)
                  (generate_vtt_content subs).
Proof.
  unfold convert_ass_to_vtt.
  destruct (FS.exists_ fs path); cbn [negb]; [|intros [= _ <-]; now left].
  destruct (parse_ass_file fs path) as [subs|e']; [|intros [= _ <-]; now left].
  destruct (FS.write fs _ _) as [fs1|e''] eqn:W; [discriminate|].
  intros [= <- <-]. right. now exists subs.
Qed.

Lemma write_refuses (fs fs' : FS.t) (p content : string) :
  FS.write fs p content = Ok fs' ->
  FS.refuses fs' = FS.refuses fs /\ FS.left_behind fs' = FS.left_behind fs.
Proof.
  unfold FS.write. destruct (FS.refuses fs FS.Writing p); [discriminate|].
  destruct (FS.node_at fs p) as [[|d]|]; [discriminate | |];
    now intros [= <-].
Qed.

(** An interrupted write touches its file and nothing else, and leaves a
    file where there was one. *)
Lemma interrupted_frame (fs : FS.t) (p content : string) :
  (forall q, q <> p ->
             FS.node_at (FS.interrupted fs p content) q = FS.node_at fs q)
  /\ (forall q, FS.exists_ fs q = true ->
                FS.exists_ (FS.interrupted fs p content) q = true)
  /\ FS.refuses (FS.interrupted fs p content) = FS.refuses fs
  /\ FS.left_behind (FS.interrupted fs p content) = FS.left_behind fs.
Proof.
  unfold FS.interrupted, FS.exists_.
  destruct (FS.node_at fs p) as [[|d0]|] eqn:N; auto;
    destruct (FS.refuses fs FS.Writing p); auto;
    destruct (FS.left_behind fs p content) as [d|]; auto;
    cbn [FS.put FS.node_at FS.refuses FS.left_behind];
    (split; [|split; [|split; reflexivity]]);
    intros q Hq;
    try (apply String.eqb_neq in Hq; now rewrite Hq);
    now destruct (String.eqb q p).
Qed.

(** X9.  Converting a file that can be read and decodes succeeds whenever
    the output can be written: the path returned is the root of
    the input path, a dot and the suffix; the file there holds the document
    generated from the events parsed from the lines of the input; no other
    path of the file system is changed. *)
Theorem convert_ass_to_vtt_text (fs : FS.t) (path suffix content : string) :
  FS.open_read fs path = Ok (FS.Text content) ->
  FS.refuses fs FS.Writing (OsPath.splitext_root path ++ "." ++ suffix) = None ->
  FS.node_at fs (OsPath.splitext_root path ++ "." ++ suffix)
    <> Some FS.Directory ->
  exists fs',
    convert_ass_to_vtt fs path suffix
    = (Ok (OsPath.splitext_root path ++ "." ++ suffix), fs')
    /\ FS.node_at fs' (OsPath.splitext_root path ++ "." ++ suffix)
       = Some (FS.File (FS.Text
           (generate_vtt_content (parse_lines (FS.lines_of content)))))
    /\ (forall q, q <> OsPath.splitext_root path ++ "." ++ suffix ->
                  FS.node_at fs' q = FS.node_at fs q)
    /\ FS.refuses fs' = FS.refuses fs.
Proof.
  intros Hopen Hr Hd.
  assert (FS.exists_ fs path = true) as Hex.
  { unfold FS.open_read in Hopen. unfold FS.exists_.
    destruct (FS.refuses fs FS.Reading path); [discriminate|].
    now destruct (FS.node_at fs path). }
  destruct (write_allowed fs _
              (generate_vtt_content (parse_lines (FS.lines_of content))) Hr Hd)
    as [fs' Hw].
  exists fs'. split; [|split; [|split]].
  - unfold convert_ass_to_vtt, parse_ass_file. rewrite Hex, Hopen. cbn [negb bind].
    now rewrite Hw.
  - now apply write_result in Hw.
  - now apply write_result in Hw.
  - now apply write_refuses in Hw.
Qed.

(** X9 on the first script of the sample disk. *)
Lemma convert_ass_to_vtt_text_witness :
  exists fs',
    convert_ass_to_vtt Samples.disk "a.ass" "vtt" = (Ok "a.vtt", fs')
    /\ FS.node_at fs' "a.vtt"
       = Some (FS.File (FS.Text
           (generate_vtt_content (parse_lines (FS.lines_of Samples.script)))))
    /\ (forall q, q <> "a.vtt" -> FS.node_at fs' q = FS.node_at Samples.disk q)
    /\ FS.refuses fs' = FS.refuses Samples.disk.
Proof.
  apply (convert_ass_to_vtt_text Samples.disk "a.ass" "vtt" Samples.script);
    [reflexivity | reflexivity | discriminate].
Defined.

(** X10.  The document is written beside the script, under the name of the
    script with its last extension replaced by the suffix: for a path
    [dir ++ stem ++ "." ++ ext], where [stem] holds no slash and is not made
    of dots only and [ext] holds neither dot nor slash, a conversion that
    returns, returns [dir ++ stem ++ "." ++ suffix]; for a name without a
    dot the suffix is added to the name. *)
Theorem convert_ass_to_vtt_path (fs : FS.t) (dir stem ext suffix : string) :
  PyStr.contains "/" stem = false ->
  PyStr.contains "." ext = false -> PyStr.contains "/" ext = false ->
  (PyStr.all_chars (Ascii.eqb ".") stem = false ->
   fst (convert_ass_to_vtt fs (dir ++ stem ++ "." ++ ext) suffix)
   = Ok (dir ++ stem ++ "." ++ suffix)
   \/ exists e,
        fst (convert_ass_to_vtt fs (dir ++ stem ++ "." ++ ext) suffix) = Raise e)
  /\ (dir = "" \/ (exists d, dir = d ++ "/") ->
      PyStr.contains "." stem = false ->
      fst (convert_ass_to_vtt fs (dir ++ stem) suffix)
      = Ok (dir ++ stem ++ "." ++ suffix)
      \/ exists e, fst (convert_ass_to_vtt fs (dir ++ stem) suffix) = Raise e).
Proof.
  intros Hs He1 He2. split.
  - intros Hnd.
    destruct (convert_ass_to_vtt fs (dir ++ stem ++ "." ++ ext) suffix)
      as [[out|e] fs'] eqn:C; [left | right; now exists e].
    apply convert_ok in C as (-> & _). cbn [fst].
    rewrite splitext_root_ext by assumption. now rewrite append_assoc'.
  - intros Hdir Hn.
    destruct (convert_ass_to_vtt fs (dir ++ stem) suffix)
      as [[out|e] fs'] eqn:C; [left | right; now exists e].
    apply convert_ok in C as (-> & _). cbn [fst].
    rewrite splitext_root_plain by assumption. now rewrite append_assoc'.
Qed.

(** X10 on [a.ass] with the suffix [en.vtt]. *)
Lemma convert_ass_to_vtt_path_witness :
  fst (convert_ass_to_vtt Samples.disk ("" ++ "a" ++ "." ++ "ass") "en.vtt")
  = Ok ("" ++ "a" ++ "." ++ "en.vtt").
Proof.
  destruct (convert_ass_to_vtt_path Samples.disk "" "a" "ass" "en.vtt")
    as [H _]; [reflexivity | reflexivity | reflexivity |].
  destruct (H eq_refl) as [E|[e E]]; [exact E | vm_compute in E; discriminate].
Defined.

(** A conversion writes at its output path and nowhere else, and deletes
    nothing. *)
Lemma convert_frame (fs fs' : FS.t) (path suffix : string) (r : result string) :
  convert_ass_to_vtt fs path suffix = (r, fs') ->
  (forall q, q <> OsPath.splitext_root path ++ "." ++ suffix ->
             FS.node_at fs' q = FS.node_at fs q)
  /\ (forall q, FS.exists_ fs q = true -> FS.exists_ fs' q = true)
  /\ FS.refuses fs' = FS.refuses fs.
Proof.
  intros H. destruct r as [out|e].
  - apply convert_ok in H as (-> & _ & subs & _ & Hw).
    pose proof (write_result _ _ _ _ Hw) as [Hout Hframe].
    split; [exact Hframe|]. split; [|now apply write_refuses in Hw].
    intros q Hq. unfold FS.exists_ in *.
    destruct (String.eqb_spec q (OsPath.splitext_root path ++ "." ++ suffix))
      as [->|Hne]; [now rewrite Hout | now rewrite Hframe].
  - apply convert_raise in H as [->|(subs & _ & _ & ->)]; [auto|].
    destruct (interrupted_frame fs (OsPath.splitext_root path ++ "." ++ suffix)
                (generate_vtt_content subs)) as (I1 & I2 & I3 & _).
    auto.
Qed.







End Conversion.

(** ** The batch *)

Section Progress.

Local Open Scope Q_scope.

Lemma percent_mono (x y : Q) :
  0 < x -> x <= y ->
  (Float64.trunc (Float64.times100 (Float64.rn x))
   <= Float64.trunc (Float64.times100 (Float64.rn y)))%Z.
Proof.
  intros Hx Hxy. unfold Float64.trunc, Float64.times100.
  pose proof (rn_pos x Hx) as Px. pose proof (rn_mono x y Hx Hxy) as M.
  apply Qfloor_resp_le, rn_mono.
  - change (inject_Z 100) with (100 # 1). lra.
  - change (inject_Z 100) with (100 # 1). lra.
Qed.

Lemma ratio_le (a b c d : Z) :
  (0 < b)%Z -> (0 < d)%Z -> (a * d <= c * b)%Z ->
  inject_Z a / inject_Z b <= inject_Z c / inject_Z d.
Proof.
  intros Hb Hd H.
  assert (0 < inject_Z b) as Qb by (change 0 with (inject_Z 0); now rewrite <- Zlt_Qlt).
  assert (0 < inject_Z d) as Qd by (change 0 with (inject_Z 0); now rewrite <- Zlt_Qlt).
  apply Qle_shift_div_l; [exact Qd|].
  assert (inject_Z a / inject_Z b * inject_Z d
          == inject_Z a * inject_Z d / inject_Z b) as -> by (field; lra).
  apply Qle_shift_div_r; [exact Qb|].
  rewrite <- !inject_Z_mult, <- Zle_Qle. lia.
Qed.

Lemma ratio_pos (a b : Z) :
  (0 < a)%Z -> (0 < b)%Z -> 0 < inject_Z a / inject_Z b.
Proof.
  intros Ha Hb. apply Qlt_shift_div_l.
  - change 0 with (inject_Z 0). now rewrite <- Zlt_Qlt.
  - rewrite Qmult_0_l. change 0 with (inject_Z 0). now rewrite <- Zlt_Qlt.
Qed.

(** The progress value does not decrease with the index. *)
Lemma progress_of_mono (i j total : nat) :
  (i <= j)%nat -> (0 < total)%nat ->
  (progress_of i total <= progress_of j total)%Z.
Proof.
  intros Hij Ht. unfold progress_of, Float64.truediv.
  apply percent_mono; [apply ratio_pos; lia | apply ratio_le; nia].
Qed.

(** It is 100 at the last index. *)
Lemma progress_of_last (total : nat) :
  (0 < total)%nat -> progress_of (total - 1) total = 100%Z.
Proof.
  intros Ht. unfold progress_of, Float64.truediv.
  set (x := inject_Z (Z.of_nat (total - 1) + 1) / inject_Z (Z.of_nat total)).
  assert (0 < x) as Hx by (apply ratio_pos; lia).
  assert (x <= inject_Z 1 / inject_Z 1) as H1 by (apply ratio_le; lia).
  assert (inject_Z 1 / inject_Z 1 <= x) as H2 by (apply ratio_le; lia).
  apply percent_mono in H1; [|exact Hx].
  apply percent_mono in H2; [|reflexivity].
  assert (Float64.trunc (Float64.times100 (Float64.rn (inject_Z 1 / inject_Z 1)))
          = 100%Z) as E by (vm_compute; reflexivity).
  rewrite E in H1, H2. lia.
Qed.

(** Before the last index it stays below 100, for a list of at most
    [2 ^ 53] files. *)
Lemma progress_of_below (i total : nat) :
  (i + 1 < total)%nat -> (Z.of_nat total <= 2 ^ 53)%Z ->
  (progress_of i total <= 99)%Z.
Proof.
  intros Hi Ht. unfold progress_of, Float64.truediv.
  set (x := inject_Z (Z.of_nat i + 1) / inject_Z (Z.of_nat total)).
  assert (0 < x) as Hx by (apply ratio_pos; lia).
  assert (x <= inject_Z (2 ^ 53 - 1) / inject_Z (2 ^ 53)) as H1
    by (apply ratio_le; lia).
  apply percent_mono in H1; [|exact Hx].
  assert (Float64.trunc (Float64.times100
            (Float64.rn (inject_Z (2 ^ 53 - 1) / inject_Z (2 ^ 53)))) = 99%Z) as E
    by (vm_compute; reflexivity).
  rewrite E in H1. exact H1.
Qed.

Lemma progress_of_nonneg (i total : nat) :
  (0 < total)%nat -> (0 <= progress_of i total)%Z.
Proof.
  intros Ht. unfold progress_of, Float64.truediv, Float64.trunc, Float64.times100.
  change 0%Z with (Qfloor 0). apply Qfloor_resp_le, Qlt_le_weak, rn_pos.
  pose proof (rn_pos (inject_Z (Z.of_nat i + 1) / inject_Z (Z.of_nat total))
                ltac:(apply ratio_pos; lia)).
  change (inject_Z 100) with (100 # 1). lra.
Qed.

(** X13.  The progress value computed in floating point is the percentage
    of files done, rounded down, or that number less one; it is never above
    it (for a list of at most [2 ^ 45] files). *)
Theorem progress_of_accuracy (i total : nat) :
  (i < total)%nat -> (Z.of_nat total <= 2 ^ 45)%Z ->
  (100 * (Z.of_nat i + 1) / Z.of_nat total - 1 <= progress_of i total
   <= 100 * (Z.of_nat i + 1) / Z.of_nat total)%Z.
Proof.
  intros Hi Ht. unfold progress_of, Float64.truediv, Float64.times100, Float64.trunc.
  set (a := (Z.of_nat i + 1)%Z). set (b := Z.of_nat total).
  set (E := (100 * a / b)%Z).
  assert (0 < a)%Z as Ha by lia. assert (0 < b)%Z as Hb by lia.
  assert (a <= b)%Z as Hab by lia.
  set (x := inject_Z a / inject_Z b).
  assert (0 < x) as Hx by (apply ratio_pos; assumption).
  assert (0 < inject_Z b) as HB
    by (change 0 with (inject_Z 0); now rewrite <- Zlt_Qlt).
  set (d := / inject_Z b).
  assert (inject_Z b * d == 1) as Hd by (subst d; field; lra).
  assert (0 < d) as Hd0 by (subst d; now apply Qinv_lt_0_compat).
  assert (x == inject_Z a * d) as Ex by reflexivity.
  assert (x <= 1) as Hx1.
  { rewrite Ex, <- Hd. apply Qmult_le_compat_r; [|lra]. now rewrite <- Zle_Qle. }
  assert ((1 # 35184372088832) <= d) as Hd45.
  { assert (inject_Z b <= 35184372088832) as Hle
      by (change 35184372088832 with (inject_Z (2 ^ 45)); now rewrite <- Zle_Qle).
    assert (inject_Z b * (1 # 35184372088832) <= inject_Z b * d) as H; [|nra].
    rewrite Hd. lra. }
  assert (E * b <= 100 * a)%Z as HE1 by (subst E; rewrite Z.mul_comm; apply Z.mul_div_le; lia).
  assert (100 * a + 1 <= (E + 1) * b)%Z as HE2.
  { pose proof (Z.mul_succ_div_gt (100 * a) b Hb) as H. fold E in H. lia. }
  rewrite Zle_Qle in HE1, HE2.
  rewrite !inject_Z_mult in HE1.
  rewrite inject_Z_plus, !inject_Z_mult, inject_Z_plus in HE2.
  change (inject_Z 100) with 100 in *. change (inject_Z 1) with 1 in *.
  assert (inject_Z E <= 100 * x) as Lo.
  { rewrite Ex.
    assert (inject_Z E * inject_Z b * d <= 100 * inject_Z a * d) as H
      by (apply Qmult_le_compat_r; lra).
    assert (inject_Z E * inject_Z b * d == inject_Z E) as E1
      by (rewrite <- Qmult_assoc, Hd; ring).
    rewrite E1 in H. lra. }
  assert (100 * x + d <= inject_Z E + 1) as Hi'.
  { rewrite Ex.
    assert ((100 * inject_Z a + 1) * d <= (inject_Z E + 1) * inject_Z b * d) as H
      by (apply Qmult_le_compat_r; lra).
    assert ((inject_Z E + 1) * inject_Z b * d == inject_Z E + 1) as E2
      by (rewrite <- Qmult_assoc, Hd; ring).
    rewrite E2 in H. lra. }
  destruct (rn_error x Hx) as [Y1 Y2]. fold x.
  set (y := Float64.rn x) in *.
  assert (0 < y * 100) as Hy by lra.
  destruct (rn_error (y * 100) Hy) as [Z1 Z2].
  set (z := Float64.rn (y * 100)) in *.
  split.
  - assert (inject_Z (E - 1) <= z) as H.
    { unfold Z.sub. rewrite inject_Z_plus.
      change (inject_Z (Z.opp 1)) with (-1 # 1). lra. }
    apply Qfloor_resp_le in H. now rewrite Qfloor_Z in H.
  - assert (z < inject_Z (E + 1)) as H.
    { rewrite inject_Z_plus. change (inject_Z 1) with 1. lra. }
    pose proof (Qfloor_le z) as F.
    assert (inject_Z (Qfloor z) < inject_Z (E + 1)) as H' by lra.
    rewrite <- Zlt_Qlt in H'. lia.
Qed.

(** X13 at the 29th of 100 files, where [int(29 / 100 * 100)] is 28. *)
Lemma progress_of_accuracy_witness :
  (100 * (Z.of_nat 28 + 1) / Z.of_nat 100 - 1 <= progress_of 28 100
   <= 100 * (Z.of_nat 28 + 1) / Z.of_nat 100)%Z.
Proof. apply (progress_of_accuracy 28 100); [lia | vm_compute; discriminate]. Defined.

End Progress.

Section Batch.

Lemma outcomes_files (files : list string) :
  forall fs suffix, map fst (outcomes fs suffix files) = files.
Proof.
  induction files as [|f files IH]; intros fs suffix; cbn [outcomes]; [reflexivity|].
  destruct (convert_ass_to_vtt fs f suffix) as [r fs'].
  cbn [map fst]. now rewrite IH.
Qed.

Lemma outcomes_length (files : list string) (fs : FS.t) (suffix : string) :
  List.length (outcomes fs suffix files) = List.length files.
Proof.
  pose proof (f_equal (@List.length _) (outcomes_files files fs suffix)) as H.
  now rewrite length_map in H.
Qed.

(** The signals of the loop: the notifications of each outcome, in order. *)
Lemma run_loop_signals (total : nat) (files : list string) :
  forall fs suffix i,
    fst (run_loop fs suffix total i files)
    = concat (map (fun o => notifications total (fst o) (fst (snd o)) (snd (snd o)))
                (combine (seq i (List.length files)) (outcomes fs suffix files))).
Proof.
  induction files as [|f files IH]; intros fs suffix i; [reflexivity|].
  cbn [run_loop outcomes List.length seq]. unfold attempt.
  destruct (convert_ass_to_vtt fs f suffix) as [r fs'].
  specialize (IH fs' suffix (S i)).
  destruct (run_loop fs' suffix total (S i) files) as [later fs''].
  cbn [fst snd combine map concat] in *. now rewrite IH.
Qed.

(** What a sequence of notifications holds. *)
Lemma notifications_census (total : nat) (os : list (string * result string)) :
  forall i,
    let sigs :=
      concat (map (fun o => notifications total (fst o) (fst (snd o)) (snd (snd o)))
                (combine (seq i (List.length os)) os)) in
    List.length (filter is_error sigs)
    = List.length (filter (fun o => negb (succeeded o)) os)
    /\ List.length (filter is_converted sigs)
       = List.length (filter succeeded os)
    /\ filter is_finished sigs = []
    /\ progress_values sigs
       = map (fun k => progress_of k total) (positions succeeded i os).
Proof.
  induction os as [|[f r] os IH]; intros i; [cbn; auto|].
  cbn zeta in *. cbn [List.length seq combine map concat fst snd].
  destruct (IH (S i)) as (E1 & E2 & E3 & E4).
  rewrite !filter_app, !length_app, E1, E2, E3.
  cbn [filter positions]. unfold succeeded at 1 3 5. cbn [snd].
  destruct r as [out|e]; cbn [notifications is_ok negb filter is_error
    is_converted is_finished List.length app map].
  - repeat split; try lia. cbn [progress_values app]. now rewrite E4.
  - repeat split; try lia. cbn [progress_values app]. exact E4.
Qed.

Lemma sorted_map_mono (f : nat -> Z) (l : list nat) :
  StronglySorted lt l ->
  (forall a b, In a l -> In b l -> a < b -> (f a <= f b)%Z) ->
  StronglySorted Z.le (map f l).
Proof.
  induction 1 as [|a l Hs IH Ha]; intros Hf; cbn [map]; constructor.
  - apply IH. intros x y Hx Hy. apply Hf; now right.
  - apply Forall_forall. intros y [x [<- Hx]]%in_map_iff.
    apply Hf; [now left | now right |].
    rewrite Forall_forall in Ha. now apply Ha.
Qed.

Lemma progress_values_app (a b : list signal) :
  progress_values (a ++ b) = (progress_values a ++ progress_values b)%list.
Proof.
  induction a as [|x a IH]; [reflexivity|].
  destruct x; cbn [app progress_values]; now rewrite IH.
Qed.

Lemma positions_app {A : Type} (p : A -> bool) (l1 l2 : list A) :
  forall i, positions p i (l1 ++ l2)
            = (positions p i l1 ++ positions p (i + List.length l1) l2)%list.
Proof.
  induction l1 as [|a l1 IH]; intros i; cbn [app positions List.length].
  - now rewrite Nat.add_0_r.
  - rewrite IH, Nat.add_succ_r. now destruct (p a).
Qed.

Lemma in_combine_seq {A : Type} (l : list A) :
  forall i a, In a l -> exists k, In (k, a) (combine (seq i (List.length l)) l).
Proof.
  induction l as [|x l IH]; intros i a; [easy|].
  cbn [List.length seq combine]. intros [->|H].
  - exists i. now left.
  - destruct (IH (S i) a H) as [k Hk]. exists k. now right.
Qed.

Lemma run_signals (fs : FS.t) (files : list string) (suffix : string) :
  fst (run fs files suffix)
  = (fst (run_loop fs suffix (List.length files) 0 files)
     ++ [conversion_finished])%list.
Proof.
  unfold run. now destruct (run_loop fs suffix (List.length files) 0 files).
Qed.

(** C3.  The batch converts every file of the list, in order, each on the
    file system the conversions before it left.  Its signals are, file by
    file, the two signals of a success or the one [error_occurred] of a
    failure (with the base name of the file and the text of the exception),
    and then one [conversion_finished]: as many errors as failures, as many
    [file_converted] as successes, a failure never stopping the loop. *)
Theorem run_notifications (fs : FS.t) (files : list string) (suffix : string) :
  let sigs := fst (run fs files suffix) in
  let os := outcomes fs suffix files in
  let failed := List.length (filter (fun o => negb (succeeded o)) os) in
  map fst os = files
  /\ sigs
     = (concat (map (fun o => notifications (List.length files) (fst o)
                                (fst (snd o)) (snd (snd o)))
                  (combine (seq 0 (List.length files)) os))
        ++ [conversion_finished])%list
  /\ (forall f e, In (f, Raise e) os ->
        In (error_occurred ("Error converting " ++ OsPath.basename f ++ ": "
                            ++ str_of_exn e)) sigs)
  /\ List.length (filter is_error sigs) = failed
  /\ List.length (filter is_converted sigs) = List.length files - failed
  /\ filter is_finished sigs = [conversion_finished]
  /\ (failed = 1 ->
      List.length (filter is_error sigs) = 1
      /\ List.length (filter is_converted sigs) = List.length files - 1).
Proof.
  intros sigs os failed.
  assert (sigs
     = (concat (map (fun o => notifications (List.length files) (fst o)
                                (fst (snd o)) (snd (snd o)))
                  (combine (seq 0 (List.length files)) os))
        ++ [conversion_finished])%list) as Es.
  { subst sigs os. now rewrite run_signals, run_loop_signals. }
  pose proof (outcomes_length files fs suffix) as L. fold os in L.
  pose proof (notifications_census (List.length files) os 0) as C.
  cbn zeta in C. rewrite L in C. destruct C as (C1 & C2 & C3 & _).
  assert (List.length (filter is_error sigs) = failed) as E1.
  { rewrite Es, filter_app, length_app, C1. cbn. subst failed. lia. }
  assert (List.length (filter is_converted sigs) = List.length files - failed) as E2.
  { rewrite Es, filter_app, length_app, C2. cbn. subst failed.
    pose proof (filter_length succeeded os). unfold succeeded in *. lia. }
  split; [apply outcomes_files|]. split; [exact Es|]. split; [|split; [|split; [|split]]].
  - intros f e Hin. rewrite Es. apply in_or_app. left.
    apply (in_combine_seq _ 0) in Hin as [k Hin]. rewrite L in Hin.
    apply in_concat. eexists. split.
    + apply in_map_iff. exists (k, (f, Raise e)). split; [reflexivity | exact Hin].
    + cbn [notifications fst snd]. now left.
  - exact E1.
  - exact E2.
  - now rewrite Es, filter_app, C3.
  - intros F. rewrite E1, E2, F. auto.
Qed.

(** C3 with three files of which the second is missing. *)
Lemma run_notifications_witness :
  List.length (filter is_error
    (fst (run Samples.disk ["a.ass"; "missing.ass"; "b.ass"] "vtt"))) = 1
  /\ List.length (filter is_converted
    (fst (run Samples.disk ["a.ass"; "missing.ass"; "b.ass"] "vtt"))) = 3 - 1.
Proof.
  destruct (run_notifications Samples.disk ["a.ass"; "missing.ass"; "b.ass"] "vtt")
    as (_ & _ & _ & _ & _ & _ & H).
  apply H. vm_compute. reflexivity.
Defined.

(** C4, as the code has it.  A progress value is emitted after each
    successful conversion and after no other: [int((i + 1) / total * 100)]
    for the file at index [i].  The values never decrease and lie between 0
    and 100.  When the last file converts, the last value is 100; for a list
    of at most [2 ^ 53] files, 100 is emitted in no other case. *)
Theorem run_progress (fs : FS.t) (files : list string) (suffix : string) :
  let vals := progress_values (fst (run fs files suffix)) in
  let os := outcomes fs suffix files in
  let total := List.length files in
  vals = map (fun k => progress_of k total) (positions succeeded 0 os)
  /\ StronglySorted Z.le vals
  /\ Forall (fun v => (0 <= v <= 100)%Z) vals
  /\ (forall os' f out, os = (os' ++ [(f, Ok out)])%list ->
        last vals 0%Z = 100%Z)
  /\ ((Z.of_nat total <= 2 ^ 53)%Z -> In 100%Z vals ->
      exists os' f out, os = (os' ++ [(f, Ok out)])%list).
Proof.
  intros vals os total.
  pose proof (outcomes_length files fs suffix) as L. fold os in L. fold total in L.
  assert (vals = map (fun k => progress_of k total) (positions succeeded 0 os)) as Ev.
  { subst vals. rewrite run_signals, progress_values_app, run_loop_signals.
    pose proof (notifications_census total os 0) as C. cbn zeta in C.
    rewrite L in C. destruct C as (_ & _ & _ & C). fold os. fold total.
    rewrite C. cbn [progress_values]. now rewrite app_nil_r. }
  assert (forall k, In k (positions succeeded 0 os) -> k < total) as Hk.
  { intros k Hin. apply positions_ge in Hin. lia. }
  split; [exact Ev|]. split; [|split; [|split]].
  - rewrite Ev. apply sorted_map_mono; [apply positions_sorted|].
    intros a b Ha Hb Hab. apply Hk in Hb. apply progress_of_mono; lia.
  - rewrite Ev. apply Forall_forall. intros v [k [<- Hin]]%in_map_iff.
    apply Hk in Hin. split; [apply progress_of_nonneg; lia|].
    rewrite <- (progress_of_last total) by lia. apply progress_of_mono; lia.
  - intros os' f out E. rewrite Ev, E, positions_app. cbn [positions succeeded snd is_ok].
    rewrite map_app. cbn [map]. rewrite last_last.
    assert (0 + List.length os' = total - 1) as ->.
    { rewrite <- L, E, length_app. cbn. lia. }
    apply progress_of_last. rewrite <- L, E, length_app. cbn. lia.
  - intros Hbig Hin. rewrite Ev in Hin. apply in_map_iff in Hin as [k [Hp Hin]].
    pose proof (Hk k Hin) as Hlt.
    apply positions_in in Hin as ([f r] & _ & Hn & Hs).
    rewrite Nat.sub_0_r in Hn. unfold succeeded in Hs. cbn [snd] in Hs.
    destruct r as [out|e]; [|discriminate].
    destruct (Nat.eq_dec (k + 1) total) as [Hlast|Hne].
    + apply nth_error_split in Hn as (l1 & l2 & E & Hl).
      exists l1, f, out. rewrite E in L. rewrite length_app in L. cbn in L.
      destruct l2; [exact E | cbn in L; lia].
    + pose proof (progress_of_below k total ltac:(lia) Hbig). lia.
Qed.

(** C4 on the two scripts of the sample disk. *)
Lemma run_progress_witness :
  exists os' f out,
    outcomes Samples.disk "vtt" ["a.ass"; "b.ass"] = (os' ++ [(f, Ok out)])%list.
Proof.
  destruct (run_progress Samples.disk ["a.ass"; "b.ass"] "vtt")
    as (_ & _ & _ & _ & H).
  apply H; [vm_compute; discriminate | vm_compute; auto].
Defined.

(** C4 as stated fails when the last file fails: with [a.ass] converted and
    [missing.ass] not found, the only progress value is 50, and 100 is never
    emitted though the last file has been attempted. *)
Lemma run_progress_last_fails :
  fst (run Samples.disk ["a.ass"; "missing.ass"] "vtt")
  = [file_converted "a.ass"; progress_updated 50;
     error_occurred "Error converting missing.ass: ASS file not found: missing.ass";
     conversion_finished]
  /\ progress_values (fst (run Samples.disk ["a.ass"; "missing.ass"] "vtt"))
     = [50%Z].
Proof. split; vm_compute; reflexivity. Qed.

Lemma run_loop_frame (suffix : string) (total : nat) (files : list string) :
  forall fs i,
    let fs' := snd (run_loop fs suffix total i files) in
    (forall q, (forall f, In f files ->
                  q <> OsPath.splitext_root f ++ "." ++ suffix) ->
               FS.node_at fs' q = FS.node_at fs q)
    /\ (forall q, FS.exists_ fs q = true -> FS.exists_ fs' q = true)
    /\ FS.refuses fs' = FS.refuses fs.
Proof.
  induction files as [|f files IH]; intros fs i; cbn [run_loop].
  - cbn. auto.
  - unfold attempt.
    destruct (convert_ass_to_vtt fs f suffix) as [r fs1] eqn:C.
    apply convert_frame in C as (F1 & F2 & F3).
    specialize (IH fs1 (S i)).
    destruct (run_loop fs1 suffix total (S i) files) as [later fs2].
    cbn [snd] in *. destruct IH as (G1 & G2 & G3).
    split; [|split].
    + intros q Hq. rewrite G1 by (intros g Hg; apply Hq; now right).
      apply F1, Hq. now left.
    + auto.
    + congruence.
Qed.

(** X14.  A batch changes the file system at the output paths of its files
    and nowhere else, deletes nothing, and leaves the permissions as they
    were. *)
Theorem run_frame (fs : FS.t) (files : list string) (suffix : string) :
  let fs' := snd (run fs files suffix) in
  (forall q, (forall f, In f files ->
                q <> OsPath.splitext_root f ++ "." ++ suffix) ->
             FS.node_at fs' q = FS.node_at fs q)
  /\ (forall q, FS.exists_ fs q = true -> FS.exists_ fs' q = true)
  /\ FS.refuses fs' = FS.refuses fs.
Proof.
  unfold run.
  pose proof (run_loop_frame suffix (List.length files) files fs 0) as H.
  destruct (run_loop fs suffix (List.length files) 0 files) as [emitted fs1].
  exact H.
Qed.

Lemma run_loop_missing (fs : FS.t) (suffix : string) (total : nat)
  (files : list string) :
  Forall (fun f => FS.exists_ fs f = false) files ->
  forall i,
    run_loop fs suffix total i files
    = (map (fun f => error_occurred
                       ("Error converting " ++ OsPath.basename f
                        ++ ": ASS file not found: " ++ f)) files, fs).
Proof.
  induction 1 as [|f files Hf _ IH]; intros i; [reflexivity|].
  cbn [run_loop map]. unfold attempt, convert_ass_to_vtt. rewrite Hf.
  cbn [negb notifications str_of_exn]. now rewrite IH.
Qed.

(** X15.  When none of the files exists, the batch emits one
    [error_occurred] for each, in order, that names the file by its base
    name and by its full path, then [conversion_finished]: no
    [file_converted], no progress, and the file system is left as it was.
    For an empty list the only signal is [conversion_finished]. *)
Theorem run_missing_files (fs : FS.t) (files : list string) (suffix : string) :
  Forall (fun f => FS.exists_ fs f = false) files ->
  run fs files suffix
  = ((map (fun f => error_occurred
                      ("Error converting " ++ OsPath.basename f
                       ++ ": ASS file not found: " ++ f)) files
      ++ [conversion_finished])%list, fs).
Proof.
  intros H. unfold run. now rewrite run_loop_missing.
Qed.

(** X15 on two files the sample disk does not hold. *)
Lemma run_missing_files_witness :
  run Samples.disk ["x/one.ass"; "two.ass"] "vtt"
  = ((map (fun f => error_occurred
                      ("Error converting " ++ OsPath.basename f
                       ++ ": ASS file not found: " ++ f))
        ["x/one.ass"; "two.ass"]
      ++ [conversion_finished])%list, Samples.disk).
Proof.
  apply (run_missing_files Samples.disk ["x/one.ass"; "two.ass"] "vtt").
  repeat constructor.
Defined.

End Batch.

(** ** The window *)

Section Window.

Import AssToVttConverter.

(** Consistency looks at the language, its table, the files and the
    rows. *)
Lemma consistent_same (st st' : t) :
  current_lang st' = current_lang st -> translations st' = translations st ->
  files st' = files st -> file_list st' = file_list st ->
  items_made st' = items_made st ->
  consistent st -> consistent st'.
Proof.
  unfold consistent. intros -> -> -> -> ->. exact (fun H => H).
Qed.

(** After a change of language. *)
Lemma consistent_switch (st st' : t) :
  current_lang st' = "en" \/ current_lang st' = "zh" ->
  getitem LANGUAGES (current_lang st') = Some (translations st') ->
  files st' = files st -> file_list st' = file_list st ->
  items_made st' = items_made st ->
  consistent st -> consistent st'.
Proof.
  unfold consistent. intros L D -> -> -> (_ & _ & H). auto.
Qed.

(** The table of a consistent window is one of the two of [LANGUAGES]. *)
Lemma consistent_table (st : t) :
  consistent st ->
  getitem LANGUAGES "en" = Some (translations st)
  \/ getitem LANGUAGES "zh" = Some (translations st).
Proof. intros ([E|E] & D & _); rewrite E in D; auto. Qed.

(** [table] splits a goal in two, one for each table, and names the
    table; [lookups] computes the lookups in it. *)
Ltac table st H :=
  let T := fresh "T" in
  pose proof (consistent_table st H) as [T|T];
  cbn in T; injection T as T.

Ltac lookups := cbn [getitem String.eqb Ascii.eqb Bool.eqb].

(** [__init__] raises nothing and leaves a consistent window. *)
Lemma init_ok : exists st, init = Done st /\ consistent st.
Proof.
  exists (state_of init). split; [vm_compute; reflexivity|].
  unfold consistent. split; [left; vm_compute; reflexivity|].
  split; [vm_compute; reflexivity|]. split; [vm_compute; reflexivity|].
  split; [|split]; vm_compute; constructor.
Qed.

Lemma init_consistent : consistent (state_of init).
Proof.
  destruct init_ok as (st & E & H). now rewrite E.
Qed.

(** *** Adding files *)

Lemma contains_In (l : list string) (x : string) :
  AssToVttConverter.contains l x = true <-> In x l.
Proof.
  unfold AssToVttConverter.contains. rewrite existsb_exists. split.
  - intros (y & Hy & E). apply String.eqb_eq in E. now subst.
  - intros H. exists x. split; [exact H | apply String.eqb_refl].
Qed.

(** What the loop of [add_files] adds: the paths not listed yet, each once,
    and a new row for each. *)
Lemma add_paths_spec (file_paths : list string) :
  forall st, exists added,
    files (add_paths file_paths st) = (files st ++ added)%list
    /\ file_list (add_paths file_paths st)
       = (file_list st
          ++ map (fun p => mk_item (fst p) (OsPath.basename (snd p)))
               (combine (seq (items_made st) (List.length added)) added))%list
    /\ items_made (add_paths file_paths st) = items_made st + List.length added
    /\ (forall p, In p added <-> In p file_paths /\ ~ In p (files st))
    /\ NoDup added
    /\ current_lang (add_paths file_paths st) = current_lang st
    /\ translations (add_paths file_paths st) = translations st
    /\ shown (add_paths file_paths st) = shown st
    /\ enabled (add_paths file_paths st) = enabled st
    /\ suffix_input (add_paths file_paths st) = suffix_input st
    /\ progress_bar (add_paths file_paths st) = progress_bar st
    /\ workers (add_paths file_paths st) = workers st
    /\ boxes (add_paths file_paths st) = boxes st.
Proof.
  induction file_paths as [|p rest IH]; intros st.
  - exists []. cbn [add_paths]. rewrite !app_nil_r. cbn.
    repeat split; try reflexivity; try lia; try tauto; try constructor.
  - cbn [add_paths].
    destruct (AssToVttConverter.contains (files st) p) eqn:C; cbn [negb].
    + apply contains_In in C.
      destruct (IH st) as (added & E1 & E2 & E3 & E4 & E5 & E6).
      exists added. split; [exact E1|]. split; [exact E2|]. split; [exact E3|].
      split; [|split; [exact E5 | exact E6]].
      intros q. rewrite E4. cbn [In]. split; [tauto|].
      intros [[<-|H] N]; [contradiction | tauto].
    + assert (~ In p (files st)) as N
        by (intros H; apply contains_In in H; congruence).
      destruct (IH (addItem (OsPath.basename p)
                      (set_files (files st ++ [p]) st)))
        as (added & E1 & E2 & E3 & E4 & E5 & E6).
      cbn [addItem set_files files file_list items_made current_lang
             translations shown enabled suffix_input progress_bar workers boxes]
        in E1, E2, E3, E4, E6.
      exists (p :: added). split; [|split; [|split; [|split; [|split]]]].
      * rewrite E1, <- app_assoc. reflexivity.
      * rewrite E2, <- app_assoc. cbn [List.length seq combine map app fst snd].
        reflexivity.
      * rewrite E3. cbn [List.length]. lia.
      * intros q. cbn [In]. rewrite E4. split.
        -- intros [<-|[H N']].
           ++ split; [now left | exact N].
           ++ split; [now right|]. intros H'. apply N', in_or_app. now left.
        -- intros [[<-|H] N']; [now left|].
           destruct (string_dec p q) as [->|D]; [now left|].
           right. split; [exact H|]. intros H'.
           apply in_app_or in H' as [H'|[H'|[]]]; [tauto | congruence].
      * constructor; [|exact E5]. intros H. apply E4 in H as [_ H].
        apply H, in_or_app. right. now left.
      * exact E6.
Qed.

Lemma new_rows_texts (added : list string) :
  forall n,
    map item_text
      (map (fun p => mk_item (fst p) (OsPath.basename (snd p)))
         (combine (seq n (List.length added)) added))
    = map OsPath.basename added
    /\ map item_id
         (map (fun p => mk_item (fst p) (OsPath.basename (snd p)))
            (combine (seq n (List.length added)) added))
       = seq n (List.length added).
Proof.
  induction added as [|p added IH]; intros n; [now split|].
  cbn [List.length seq combine map fst snd item_text item_id].
  destruct (IH (S n)) as [E1 E2]. now rewrite E1, E2.
Qed.

Lemma add_paths_consistent (file_paths : list string) (st : t) :
  consistent st -> consistent (add_paths file_paths st).
Proof.
  intros (L & D & A & N1 & N2 & F).
  destruct (add_paths_spec file_paths st)
    as (added & E1 & E2 & E3 & E4 & E5 & E6 & E7 & _).
  destruct (new_rows_texts added (items_made st)) as [T1 T2].
  unfold consistent. rewrite E1, E2, E3, E6, E7, !map_app, T1, T2, A.
  split; [exact L|]. split; [exact D|]. split; [reflexivity|].
  split; [|split].
  - apply NoDup_app; [exact N1 | exact E5 |].
    intros p Hp Ha. apply E4 in Ha. tauto.
  - apply NoDup_app; [exact N2 | apply seq_NoDup |].
    intros i Hi Hs. apply in_seq in Hs. apply in_map_iff in Hi as (it & <- & Hit).
    rewrite Forall_forall in F. specialize (F it Hit). lia.
  - apply Forall_app. split.
    + eapply Forall_impl; [|exact F]. cbn. intros it H. lia.
    + apply Forall_forall. intros it Hit.
      assert (In (item_id it) (seq (items_made st) (List.length added))) as H
        by (rewrite <- T2; now apply in_map).
      apply in_seq in H. lia.
Qed.

Lemma window_sample_consistent : consistent Samples.window.
Proof. apply add_paths_consistent, init_consistent. Qed.

(** Paths that are all listed add nothing. *)
Lemma add_paths_present (file_paths : list string) (st : t) :
  (forall p, In p file_paths -> In p (files st)) ->
  add_paths file_paths st = st.
Proof.
  induction file_paths as [|p rest IH]; intros H; [reflexivity|].
  cbn [add_paths].
  rewrite (proj2 (contains_In (files st) p)) by (apply H; now left).
  cbn [negb]. apply IH. intros q Hq. apply H. now right.
Qed.

Lemma add_files_done (file_paths : list string) (st : t) :
  consistent st -> add_files file_paths st = Done (add_paths file_paths st).
Proof.
  intros H. table st H; unfold add_files, tr; rewrite <- T; lookups; reflexivity.
Qed.

(** [nodup] keeps of each element the last occurrence. *)
Lemma nodup_snoc (l : list string) (x : string) :
  nodup string_dec (l ++ [x])
  = (filter (fun y => negb (String.eqb y x)) (nodup string_dec l) ++ [x])%list.
Proof.
  induction l as [|a l IH]; [reflexivity|].
  cbn [app nodup].
  destruct (String.eqb_spec a x) as [->|Hax].
  - destruct (in_dec string_dec x (l ++ [x])) as [_|N];
      [|exfalso; apply N, in_or_app; right; now left].
    rewrite IH. destruct (in_dec string_dec x l); [reflexivity|].
    cbn [filter]. now rewrite String.eqb_refl.
  - destruct (in_dec string_dec a (l ++ [x])) as [I|N];
      destruct (in_dec string_dec a l) as [I'|N'].
    + exact IH.
    + exfalso. apply in_app_or in I as [I|[I|[]]]; [tauto | congruence].
    + exfalso. apply N, in_or_app. now left.
    + cbn [filter]. apply String.eqb_neq in Hax. rewrite Hax.
      cbn [negb app]. now rewrite IH.
Qed.

(** Between two [rev] it keeps the first: the head of a list stays, and
    goes from the rest. *)
Lemma first_occurrences_cons (p : string) (l : list string) :
  rev (nodup string_dec (rev (p :: l)))
  = p :: filter (fun y => negb (String.eqb y p))
           (rev (nodup string_dec (rev l))).
Proof.
  cbn [rev]. rewrite nodup_snoc, rev_app_distr, filter_rev. reflexivity.
Qed.

Lemma filter_narrow {A : Type} (f g : A -> bool) (l : list A) :
  (forall x, f x = true -> g x = true) -> filter f (filter g l) = filter f l.
Proof.
  intros H. induction l as [|x l IH]; [reflexivity|]. cbn [filter].
  destruct (g x) eqn:G; cbn [filter].
  - destruct (f x); now rewrite IH.
  - destruct (f x) eqn:F; [|exact IH]. apply H in F. congruence.
Qed.

Lemma filter_not_listed (l : list string) (p : string) (X : list string) :
  filter (fun x => negb (AssToVttConverter.contains (l ++ [p]) x)) X
  = filter (fun x => negb (AssToVttConverter.contains l x))
      (filter (fun y => negb (String.eqb y p)) X).
Proof.
  induction X as [|x X IH]; [reflexivity|]. cbn [filter].
  unfold AssToVttConverter.contains at 1. rewrite existsb_app.
  cbn [existsb]. rewrite orb_false_r.
  fold (AssToVttConverter.contains l x).
  destruct (String.eqb x p); cbn [negb filter].
  - rewrite orb_true_r. cbn [negb]. exact IH.
  - rewrite orb_false_r.
    destruct (AssToVttConverter.contains l x); cbn [negb]; now rewrite IH.
Qed.

(** The files after the loop of [add_files]: the paths returned, each at
    its first occurrence, without those listed before, after the files
    listed before. *)
Lemma add_paths_files (file_paths : list string) :
  forall st,
    files (add_paths file_paths st)
    = (files st
       ++ filter (fun p => negb (AssToVttConverter.contains (files st) p))
            (rev (nodup string_dec (rev file_paths))))%list.
Proof.
  induction file_paths as [|p rest IH]; intros st.
  - cbn. now rewrite app_nil_r.
  - rewrite first_occurrences_cons. cbn [add_paths filter].
    destruct (AssToVttConverter.contains (files st) p) eqn:C; cbn [negb].
    + rewrite IH. f_equal. symmetry. apply filter_narrow.
      intros x Hx. destruct (String.eqb_spec x p) as [->|]; [|reflexivity].
      rewrite C in Hx. discriminate.
    + rewrite IH. cbn [addItem set_files files].
      rewrite <- app_assoc. cbn [app]. now rewrite filter_not_listed.
Qed.

(** X16.  [add_files] keeps the list a set in the order of arrival: to
    [files] are appended the paths the dialog returns, in the order in which
    it returns them, each at its first occurrence and without those already
    listed (between the two [rev], [nodup] keeps the first occurrences), so
    that no path is listed twice; every row of the list widget shows the
    base name of the file at the same place; and adding the same paths again
    changes nothing. *)
Theorem add_files_listed (file_paths : list string) (st : t) :
  consistent st ->
  exists st' added,
    add_files file_paths st = Done st'
    /\ files st' = (files st ++ added)%list
    /\ added = filter (fun p => negb (AssToVttConverter.contains (files st) p))
                 (rev (nodup string_dec (rev file_paths)))
    /\ NoDup added
    /\ (forall p, In p added <-> In p file_paths /\ ~ In p (files st))
    /\ NoDup (files st')
    /\ map item_text (file_list st') = map OsPath.basename (files st')
    /\ add_files file_paths st' = Done st'.
Proof.
  intros H.
  destruct (add_paths_spec file_paths st) as (added & E1 & _ & _ & E4 & E5 & _).
  pose proof (add_paths_consistent file_paths st H) as H'.
  exists (add_paths file_paths st), added.
  split; [now apply add_files_done|]. split; [exact E1|].
  split; [rewrite add_paths_files in E1; now apply app_inv_head in E1|].
  split; [exact E5|]. split; [exact E4|].
  split; [apply H'|]. split; [apply H'|].
  rewrite add_files_done by exact H'.
  f_equal. apply add_paths_present. intros p Hp. rewrite E1.
  apply in_or_app.
  destruct (in_dec string_dec p (files st)) as [Hin|Hout]; [now left|].
  right. apply E4. now split.
Qed.

(** X16 on three chosen paths of which the third repeats the first: the
    first and the second are listed, in that order. *)
Lemma add_files_listed_witness :
  exists st',
    add_files ["/v/a.ass"; "/w/b.ass"; "/v/a.ass"] (state_of init) = Done st'
    /\ files st' = ["/v/a.ass"; "/w/b.ass"]
    /\ NoDup (files st')
    /\ map item_text (file_list st') = ["a.ass"; "b.ass"]
    /\ add_files ["/v/a.ass"; "/w/b.ass"; "/v/a.ass"] st' = Done st'.
Proof.
  destruct (add_files_listed ["/v/a.ass"; "/w/b.ass"; "/v/a.ass"]
              (state_of init) init_consistent)
    as (st' & added & E1 & E2 & E3 & _ & _ & E6 & E7 & E8).
  exists st'. rewrite E3 in E2. rewrite E2 in E7.
  split; [exact E1|]. split; [exact E2|]. split; [exact E6|].
  split; [exact E7 | exact E8].
Defined.

(** *** Removing files *)

(** ** Removing rows *)
Lemma remove_nth_length {A : Type} (l : list A) :
  forall k, k < List.length l ->
            List.length (remove_nth k l) = List.length l - 1.
Proof.
  induction l as [|x l IH]; intros k Hk; [cbn in Hk; lia|].
  destruct k as [|k]; cbn [remove_nth List.length]; [lia|].
  cbn in Hk. rewrite IH by lia. lia.
Qed.

Lemma remove_nth_combine {A B : Type} (a : list A) :
  forall (b : list B) k,
    combine (remove_nth k a) (remove_nth k b) = remove_nth k (combine a b).
Proof.
  induction a as [|x a IH]; intros b k.
  - now destruct k.
  - destruct b as [|y b].
    + destruct k; cbn [remove_nth combine]; [|reflexivity].
      now destruct a.
    + destruct k as [|k]; cbn [remove_nth combine]; [reflexivity|].
      now rewrite IH.
Qed.

(** Removing the only element that fails a test is filtering by the
    test. *)
Lemma remove_nth_filter {A : Type} (p : A -> bool) (l : list A) :
  forall k a,
    nth_error l k = Some a -> p a = false ->
    (forall j b, j <> k -> nth_error l j = Some b -> p b = true) ->
    remove_nth k l = filter p l.
Proof.
  induction l as [|x l IH]; intros k a Hk Ha Hother.
  - now destruct k.
  - destruct k as [|k]; cbn [remove_nth filter nth_error] in *.
    + injection Hk as ->. rewrite Ha. symmetry.
      apply forallb_filter_id. apply forallb_forall. intros b Hb.
      apply In_nth_error in Hb as [j Hj]. apply (Hother (S j)); [lia | exact Hj].
    + rewrite (Hother 0 x) by (lia || reflexivity). f_equal.
      apply (IH k a Hk Ha). intros j b Hj Hb.
      apply (Hother (S j)); [lia | exact Hb].
Qed.

(** The row of an item that the list holds. *)
Lemma row_found (l : list item) (it : item) :
  NoDup (map item_id l) -> In it l ->
  exists k,
    row l it = Z.of_nat k /\ k < List.length l /\ nth_error l k = Some it.
Proof.
  induction l as [|x l IH]; intros N H; [contradiction|].
  cbn [map] in N. inversion N as [|? ? Nx Nl]; subst. cbn [row].
  unfold item_eqb. destruct (Nat.eqb_spec (item_id x) (item_id it)) as [E|D].
  - exists 0. split; [reflexivity|]. split; [cbn; lia|].
    destruct H as [->|H]; [reflexivity|]. exfalso. apply Nx. rewrite E.
    now apply in_map.
  - destruct H as [->|H]; [congruence|].
    destruct (IH Nl H) as (k & R & Hk & Hn). exists (S k).
    rewrite R. split; [|split; [cbn; lia | exact Hn]].
    destruct k; cbn; [reflexivity | lia].
Qed.

Lemma nth_error_ids (l : list item) (j k : nat) (a b : item) :
  NoDup (map item_id l) ->
  nth_error l j = Some a -> nth_error l k = Some b -> j <> k ->
  item_id a <> item_id b.
Proof.
  intros N Ha Hb Hjk E. apply Hjk.
  apply (proj1 (NoDup_nth_error (map item_id l)) N).
  - apply nth_error_Some. rewrite nth_error_map, Ha. discriminate.
  - rewrite !nth_error_map, Ha, Hb. cbn [option_map]. now rewrite E.
Qed.

Lemma nodup_map_filter {A B : Type} (f : A -> B) (p : A -> bool) (l : list A) :
  NoDup (map f l) -> NoDup (map f (filter p l)).
Proof.
  induction l as [|x l IH]; cbn [map filter]; [auto|].
  intros N. inversion N as [|? ? Nx Nl]; subst.
  destruct (p x); [|auto]. cbn [map]. constructor; [|auto].
  intros H. apply Nx. apply in_map_iff in H as (y & E & Hy).
  apply filter_In in Hy as [Hy _]. rewrite <- E. now apply in_map.
Qed.

Lemma filter_filter {A : Type} (p q : A -> bool) (l : list A) :
  filter q (filter p l) = filter (fun x => p x && q x) l.
Proof.
  induction l as [|x l IH]; [reflexivity|]. cbn [filter].
  destruct (p x); cbn [filter andb]; [|exact IH].
  destruct (q x); now rewrite IH.
Qed.

Lemma map_snd_filter {A B : Type} (q : B -> bool) (a : list A) :
  forall b : list B, List.length a = List.length b ->
    map snd (filter (fun p => q (snd p)) (combine a b)) = filter q b
    /\ map fst (combine a b) = a.
Proof.
  induction a as [|x a IH]; intros [|y b] L; try discriminate; [now split|].
  cbn [combine filter map fst snd]. injection L as L.
  destruct (IH b L) as [E1 E2]. rewrite E2.
  destruct (q y); cbn [map snd]; now rewrite E1.
Qed.

(** The loop of [remove_files]: each selected item is found at its row of
    the moment, and the row and the file at that place are removed
    together. *)
Lemma remove_files_spec (selected_items : list item) :
  forall st,
    List.length (files st) = List.length (file_list st) ->
    NoDup (map item_id (file_list st)) ->
    NoDup (map item_id selected_items) ->
    (forall it, In it selected_items -> In it (file_list st)) ->
    exists st',
      remove_files selected_items st = Done st'
      /\ combine (files st') (file_list st')
         = filter (fun p => negb (existsb (item_eqb (snd p)) selected_items))
             (combine (files st) (file_list st))
      /\ List.length (files st') = List.length (file_list st')
      /\ current_lang st' = current_lang st
      /\ translations st' = translations st
      /\ shown st' = shown st
      /\ enabled st' = enabled st
      /\ items_made st' = items_made st
      /\ suffix_input st' = suffix_input st
      /\ progress_bar st' = progress_bar st
      /\ workers st' = workers st
      /\ boxes st' = boxes st.
Proof.
  induction selected_items as [|it rest IH]; intros st L N Ns Hin.
  - exists st. cbn [remove_files]. split; [reflexivity|].
    split; [|repeat split; assumption || reflexivity].
    symmetry. apply forallb_filter_id. now apply forallb_forall.
  - cbn [map] in Ns. inversion Ns as [|? ? Nit Nrest]; subst.
    destruct (row_found (file_list st) it N (Hin it (or_introl eq_refl)))
      as (k & R & Hk & Hn).
    cbn [remove_files]. rewrite R. unfold takeItem, del.
    cbn [set_file_list files file_list].
    replace ((0 <=? Z.of_nat k)%Z && (Z.of_nat k <? Z.of_nat (List.length (file_list st)))%Z)
      with true by (symmetry; apply andb_true_iff; split;
                    [apply Z.leb_le | apply Z.ltb_lt]; lia).
    replace ((0 <=? Z.of_nat k)%Z && (Z.of_nat k <? Z.of_nat (List.length (files st)))%Z)
      with true by (symmetry; apply andb_true_iff; split;
                    [apply Z.leb_le | apply Z.ltb_lt]; lia).
    rewrite Nat2Z.id.
    set (st1 := set_files (remove_nth k (files st))
                  (set_file_list (remove_nth k (file_list st)) st)).
    assert (remove_nth k (file_list st)
            = filter (fun x => negb (item_eqb x it)) (file_list st)) as Ef.
    { apply (remove_nth_filter _ _ k it Hn).
      - unfold item_eqb. now rewrite Nat.eqb_refl.
      - intros j b Hj Hb. unfold item_eqb. apply negb_true_iff, Nat.eqb_neq.
        now apply (nth_error_ids (file_list st) j k). }
    assert (combine (files st1) (file_list st1)
            = filter (fun p => negb (item_eqb (snd p) it))
                (combine (files st) (file_list st))) as Ez.
    { subst st1. cbn [set_files set_file_list files file_list].
      rewrite remove_nth_combine.
      assert (exists f, nth_error (files st) k = Some f) as [f Hf].
      { destruct (nth_error (files st) k) eqn:E; [eauto|].
        apply nth_error_None in E. lia. }
      apply (remove_nth_filter _ _ k (f, it)).
      - clear - Hf Hn. revert Hf Hn. generalize (files st) (file_list st).
        induction k as [|k IHk]; intros [|x a] [|y b]; cbn; try discriminate.
        + now intros [= ->] [= ->].
        + apply IHk.
      - cbn [snd]. unfold item_eqb. now rewrite Nat.eqb_refl.
      - intros j [g b] Hj Hb. cbn [snd]. unfold item_eqb.
        apply negb_true_iff, Nat.eqb_neq.
        apply (nth_error_ids (file_list st) j k); try assumption.
        clear - Hb. revert Hb. generalize (files st) (file_list st).
        induction j as [|j IHj]; intros [|x a] [|y c]; cbn; try discriminate.
        + now intros [= _ ->].
        + apply IHj. }
    destruct (IH st1) as (st' & E0 & E1 & E2 & E3).
    + subst st1. cbn [set_files set_file_list files file_list].
      rewrite !remove_nth_length by lia. lia.
    + subst st1. cbn [set_files set_file_list files file_list].
      rewrite Ef. now apply nodup_map_filter.
    + exact Nrest.
    + intros it' H'. subst st1. cbn [set_files set_file_list files file_list].
      rewrite Ef. apply filter_In. split; [apply Hin; now right|].
      unfold item_eqb. apply negb_true_iff, Nat.eqb_neq. intros E.
      apply Nit. rewrite <- E. now apply in_map.
    + exists st'. split; [exact E0|]. split; [|split; [exact E2 | exact E3]].
      rewrite E1, Ez, filter_filter. apply filter_ext. intros [g b].
      cbn [snd existsb]. now rewrite negb_orb.
Qed.

(** Rows and files side by side. *)
Lemma aligned_zip (a : list string) :
  forall b : list item,
    map item_text b = map OsPath.basename a <->
    List.length a = List.length b
    /\ Forall (fun p => item_text (snd p) = OsPath.basename (fst p))
         (combine a b).
Proof.
  induction a as [|x a IH]; intros [|y b]; cbn [map combine List.length].
  - split; [split; [reflexivity | constructor] | reflexivity].
  - split; [discriminate | intros [? _]; discriminate].
  - split; [discriminate | intros [? _]; discriminate].
  - rewrite Forall_cons_iff. cbn [fst snd]. split.
    + intros [= E1 E2]. apply IH in E2 as [L F]. auto.
    + intros ([= L] & E & F). f_equal; [exact E|]. apply IH. auto.
Qed.

Lemma unzip {A B : Type} (a : list A) :
  forall b : list B, List.length a = List.length b ->
    map fst (combine a b) = a /\ map snd (combine a b) = b.
Proof.
  induction a as [|x a IH]; intros [|y b] L; try discriminate; [now split|].
  injection L as L. destruct (IH b L) as [E1 E2]. cbn. now rewrite E1, E2.
Qed.

Lemma remove_files_ok (selected_items : list item) (st : t) :
  consistent st ->
  NoDup (map item_id selected_items) ->
  (forall it, In it selected_items -> In it (file_list st)) ->
  exists st', remove_files selected_items st = Done st' /\ consistent st'.
Proof.
  intros (Lg & D & A & N1 & N2 & F) Ns Hin.
  apply aligned_zip in A as [L Al].
  destruct (remove_files_spec selected_items st L N2 Ns Hin)
    as (st' & E0 & E1 & E2 & E3 & E4 & _ & _ & E5 & _).
  exists st'. split; [exact E0|].
  destruct (unzip (files st) (file_list st) L) as [U1 U2].
  destruct (unzip (files st') (file_list st') E2) as [V1 V2].
  unfold consistent. rewrite E3, E4, E5.
  split; [exact Lg|]. split; [exact D|]. split; [|split; [|split]].
  - apply aligned_zip. split; [exact E2|]. rewrite E1.
    apply Forall_forall. intros p Hp. apply filter_In in Hp as [Hp _].
    rewrite Forall_forall in Al. now apply Al.
  - rewrite <- V1, E1. apply nodup_map_filter. now rewrite U1.
  - rewrite <- V2, E1, map_map.
    apply (nodup_map_filter (fun p => item_id (snd p))).
    now rewrite <- map_map, U2.
  - apply Forall_forall. intros it Hit. rewrite Forall_forall in F. apply F.
    rewrite <- V2, E1 in Hit. apply in_map_iff in Hit as (p & <- & Hp).
    apply filter_In in Hp as [Hp _]. rewrite <- U2. now apply in_map.
Qed.

(** X17.  [remove_files] removes exactly the selected rows and the files
    they stand for, in whatever order Qt returns the selection: the row of
    each item is looked up again after every removal, so the pairs of a
    file and its row that remain are those whose row was not selected, in
    their order, and the rows still show the base names of the files. *)
Theorem remove_files_selected (selected_items : list item) (st : t) :
  consistent st ->
  NoDup (map item_id selected_items) ->
  (forall it, In it selected_items -> In it (file_list st)) ->
  exists st',
    remove_files selected_items st = Done st'
    /\ combine (files st') (file_list st')
       = filter (fun p => negb (existsb (item_eqb (snd p)) selected_items))
           (combine (files st) (file_list st))
    /\ file_list st'
       = filter (fun it => negb (existsb (item_eqb it) selected_items))
           (file_list st)
    /\ map item_text (file_list st') = map OsPath.basename (files st')
    /\ NoDup (files st').
Proof.
  intros H Ns Hin.
  destruct (remove_files_ok selected_items st H Ns Hin) as (st' & E & H').
  destruct H as (_ & _ & A & _ & N2 & _).
  apply aligned_zip in A as [L _].
  destruct (remove_files_spec selected_items st L N2 Ns Hin)
    as (st2 & E0 & E1 & E2 & _).
  assert (st2 = st') as -> by congruence.
  exists st'. split; [exact E|]. split; [exact E1|].
  destruct H' as (_ & _ & A' & N1' & _).
  split; [|split; [exact A' | exact N1']].
  destruct (unzip (files st') (file_list st') E2) as [_ V2].
  rewrite <- V2, E1.
  apply (map_snd_filter (fun it => negb (existsb (item_eqb it) selected_items))
           (files st) (file_list st) L).
Qed.

(** X17 on the sample window, the third row selected before the first. *)
Lemma remove_files_selected_witness :
  exists st',
    remove_files [mk_item 2 "b.ass"; mk_item 0 "a.ass"] Samples.window = Done st'
    /\ combine (files st') (file_list st')
       = filter (fun p => negb (existsb (item_eqb (snd p))
                                  [mk_item 2 "b.ass"; mk_item 0 "a.ass"]))
           (combine (files Samples.window) (file_list Samples.window))
    /\ file_list st'
       = filter (fun it => negb (existsb (item_eqb it)
                                   [mk_item 2 "b.ass"; mk_item 0 "a.ass"]))
           (file_list Samples.window)
    /\ map item_text (file_list st') = map OsPath.basename (files st')
    /\ NoDup (files st').
Proof.
  apply (remove_files_selected [mk_item 2 "b.ass"; mk_item 0 "a.ass"]
           Samples.window).
  - apply window_sample_consistent.
  - cbn. repeat constructor; cbn; intuition discriminate.
  - intros it [<-|[<-|[]]]; vm_compute; auto.
Defined.

(** *** Slots *)

Lemma update_progress_ok (value : Z) (st : t) :
  consistent st ->
  exists st', update_progress value st = Done st' /\ consistent st'.
Proof.
  intros H. eexists. split; [reflexivity|].
  unfold setValue. destruct (_ && _); [|exact H].
  now apply (consistent_same st).
Qed.

Lemma handle_error_ok (error_msg : string) (st : t) :
  consistent st ->
  exists st', handle_error error_msg st = Done st' /\ consistent st'.
Proof.
  intros H. table st H; unfold handle_error, tr; rewrite <- T; cbn [getitem String.eqb Ascii.eqb Bool.eqb];
    (eexists; split; [reflexivity | now apply (consistent_same st)]).
Qed.

Lemma file_converted_ok (filename : string) (st : t) :
  consistent st ->
  exists st', file_converted filename st = Done st' /\ consistent st'.
Proof.
  intros H. table st H; unfold file_converted, tr; rewrite <- T; lookups;
    unfold format; cbn [format_from];
    (eexists; split; [reflexivity | now apply (consistent_same st)]).
Qed.

Lemma conversion_finished_ok (st : t) :
  consistent st ->
  exists st', conversion_finished st = Done st' /\ consistent st'.
Proof.
  intros H. table st H; unfold conversion_finished, tr;
    cbn [translations setEnabled setText]; rewrite <- T; lookups;
    (eexists; split; [reflexivity | now apply (consistent_same st)]).
Qed.

Lemma convert_files_ok (st : t) :
  consistent st ->
  exists st', convert_files st = Done st' /\ consistent st'.
Proof.
  intros H. unfold convert_files. destruct (files st) as [|f fs] eqn:F.
  - table st H; unfold tr; rewrite <- T; lookups;
      (eexists; split; [reflexivity | now apply (consistent_same st)]).
  - destruct (String.eqb (PyStr.strip (suffix_input st)) "").
    + table st H; unfold tr; rewrite <- T; lookups;
        (eexists; split; [reflexivity | now apply (consistent_same st)]).
    + eexists. split; [reflexivity|]. now apply (consistent_same st).
Qed.

Lemma add_files_ok (file_paths : list string) (st : t) :
  consistent st ->
  exists st', add_files file_paths st = Done st' /\ consistent st'.
Proof.
  intros H. exists (add_paths file_paths st). split.
  - table st H; unfold add_files, tr; rewrite <- T; lookups; reflexivity.
  - now apply add_paths_consistent.
Qed.

Lemma clear_files_ok (st : t) :
  consistent st ->
  exists st', clear_files st = Done st' /\ consistent st'.
Proof.
  intros (L & D & _). eexists. split; [reflexivity|].
  unfold consistent. cbn. repeat split; try assumption; constructor.
Qed.

Lemma switch_language_ok (lang_code : string) (st : t) :
  lang_code = "en" \/ lang_code = "zh" ->
  consistent st ->
  exists st', switch_language lang_code st = Done st' /\ consistent st'.
Proof.
  intros [-> | ->] H;
    unfold switch_language, LANGUAGES; cbn [current_lang set_current_lang];
    lookups; unfold retranslate_ui, tr;
    cbn [translations set_translations set_current_lang setText]; lookups;
    cbn [shown setText set_translations set_current_lang widget_eqb
           widget_index Nat.eqb];
    match goal with
    | |- context [if ?c then _ else if ?c' then _ else _] =>
        destruct c; [|destruct c']
    end;
    (eexists; split; [reflexivity|]);
    (apply (consistent_switch st);
     [(left; reflexivity) || (right; reflexivity) | reflexivity .. | exact H]).
Qed.

(** X18.  [convert_files] starts nothing when no file is listed or when the
    suffix field holds nothing but whitespace: it opens one warning box,
    titled and worded in the language of the window (about the files when
    both fail), and leaves the window as it was: no worker, no button
    disabled. *)
Theorem convert_files_refused (st : t) :
  consistent st ->
  files st = [] \/ PyStr.strip (suffix_input st) = "" ->
  exists title text,
    getitem (translations st) "warning" = Some title
    /\ getitem (translations st)
         (match files st with
          | [] => "no_files_added"
          | _ :: _ => "invalid_suffix"
          end) = Some text
    /\ convert_files st = Done (open_box (warning title text) st).
Proof.
  intros H C. unfold convert_files.
  destruct (files st) as [|f l] eqn:F.
  - table st H; unfold tr; rewrite <- T; lookups;
      (eexists; eexists; repeat split; reflexivity).
  - destruct C as [C|C]; [discriminate|]. rewrite C. cbn [String.eqb].
    table st H; unfold tr; rewrite <- T; lookups;
      (eexists; eexists; repeat split; reflexivity).
Qed.

(** X18 on the window as [__init__] leaves it, without files. *)
Lemma convert_files_refused_witness :
  exists title text,
    getitem (translations (state_of init)) "warning" = Some title
    /\ getitem (translations (state_of init))
         (match files (state_of init) with
          | [] => "no_files_added"
          | _ :: _ => "invalid_suffix"
          end) = Some text
    /\ convert_files (state_of init)
       = Done (open_box (warning title text) (state_of init)).
Proof.
  apply (convert_files_refused (state_of init)).
  - apply init_consistent.
  - left. reflexivity.
Defined.

(** *** A batch seen from the window *)

(** ** A batch seen from the window *)
Lemma progress_of_range (k total : nat) :
  k < total -> (0 <= progress_of k total <= 100)%Z.
Proof.
  intros H. split; [apply progress_of_nonneg; lia|].
  rewrite <- (progress_of_last total) by lia. apply progress_of_mono; lia.
Qed.

Lemma after_app (a b : list event) (st : t) :
  after (a ++ b) st = after b (after a st).
Proof. revert st. induction a as [|ev a IH]; intros st; [reflexivity | apply IH]. Qed.

Lemma last_cons {A : Type} (l : list A) (v d : A) :
  last (v :: l) d = last l v.
Proof.
  revert v d. induction l as [|x l IH]; intros v d; [reflexivity|].
  change (last (v :: x :: l) d) with (last (x :: l) d).
  now rewrite (IH x d), (IH x v).
Qed.

Lemma file_converted_done (filename : string) (st : t) :
  consistent st ->
  exists text, file_converted filename st = Done (setText StatusLabel text st).
Proof.
  intros H. table st H; unfold file_converted, tr; rewrite <- T; lookups;
    unfold format; cbn [format_from]; eexists; reflexivity.
Qed.

Lemma handle_error_done (error_msg title : string) (st : t) :
  getitem (translations st) "error" = Some title ->
  handle_error error_msg st
  = Done (open_box (critical title (utf8 error_msg)) st).
Proof. intros E. unfold handle_error, tr. now rewrite E. Qed.

(** The signals of the loop of [run], brought to the window in order. *)
Lemma after_notifications (sigs : list signal) (title : string) :
  forall st,
    consistent st ->
    getitem (translations st) "error" = Some title ->
    filter is_finished sigs = [] ->
    Forall (fun v => (0 <= v <= 100)%Z) (progress_values sigs) ->
    let st' := after (map emitted sigs) st in
    consistent st'
    /\ current_lang st' = current_lang st
    /\ translations st' = translations st
    /\ enabled st' = enabled st
    /\ files st' = files st
    /\ file_list st' = file_list st
    /\ workers st' = workers st
    /\ boxes st'
       = (boxes st ++ map (fun m => critical title (utf8 m)) (errors sigs))%list
    /\ progress_bar st' = last (progress_values sigs) (progress_bar st).
Proof.
  induction sigs as [|s sigs IH]; intros st H E Hf Hp.
  - cbn [map after progress_values errors last]. rewrite app_nil_r.
    cbn zeta. split; [exact H|]. repeat split; reflexivity.
  - cbn [map after]. destruct s as [v|name| |msg].
    + cbn [progress_values] in Hp. inversion Hp as [|? ? Hv Hrest]; subst.
      cbn [dispatch]. unfold update_progress, setValue. cbn [state_of].
      replace ((0 <=? v)%Z && (v <=? 100)%Z) with true
        by (symmetry; apply andb_true_iff; split; apply Z.leb_le; lia).
      match goal with |- context [after _ ?x] => set (st1 := x) end.
      destruct (IH st1) as (I0 & I1 & I2 & I3 & I4 & I5 & I6 & I7 & I8);
        [now apply (consistent_same st) | exact E | exact Hf | exact Hrest |].
      cbn zeta in *. cbn [progress_values errors]. rewrite last_cons.
      subst st1.
      cbn [current_lang translations enabled files file_list workers boxes
             progress_bar] in I1, I2, I3, I4, I5, I6, I7, I8.
      split; [exact I0|]. repeat split; assumption.
    + cbn [dispatch].
      destruct (file_converted_done name st H) as (text & ->). cbn [state_of].
      match goal with |- context [after _ ?x] => set (st1 := x) end.
      destruct (IH st1) as (I0 & I1 & I2 & I3 & I4 & I5 & I6 & I7 & I8);
        [now apply (consistent_same st) | exact E | exact Hf | exact Hp |].
      cbn zeta in *. cbn [progress_values errors]. subst st1.
      cbn [current_lang translations enabled files file_list workers boxes
             progress_bar setText] in I1, I2, I3, I4, I5, I6, I7, I8.
      split; [exact I0|]. repeat split; assumption.
    + discriminate.
    + cbn [dispatch]. rewrite (handle_error_done msg title st E). cbn [state_of].
      match goal with |- context [after _ ?x] => set (st1 := x) end.
      destruct (IH st1) as (I0 & I1 & I2 & I3 & I4 & I5 & I6 & I7 & I8);
        [now apply (consistent_same st) | exact E | exact Hf | exact Hp |].
      cbn zeta in *. cbn [progress_values errors map]. subst st1.
      cbn [current_lang translations enabled files file_list workers boxes
             progress_bar open_box] in I1, I2, I3, I4, I5, I6, I7, I8.
      rewrite <- app_assoc in I7.
      split; [exact I0|]. repeat split; assumption.
Qed.

Lemma errors_app (a b : list signal) :
  errors (a ++ b) = (errors a ++ errors b)%list.
Proof.
  induction a as [|x a IH]; [reflexivity|].
  destruct x; cbn [app errors]; now rewrite IH.
Qed.

(** The signals of a batch: those of the loop, none of them
    [conversion_finished], with progress values between 0 and 100, and
    [conversion_finished] at the end. *)
Lemma run_signals_shape (fs : FS.t) (paths : list string) (suffix : string) :
  exists loop,
    fst (run fs paths suffix)
    = (loop ++ [ConversionWorker.conversion_finished])%list
    /\ filter is_finished loop = []
    /\ Forall (fun v => (0 <= v <= 100)%Z) (progress_values loop).
Proof.
  exists (fst (run_loop fs suffix (List.length paths) 0 paths)).
  split; [apply run_signals|]. rewrite run_loop_signals.
  pose proof (outcomes_length paths fs suffix) as L.
  pose proof (notifications_census (List.length paths)
                (outcomes fs suffix paths) 0) as C.
  cbn zeta in C. rewrite L in C. destruct C as (_ & _ & C3 & C4).
  split; [exact C3|]. rewrite C4. apply Forall_forall.
  intros v [k [<- Hin]]%in_map_iff. apply positions_ge in Hin.
  apply progress_of_range. lia.
Qed.

(** X19.  A batch seen from the window.  With files listed and a suffix
    that is not blank, [convert_files] starts one worker on the listed files
    and the stripped suffix.  Until [conversion_finished] is handled, the
    four buttons are disabled: a click on any of them changes nothing, and
    the list of files stays what the worker was given.  Once all signals
    are handled, the four buttons are enabled again, the status label shows
    the completion text of the language, the progress bar shows the last
    progress value emitted (its earlier value if none was), and the boxes
    opened are one error box for each [error_occurred], in order, followed
    by the box that says all files were converted successfully, which is
    opened whether or not a file failed. *)
Theorem convert_files_batch (fs : FS.t) (st : t) :
  consistent st ->
  files st <> [] ->
  PyStr.strip (suffix_input st) <> "" ->
  let suffix := PyStr.strip (suffix_input st) in
  let started := state_of (convert_files st) in
  let sigs := fst (run fs (files st) suffix) in
  let finished := after (map emitted sigs) started in
  workers started = (workers st ++ [(files st, suffix)])%list
  /\ (forall before rest,
        sigs = (before ++ rest)%list -> rest <> [] ->
        let running := after (map emitted before) started in
        (forall file_paths,
           dispatch (add_clicked file_paths) running = Done running)
        /\ (forall selected_items,
              dispatch (remove_clicked selected_items) running = Done running)
        /\ dispatch clear_clicked running = Done running
        /\ dispatch convert_clicked running = Done running
        /\ files running = files st)
  /\ (enabled finished ConvertBtn = true
      /\ enabled finished AddFilesBtn = true
      /\ enabled finished RemoveFilesBtn = true
      /\ enabled finished ClearFilesBtn = true)
  /\ getitem (translations st) "conversion_completed"
     = Some (shown finished StatusLabel)
  /\ (exists error success all_files_converted,
        getitem (translations st) "error" = Some error
        /\ getitem (translations st) "success" = Some success
        /\ getitem (translations st) "all_files_converted"
           = Some all_files_converted
        /\ boxes finished
           = (boxes st
              ++ map (fun msg => critical error (utf8 msg)) (errors sigs)
              ++ [information success all_files_converted])%list)
  /\ progress_bar finished = last (progress_values sigs) (progress_bar st)
  /\ files finished = files st
  /\ file_list finished = file_list st.
Proof.
  intros H Hfiles Hsuffix suffix started sigs finished.
  assert (started
          = start (files st) suffix
              (setEnabled ClearFilesBtn false
                 (setEnabled RemoveFilesBtn false
                    (setEnabled AddFilesBtn false
                       (setEnabled ConvertBtn false st))))) as Es.
  { subst started. unfold convert_files.
    destruct (files st) as [|f l] eqn:F; [congruence|].
    apply String.eqb_neq in Hsuffix. cbv zeta. rewrite Hsuffix.
    cbn [state_of setEnabled files]. now rewrite F. }
  assert (consistent started) as Hs
    by (rewrite Es; now apply (consistent_same st)).
  destruct (run_signals_shape fs (files st) suffix) as (loop & El & Hf & Hp).
  fold sigs in El.
  assert (exists error success all_files_converted completed,
            getitem (translations st) "error" = Some error
            /\ getitem (translations st) "success" = Some success
            /\ getitem (translations st) "all_files_converted"
               = Some all_files_converted
            /\ getitem (translations st) "conversion_completed"
               = Some completed)
    as (error & success & all_files_converted & completed & G1 & G2 & G3 & G4).
  { table st H; rewrite <- T; lookups; repeat eexists. }
  assert (translations started = translations st) as Et by now rewrite Es.
  destruct (after_notifications loop error started Hs) as
    (I0 & I1 & I2 & I3 & I4 & I5 & I6 & I7 & I8);
    [now rewrite Et | exact Hf | exact Hp |].
  cbn zeta in *.
  set (mid := after (map emitted loop) started) in *.
  assert (finished
          = open_box (information success all_files_converted)
              (setText StatusLabel completed
                 (setEnabled ClearFilesBtn true
                    (setEnabled RemoveFilesBtn true
                       (setEnabled AddFilesBtn true
                          (setEnabled ConvertBtn true mid)))))) as Ef.
  { subst finished. rewrite El, map_app, after_app. fold mid.
    cbn [map after dispatch]. unfold conversion_finished, tr.
    cbn [translations setEnabled setText]. rewrite I2, Et, G4, G2, G3.
    reflexivity. }
  split; [now rewrite Es|]. split.
  { intros before rest Eb Hrest.
    set (running := after (map emitted before) started).
    destruct (exists_last Hrest) as (rest' & x & ->).
    rewrite El, app_assoc in Eb. apply app_inj_tail in Eb as [Eb _].
    assert (filter is_finished before = []) as Hf'.
    { rewrite Eb, filter_app in Hf. now apply app_eq_nil in Hf. }
    assert (Forall (fun v => (0 <= v <= 100)%Z) (progress_values before)) as Hp'.
    { rewrite Eb, progress_values_app in Hp. now apply Forall_app in Hp. }
    destruct (after_notifications before error started Hs) as
      (_ & _ & _ & J3 & J4 & _);
      [now rewrite Et | exact Hf' | exact Hp' |].
    cbn zeta in J3, J4. fold running in J3, J4.
    cbn [dispatch]. unfold click. rewrite J3, J4, Es.
    repeat split; reflexivity. }
  rewrite Ef. split; [repeat split; reflexivity|].
  split; [exact G4|]. split.
  { exists error, success, all_files_converted.
    split; [exact G1|]. split; [exact G2|]. split; [exact G3|].
    cbn [boxes open_box setText setEnabled]. rewrite I7, El, errors_app.
    cbn [errors]. rewrite app_nil_r, <- app_assoc. now rewrite Es. }
  cbn [progress_bar files file_list open_box setText setEnabled].
  rewrite I8, I4, I5, El, progress_values_app. cbn [progress_values].
  rewrite app_nil_r, Es. repeat split; reflexivity.
Qed.

(** X19 on the sample window and the sample disk. *)
Lemma convert_files_batch_witness :
  workers (state_of (convert_files Samples.window))
  = (workers Samples.window
     ++ [(files Samples.window, PyStr.strip (suffix_input Samples.window))])%list
  /\ progress_bar
       (after (map emitted
                 (fst (run Samples.disk (files Samples.window)
                         (PyStr.strip (suffix_input Samples.window)))))
          (state_of (convert_files Samples.window)))
     = last (progress_values
               (fst (run Samples.disk (files Samples.window)
                       (PyStr.strip (suffix_input Samples.window)))))
         (progress_bar Samples.window).
Proof.
  destruct (convert_files_batch Samples.disk Samples.window)
    as (W & _ & _ & _ & _ & P & _).
  - apply window_sample_consistent.
  - vm_compute. discriminate.
  - vm_compute. discriminate.
  - split; [exact W | exact P].
Defined.

(** *** Languages *)

(** X20.  [switch_language] to English or Chinese loads the table of the
    language and sets the window title, the three group titles, the four
    buttons and the suffix label from it.  The status label follows only
    when it shows the ready text or the completion text of either language;
    any other status (the last [Converted: ...] line) stays as it is, in
    the language it was written in.  The language menu and its two entries
    are not touched, nor are the files, the rows, the buttons' state, the
    progress bar and the boxes. *)
Theorem switch_language_texts (lang_code : string) (st : t) :
  lang_code = "en" \/ lang_code = "zh" ->
  exists st' d,
    switch_language lang_code st = Done st'
    /\ getitem LANGUAGES lang_code = Some d
    /\ current_lang st' = lang_code
    /\ translations st' = d
    /\ Forall (fun p => getitem d (snd p) = Some (shown st' (fst p)))
         [(Window, "window_title"); (FileGroup, "files");
          (SettingsGroup, "settings"); (ProgressGroup, "progress");
          (AddFilesBtn, "add_files"); (RemoveFilesBtn, "remove_selected");
          (ClearFilesBtn, "clear_all"); (ConvertBtn, "convert_files");
          (SuffixLabel, "output_suffix")]
    /\ (if AssToVttConverter.contains ["Ready"; "就绪"] (shown st StatusLabel)
        then getitem d "ready" = Some (shown st' StatusLabel)
        else if AssToVttConverter.contains
                  ["Conversion completed!"; "转换完成！"] (shown st StatusLabel)
        then getitem d "conversion_completed" = Some (shown st' StatusLabel)
        else shown st' StatusLabel = shown st StatusLabel)
    /\ (shown st' LanguageMenu = shown st LanguageMenu
        /\ shown st' EnglishAction = shown st EnglishAction
        /\ shown st' ChineseAction = shown st ChineseAction)
    /\ (files st' = files st /\ file_list st' = file_list st
        /\ enabled st' = enabled st /\ boxes st' = boxes st
        /\ progress_bar st' = progress_bar st /\ workers st' = workers st
        /\ suffix_input st' = suffix_input st).
Proof.
  assert (forall b : bool, b || false = b) as orb_f by (now intros []).
  intros [-> | ->];
    unfold switch_language, LANGUAGES; cbn [current_lang set_current_lang];
    lookups; unfold retranslate_ui, tr;
    cbn [translations set_translations set_current_lang setText]; lookups;
    cbn [shown setText set_translations set_current_lang widget_eqb
           widget_index Nat.eqb];
    unfold AssToVttConverter.contains; cbn [existsb]; rewrite !orb_f;
    set (a := String.eqb (shown st StatusLabel) "Ready");
    set (b := String.eqb (shown st StatusLabel) "就绪");
    set (c := String.eqb (shown st StatusLabel) "Conversion completed!");
    set (d := String.eqb (shown st StatusLabel) "转换完成！");
    (destruct a; [|destruct b; [|destruct c; [|destruct d]]]);
    rewrite ?orb_true_r; cbn [orb];
    (eexists; eexists; split; [reflexivity|]);
    (split; [reflexivity|]); (split; [reflexivity|]); (split; [reflexivity|]);
    (split; [repeat constructor|]);
    (split; [reflexivity|]); (split; [repeat split; reflexivity|]);
    repeat split; reflexivity.
Qed.

(** X20 after a file was converted under the English table: the button is
    relabelled, the status line and the menu stay English. *)
Lemma switch_language_texts_witness :
  exists st',
    switch_language "zh" (state_of (file_converted "a.ass" (state_of init)))
    = Done st'
    /\ shown st' ConvertBtn = "转换文件"
    /\ shown st' StatusLabel = "Converted: a.ass"
    /\ shown st' LanguageMenu = "Language".
Proof.
  destruct (switch_language_texts "zh"
              (state_of (file_converted "a.ass" (state_of init))))
    as (st' & d & E & D & _ & _ & F & S & (M & _) & _); [now right|].
  exists st'. split; [exact E|].
  vm_compute in D. injection D as <-.
  rewrite Forall_forall in F.
  specialize (F (ConvertBtn, "convert_files")). cbn [fst snd] in F.
  split; [|split].
  - cbn [getitem String.eqb Ascii.eqb Bool.eqb] in F.
    assert (Some "转换文件" = Some (shown st' ConvertBtn)) as [= <-];
      [apply F; cbn; tauto | reflexivity].
  - vm_compute in S. exact S.
  - rewrite M. reflexivity.
Defined.

(** *** Every window the program can be in *)

Lemma dispatch_ok (ev : event) (st : t) :
  consistent st -> possible st ev ->
  exists st', dispatch ev st = Done st' /\ consistent st'.
Proof.
  intros H P. destruct ev as [paths|sel| | | | |text|[v|name| |msg]];
    cbn [dispatch]; unfold click;
    try match goal with
        | |- context [if enabled st ?w then _ else _] =>
            destruct (enabled st w); [|now exists st]
        end.
  - now apply add_files_ok.
  - destruct P as [Ns Hin]. now apply remove_files_ok.
  - now apply clear_files_ok.
  - now apply convert_files_ok.
  - apply switch_language_ok; auto.
  - apply switch_language_ok; auto.
  - eexists. split; [reflexivity|]. now apply (consistent_same st).
  - now apply update_progress_ok.
  - now apply file_converted_ok.
  - now apply conversion_finished_ok.
  - now apply handle_error_ok.
Qed.

(** X21.  Whatever the user does and whatever signals arrive, in any
    order, the window stays consistent: its language is English or Chinese
    with the table of that language loaded, the rows of the list show the
    base names of the files in order, no file is listed twice; and no slot
    raises: every lookup in the table of translations finds its key, the
    status line is formatted, and [remove_files] finds every selected
    row. *)
Theorem window_consistent (st : t) :
  reachable st ->
  consistent st
  /\ forall ev, possible st ev -> exists st', dispatch ev st = Done st'.
Proof.
  intros R.
  assert (consistent st) as H.
  { induction R as [st E|st ev R IH P].
    - destruct init_ok as (st0 & E0 & H0). congruence.
    - destruct (dispatch_ok ev st IH P) as (st' & E & H). now rewrite E. }
  split; [exact H|]. intros ev P.
  destruct (dispatch_ok ev st H P) as (st' & E & _). eauto.
Qed.

(** X21 after files were added, the language changed and a batch started. *)
Lemma window_consistent_witness :
  consistent
    (state_of (dispatch convert_clicked
       (state_of (dispatch chinese_triggered
          (state_of (dispatch (add_clicked ["a.ass"; "b.ass"])
             (state_of init)))))))
  /\ forall ev,
       possible
         (state_of (dispatch convert_clicked
            (state_of (dispatch chinese_triggered
               (state_of (dispatch (add_clicked ["a.ass"; "b.ass"])
                  (state_of init))))))) ev ->
       exists st',
         dispatch ev
           (state_of (dispatch convert_clicked
              (state_of (dispatch chinese_triggered
                 (state_of (dispatch (add_clicked ["a.ass"; "b.ass"])
                    (state_of init))))))) = Done st'.
Proof.
  apply window_consistent.
  apply reachable_step; [|exact I].
  apply reachable_step; [|exact I].
  apply reachable_step; [|exact I].
  apply reachable_init. vm_compute. reflexivity.
Defined.

End Window.

(** ** Worked examples *)

Section Examples.

(** The two timestamps of the specification. *)
Example timestamp_0_01_02_50 :
  ass_time_to_vtt_time "0:01:02.50" = Ok "00:01:02.500".
Proof. reflexivity. Qed.

Example timestamp_1_23_45_07 :
  ass_time_to_vtt_time "1:23:45.07" = Ok "01:23:45.070".
Proof. reflexivity. Qed.

Example timestamp_three_digit_hours :
  ass_time_to_vtt_time "123:23:45.07" = Ok "123:23:45.070".
Proof. reflexivity. Qed.

(** What [int] and [02d] make of a sign, blanks and an underscore. *)
Example timestamp_lenient :
  ass_time_to_vtt_time "-1: 2 :4_5.07" = Ok "-1:02:45.070".
Proof. reflexivity. Qed.

Example timestamp_two_fields : ass_time_to_vtt_time "1:2" = Raise ValueError.
Proof. reflexivity. Qed.

Example timestamp_no_colon : ass_time_to_vtt_time "abc" = Raise ValueError.
Proof. reflexivity. Qed.

(** The substitution of the model against [re.sub]. *)
Example sub_blocks :
  Re.sub block_pattern ""
    "{\b1}bold{\b0} {\x no close and {\a}b}c{\}d{\\}e{}f"
  = Re.Done "bold b}cde{}f".
Proof. reflexivity. Qed.

Example strip_loop_blocks :
  strip_loop 0 "{\b1}bold{\b0} {\x no close and {\a}b}c{\}d{\\}e{}f"
  = "bold b}cde{}f".
Proof. reflexivity. Qed.

(** The pairing pattern as it would read with a closed set. *)
Example sub_pairs_closed_set :
  Re.sub "\{\\b1?\}([^}]*?)\{\\b0\}" "<b>\1</b>" "x{\b1}bold{\b0}y{\b}z{\b0}"
  = Re.Done "x<b>bold</b>y<b>z</b>".
Proof. reflexivity. Qed.

Example sub_empty_matches : Re.sub "x*" "-" "abxd" = Re.Done "-a-b--d-".
Proof. reflexivity. Qed.

Example sub_lazy_star : Re.sub "\\*?" "" "1\\{1}" = Re.Done "1{1}".
Proof. reflexivity. Qed.

(** The errors of [re.compile], with the messages of [re.error]. *)
Example compile_errors :
  Re.compile "a**" = Re.Error "multiple repeat"
  /\ Re.compile "*a" = Re.Error "nothing to repeat"
  /\ Re.compile "(a" = Re.Error "missing ), unterminated subpattern"
  /\ Re.compile "a)" = Re.Error "unbalanced parenthesis"
  /\ Re.compile "[a" = Re.Error "unterminated character set"
  /\ Re.compile "[]" = Re.Error "unterminated character set"
  /\ Re.compile "[^]" = Re.Error "unterminated character set"
  /\ Re.compile "[a\" = Re.Error "bad escape (end of pattern)"
  /\ Re.sub "a" "\1" "a" = Re.Error "invalid group reference 1".
Proof. repeat split; reflexivity. Qed.

Example compile_sets :
  Re.compile "[]a]" = Re.Done [Re.Atom (Re.CharSet false ["]"; "a"]%char) Re.One]
  /\ Re.compile "[^]a]b"
     = Re.Done [Re.Atom (Re.CharSet true ["]"; "a"]%char) Re.One;
                Re.Atom (Re.Lit "b") Re.One].
Proof. repeat split; reflexivity. Qed.

Example clean_position : clean_ass_formatting "{\pos(100,200)}Hello" = "Hello".
Proof. reflexivity. Qed.

Example clean_plain : clean_ass_formatting "Hello, world" = "Hello, world".
Proof. reflexivity. Qed.

(** The values of [int((i + 1) / total * 100)] for 7, 100 and 250 files, as
    Python computes them: 28 and 56 come twice and 29 and 58 never for 100
    files. *)
Example progress_of_7 :
  map (fun i => progress_of i 7) (seq 0 7) = [14; 28; 42; 57; 71; 85; 100]%Z.
Proof. vm_compute. reflexivity. Qed.

Example progress_of_100 :
  map (fun i => progress_of i 100) (seq 0 100) = [1; 2; 3; 4; 5; 6; 7; 8; 9; 10; 11; 12; 13; 14; 15; 16; 17; 18; 19; 20; 21; 22; 23; 24; 25; 26; 27; 28; 28; 30; 31; 32; 33; 34; 35; 36; 37; 38; 39; 40; 41; 42; 43; 44; 45; 46; 47; 48; 49; 50; 51; 52; 53; 54; 55; 56; 56; 57; 59; 60; 61; 62; 63; 64; 65; 66; 67; 68; 69; 70; 71; 72; 73; 74; 75; 76; 77; 78; 79; 80; 81; 82; 83; 84; 85; 86; 87; 88; 89; 90; 91; 92; 93; 94; 95; 96; 97; 98; 99; 100]%Z.
Proof. vm_compute. reflexivity. Qed.

Example progress_of_250 :
  map (fun i => progress_of i 250) (seq 0 250) = [0; 0; 1; 1; 2; 2; 2; 3; 3; 4; 4; 4; 5; 5; 6; 6; 6; 7; 7; 8; 8; 8; 9; 9; 10; 10; 10; 11; 11; 12; 12; 12; 13; 13; 14; 14; 14; 15; 15; 16; 16; 16; 17; 17; 18; 18; 18; 19; 19; 20; 20; 20; 21; 21; 22; 22; 22; 23; 23; 24; 24; 24; 25; 25; 26; 26; 26; 27; 27; 28; 28; 28; 29; 29; 30; 30; 30; 31; 31; 32; 32; 32; 33; 33; 34; 34; 34; 35; 35; 36; 36; 36; 37; 37; 38; 38; 38; 39; 39; 40; 40; 40; 41; 41; 42; 42; 42; 43; 43; 44; 44; 44; 45; 45; 46; 46; 46; 47; 47; 48; 48; 48; 49; 49; 50; 50; 50; 51; 51; 52; 52; 52; 53; 53; 54; 54; 54; 55; 55; 56; 56; 56; 57; 57; 57; 58; 58; 59; 59; 60; 60; 60; 61; 61; 62; 62; 62; 63; 63; 64; 64; 64; 65; 65; 66; 66; 66; 67; 67; 68; 68; 68; 69; 69; 70; 70; 70; 71; 71; 72; 72; 72; 73; 73; 74; 74; 74; 75; 75; 76; 76; 76; 77; 77; 78; 78; 78; 79; 79; 80; 80; 80; 81; 81; 82; 82; 82; 83; 83; 84; 84; 84; 85; 85; 86; 86; 86; 87; 87; 88; 88; 88; 89; 89; 90; 90; 90; 91; 91; 92; 92; 92; 93; 93; 94; 94; 94; 95; 95; 96; 96; 96; 97; 97; 98; 98; 98; 99; 99; 100]%Z.
Proof. vm_compute. reflexivity. Qed.

(** A script with two dialogue lines: two numbered cues under the header. *)
Example convert_sample_script :
  exists fs',
    convert_ass_to_vtt Samples.disk "a.ass" "en.vtt" = (Ok "a.en.vtt", fs')
    /\ FS.node_at fs' "a.en.vtt"
       = Some (FS.File (FS.Text (PyStr.join PyStr.nl
           ["WEBVTT FILE"; "";
            "1"; "00:00:01.000 --> 00:00:02.500"; "Hello, world"; "";
            "2"; "00:00:03.000 --> 00:00:04.000"; "Bye"; ""]))).
Proof. eexists. split; vm_compute; reflexivity. Qed.

(** A file that stops decoding after four lines: the first loop ends on
    the error with one event and the section entered, and the second loop,
    started from that state, reads the [Dialogue:] line at the top as an
    event before it leaves at [[Script Info]]. *)
Example parse_undecodable_retry :
  parse_ass_file
    (FS.mk (fun p =>
              if String.eqb p "bad.ass"
              then Some (FS.File (FS.Undecodable
                     ["Dialogue: 0,0:00:09.00,0:00:10.00,Default,,0,0,0,,early";
                      "[Script Info]"; "[Events]";
                      "Dialogue: 0,0:00:01.00,0:00:02.00,Default,,0,0,0,,hi"]
                     ["Dialogue: 0,0:00:09.00,0:00:10.00,Default,,0,0,0,,early";
                      "[Script Info]"; "[Events]";
                      "Dialogue: 0,0:00:01.00,0:00:02.00,Default,,0,0,0,,hi"]
                     "invalid start byte"))
              else None)
           (fun _ _ => None) (fun _ _ => None))
    "bad.ass"
  = Ok [("0:00:01.00", "0:00:02.00", "hi"); ("0:00:09.00", "0:00:10.00", "early")].
Proof. reflexivity. Qed.

Example splitext_examples :
  OsPath.splitext_root "dir.d/clip.ass" = "dir.d/clip"
  /\ OsPath.splitext_root "dir.d/clip" = "dir.d/clip"
  /\ OsPath.splitext_root "/x/.hidden" = "/x/.hidden"
  /\ OsPath.splitext_root "a.b.ass" = "a.b"
  /\ OsPath.basename "/x/y/clip.ass" = "clip.ass".
Proof. repeat split; reflexivity. Qed.

(** [repr] of the model against Python's, and the text of an error of
    [open] on a path that holds a quote. *)
Example repr_examples :
  PyStr.repr "dir/a.ass" = "'dir/a.ass'"
  /\ PyStr.repr "it's"
     = String (ascii_of_nat 34) ("it's" ++ String (ascii_of_nat 34) "")
  /\ PyStr.repr ("it's " ++ String (ascii_of_nat 34) "")
     = "'it\'s " ++ String (ascii_of_nat 34) "'"
  /\ PyStr.repr "a\b" = "'a\\b'"
  /\ PyStr.repr (String (ascii_of_nat 9) (String (ascii_of_nat 1)
                  (String (ascii_of_nat 233) (String (ascii_of_nat 160) ""))))
     = "'\t\x01" ++ String (ascii_of_nat 233) "\xa0'"
  /\ FS.open_read
       (FS.mk (fun _ => Some FS.Directory) (fun _ _ => None) (fun _ _ => None))
       "it's"
     = Raise (OSError ("[Errno 21] Is a directory: "
                       ++ String (ascii_of_nat 34)
                            ("it's" ++ String (ascii_of_nat 34) ""))).
Proof. repeat split; reflexivity. Qed.

(** [int] at the limit of 4300 digits: underscores are not counted, leading
    zeros are. *)
Example int_limit_examples :
  PyInt.parse (PyInt.zeros 4299 ++ "7") = Some 7%Z
  /\ PyInt.parse ("-" ++ PyInt.zeros 4299 ++ "7") = Some (-7)%Z
  /\ PyInt.parse (PyInt.zeros 4300 ++ "7") = None
  /\ PyInt.parse ("1_" ++ PyInt.zeros 4299) = Some (10 ^ 4299)%Z
  /\ PyInt.parse ("1_0_" ++ PyInt.zeros 4299) = None.
Proof. split; [|split; [|split; [|split]]]; vm_compute; reflexivity. Qed.

(** A batch on a full disk: the output file is created and left empty, and
    the error is reported. *)
Example run_full_disk :
  fst (run Samples.full_disk ["a.ass"] "vtt")
  = [error_occurred
       "Error converting a.ass: [Errno 28] No space left on device";
     conversion_finished]
  /\ FS.node_at Samples.full_disk "a.vtt" = None
  /\ FS.node_at (snd (run Samples.full_disk ["a.ass"] "vtt")) "a.vtt"
     = Some (FS.File (FS.Text "")).
Proof. split; [|split]; vm_compute; reflexivity. Qed.

(** [str.format] of the model against Python's. *)
Example format_examples :
  AssToVttConverter.format "a{}b" "ARG" = inl "aARGb"
  /\ AssToVttConverter.format "{{}}" "ARG" = inl "{}"
  /\ AssToVttConverter.format "{{{}}}" "ARG" = inl "{ARG}"
  /\ AssToVttConverter.format "}}{{" "ARG" = inl "}{"
  /\ AssToVttConverter.format "plain" "ARG" = inl "plain"
  /\ AssToVttConverter.format "{}{}" "ARG" = inr AssToVttConverter.IndexError
  /\ AssToVttConverter.format "x{" "ARG" = inr AssToVttConverter.ValueError
  /\ AssToVttConverter.format "x}y" "ARG" = inr AssToVttConverter.ValueError
  /\ AssToVttConverter.format "{}}" "ARG" = inr AssToVttConverter.ValueError
  /\ AssToVttConverter.format "{}{" "ARG" = inr AssToVttConverter.ValueError
  /\ AssToVttConverter.format "已转换: {}" "a.ass" = inl "已转换: a.ass".
Proof. repeat split; reflexivity. Qed.

(** [del l[r]] and [takeItem(r)] at and beyond the bounds. *)
Example del_examples :
  AssToVttConverter.del 0 ["a"; "b"; "c"] = Some ["b"; "c"]
  /\ AssToVttConverter.del 2 ["a"; "b"; "c"] = Some ["a"; "b"]
  /\ AssToVttConverter.del 3 ["a"; "b"; "c"] = None
  /\ AssToVttConverter.del (-1) ["a"; "b"; "c"] = Some ["a"; "b"]
  /\ AssToVttConverter.del (-3) ["a"; "b"; "c"] = Some ["b"; "c"]
  /\ AssToVttConverter.del (-4) ["a"; "b"; "c"] = None
  /\ AssToVttConverter.del (-1) (@nil string) = None
  /\ AssToVttConverter.takeItem (-1)
       [AssToVttConverter.mk_item 0 "a"; AssToVttConverter.mk_item 1 "b"]
     = [AssToVttConverter.mk_item 0 "a"; AssToVttConverter.mk_item 1 "b"]
  /\ AssToVttConverter.row
       [AssToVttConverter.mk_item 0 "a"; AssToVttConverter.mk_item 1 "b"]
       (AssToVttConverter.mk_item 1 "b") = 1%Z
  /\ AssToVttConverter.row
       [AssToVttConverter.mk_item 0 "a"; AssToVttConverter.mk_item 1 "b"]
       (AssToVttConverter.mk_item 7 "b") = (-1)%Z.
Proof. repeat split; reflexivity. Qed.

(** The two bytes of a character above 127. *)
Example utf8_examples :
  AssToVttConverter.utf8 "a.ass" = "a.ass"
  /\ AssToVttConverter.utf8 (String (ascii_of_nat 233) "")
     = String (ascii_of_nat 195) (String (ascii_of_nat 169) "")
  /\ AssToVttConverter.utf8 (String (ascii_of_nat 128) "")
     = String (ascii_of_nat 194) (String (ascii_of_nat 128) "")
  /\ AssToVttConverter.utf8 (String (ascii_of_nat 255) "")
     = String (ascii_of_nat 195) (String (ascii_of_nat 191) "").
Proof. repeat split; reflexivity. Qed.

(** The window as [__init__] leaves it. *)
Example window_after_init :
  exists st,
    AssToVttConverter.init = AssToVttConverter.Done st
    /\ map (AssToVttConverter.shown st)
         [AssToVttConverter.Window; AssToVttConverter.LanguageMenu;
          AssToVttConverter.ChineseAction; AssToVttConverter.AddFilesBtn;
          AssToVttConverter.StatusLabel; AssToVttConverter.ConvertBtn]
       = ["ASS to VTT Converter"; "Language"; "中文"; "Add Files"; "Ready";
          "Convert Files"]
    /\ AssToVttConverter.suffix_input st = "vtt"
    /\ AssToVttConverter.progress_bar st = 0%Z
    /\ AssToVttConverter.files st = [].
Proof.
  exists (AssToVttConverter.state_of AssToVttConverter.init).
  split; [|split; [|split; [|split]]]; vm_compute; reflexivity.
Qed.

(** A batch on the sample window: the second file is missing, the others
    convert; the window ends at 100 with one error box and the box of
    success. *)
Example window_after_batch :
  let st :=
    AssToVttConverter.after
      (AssToVttConverter.convert_clicked
       :: map AssToVttConverter.emitted
            (fst (run Samples.disk ["a.ass"; "x/missing.ass"; "b.ass"] "vtt")))
      Samples.window in
  AssToVttConverter.boxes st
  = [AssToVttConverter.critical "Error"
       "Error converting missing.ass: ASS file not found: x/missing.ass";
     AssToVttConverter.information "Success"
       "All files converted successfully!"]
  /\ AssToVttConverter.progress_bar st = 100%Z
  /\ AssToVttConverter.shown st AssToVttConverter.StatusLabel
     = "Conversion completed!"
  /\ AssToVttConverter.workers st
     = [(["a.ass"; "x/missing.ass"; "b.ass"], "vtt")].
Proof.
  intros st. split; [|split; [|split]]; vm_compute; reflexivity.
Qed.

(** The rows of the sample window, and the window after the third and the
    first are removed. *)
Example window_rows :
  AssToVttConverter.file_list Samples.window
  = [AssToVttConverter.mk_item 0 "a.ass";
     AssToVttConverter.mk_item 1 "missing.ass";
     AssToVttConverter.mk_item 2 "b.ass"]
  /\ AssToVttConverter.files
       (AssToVttConverter.state_of
          (AssToVttConverter.remove_files
             [AssToVttConverter.mk_item 2 "b.ass";
              AssToVttConverter.mk_item 0 "a.ass"] Samples.window))
     = ["x/missing.ass"].
Proof. split; vm_compute; reflexivity. Qed.

End Examples.
